(** * T1D-AI prediction-and-decay core: shallow embedding and verified properties

    The embedding follows the Python sources under [backend/src]:
    - [services/iob_cob_service.py]      -> [IOBCOB]
    - [services/prediction_service.py]   -> [Dose], [Prediction]
    - [ml/inference/linear_prediction.py]-> [Linear]
    - [ml/inference/isf_inference.py]    -> [ISF]
    - [ml/inference/bg_inference.py]     -> [BG]
    - [ml/feature_engineering.py]        -> [Features]
    - [services/accuracy_service.py]     -> [Accuracy]

    Numbers.  A Python [float] is read as a real number: [+ - * /], [abs],
    [max], [min] and the comparisons are the real ones, [0.5 ** x] is
    [Rpower (1/2) x], and [round] is rounding half to even.  Overflow, NaN and
    the last-bit rounding of binary floating point are outside the model.
    A [datetime] is a real number of seconds, so that
    [(a - b).total_seconds()] is [a - b].

    Failure.  A Python exception is a value [Raise e] of [result]. *)

From Stdlib Require Import Reals Lra Lia ZArith String List Sorted Bool.
Import ListNotations.
Open Scope R_scope.

(** ** Exceptions and results *)

Inductive exn : Type :=
| ZeroDivisionError
| IndexError
| KeyError
| TypeError
| RuntimeError.

Inductive result (A : Type) : Type :=
| Ok (a : A)
| Raise (e : exn).

Arguments Ok {A} a.
Arguments Raise {A} e.

Definition bind {A B : Type} (m : result A) (k : A -> result B) : result B :=
  match m with
  | Ok a => k a
  | Raise e => Raise e
  end.

Notation "x <- m ;; k" := (bind m (fun x => k))
  (at level 61, m at next level, right associativity).
Notation "' p <- m ;; k" := (bind m (fun p => k))
  (at level 61, p pattern, m at next level, right associativity).

(** ** Python numerics on the reals *)

Module PyFloat.

Definition Rleb (x y : R) : bool := if Rle_dec x y then true else false.
Definition Rltb (x y : R) : bool := if Rlt_dec x y then true else false.
Definition Reqb (x y : R) : bool := if Req_dec_T x y then true else false.

(** [round(x)]: the nearest integer, a tie going to the even one. *)
Definition round_half_even (x : R) : Z :=
  let f := Zfloor x in
  let d := x - IZR f in
  if Rltb d (1 / 2) then f
  else if Rltb (1 / 2) d then (f + 1)%Z
  else if Z.even f then f else (f + 1)%Z.

(** [round(x, ndigits)]. *)
Definition py_round (x : R) (ndigits : nat) : R :=
  IZR (round_half_even (x * 10 ^ ndigits)) / 10 ^ ndigits.

(** [x / y], which raises on a zero divisor. *)
Definition py_div (x y : R) : result R :=
  if Reqb y 0 then Raise ZeroDivisionError else Ok (x / y).

(** [max(lo, min(hi, x))]. *)
Definition clamp (lo hi x : R) : R := Rmax lo (Rmin hi x).

Lemma Rleb_true x y : Rleb x y = true <-> x <= y.
Proof. unfold Rleb; destruct (Rle_dec x y); split; auto; discriminate. Qed.

Lemma Rleb_false x y : Rleb x y = false <-> y < x.
Proof.
  unfold Rleb; destruct (Rle_dec x y); split; intros; try discriminate; lra.
Qed.

Lemma Rltb_true x y : Rltb x y = true <-> x < y.
Proof. unfold Rltb; destruct (Rlt_dec x y); split; auto; discriminate. Qed.

Lemma Rltb_false x y : Rltb x y = false <-> y <= x.
Proof.
  unfold Rltb; destruct (Rlt_dec x y); split; intros; try discriminate; lra.
Qed.

Lemma Reqb_true x y : Reqb x y = true <-> x = y.
Proof. unfold Reqb; destruct (Req_dec_T x y); split; auto; discriminate. Qed.

Lemma Reqb_false x y : Reqb x y = false <-> x <> y.
Proof.
  unfold Reqb; destruct (Req_dec_T x y); split; intros; try discriminate;
    try contradiction; auto.
Qed.

(** The rounded value is the floor or the floor plus one. *)
Lemma round_half_even_floor x :
  (Zfloor x <= round_half_even x <= Zfloor x + 1)%Z.
Proof.
  unfold round_half_even.
  destruct (Rltb _ _); [lia|].
  destruct (Rltb _ _); [lia|].
  destruct (Z.even _); lia.
Qed.

Lemma round_half_even_IZR z : round_half_even (IZR z) = z.
Proof.
  unfold round_half_even. rewrite ZfloorZ.
  replace (IZR z - IZR z) with 0 by lra.
  assert (H : Rltb 0 (1 / 2) = true) by (apply Rltb_true; lra).
  now rewrite H.
Qed.

Lemma round_half_even_le x y :
  x <= y -> (round_half_even x <= round_half_even y)%Z.
Proof.
  intros Hxy.
  pose proof (Zfloor_le x y Hxy) as Hf.
  destruct (Z.eq_dec (Zfloor x) (Zfloor y)) as [E|NE].
  - unfold round_half_even. rewrite <- E.
    destruct (Rltb (x - _) _) eqn:X1.
    + destruct (Rltb (y - _) _); [lia|].
      destruct (Rltb _ (y - _)); [lia|]. destruct (Z.even _); lia.
    + apply Rltb_false in X1.
      destruct (Rltb (y - _) _) eqn:Y1; [apply Rltb_true in Y1; lra|].
      destruct (Rltb _ (x - _)) eqn:X2.
      * apply Rltb_true in X2.
        assert (Y2 : Rltb (1 / 2) (y - IZR (Zfloor x)) = true)
          by (apply Rltb_true; lra).
        rewrite Y2; lia.
      * destruct (Rltb _ (y - _)); destruct (Z.even _); lia.
  - pose proof (round_half_even_floor x). pose proof (round_half_even_floor y).
    lia.
Qed.

Lemma pow10_pos n : 0 < 10 ^ n.
Proof. apply pow_lt; lra. Qed.

Lemma py_round_IZR z n : py_round (IZR z / 10 ^ n) n = IZR z / 10 ^ n.
Proof.
  unfold py_round. pose proof (pow10_pos n).
  replace (IZR z / 10 ^ n * 10 ^ n) with (IZR z) by (field; lra).
  now rewrite round_half_even_IZR.
Qed.

(** An integer is its own rounding. *)
Lemma py_round_integer z n : py_round (IZR z) n = IZR z.
Proof.
  unfold py_round. pose proof (pow10_pos n) as Hp.
  replace (IZR z * 10 ^ n) with (IZR (z * 10 ^ Z.of_nat n))
    by (now rewrite mult_IZR, <- pow_IZR).
  rewrite round_half_even_IZR, mult_IZR, <- pow_IZR. field. lra.
Qed.

Lemma py_round_0 n : py_round 0 n = 0.
Proof.
  unfold py_round. rewrite Rmult_0_l.
  rewrite (round_half_even_IZR 0). pose proof (pow10_pos n). field; lra.
Qed.

Lemma py_round_le x y n : x <= y -> py_round x n <= py_round y n.
Proof.
  intros Hxy. unfold py_round. pose proof (pow10_pos n) as Hp.
  apply Rmult_le_compat_r; [left; now apply Rinv_0_lt_compat|].
  apply IZR_le, round_half_even_le. nra.
Qed.

Lemma py_round_nonneg x n : 0 <= x -> 0 <= py_round x n.
Proof. intros H. rewrite <- (py_round_0 n). now apply py_round_le. Qed.

Lemma py_round_nonpos x n : x <= 0 -> py_round x n <= 0.
Proof. intros H. rewrite <- (py_round_0 n). now apply py_round_le. Qed.

(** Rounding commutes with the floor at zero: [round(max(0, x), n)] is
    [max(0, round(x, n))]. *)
Lemma py_round_Rmax_0 x n : py_round (Rmax 0 x) n = Rmax 0 (py_round x n).
Proof.
  destruct (Rle_dec 0 x) as [H|H].
  - rewrite Rmax_right by assumption.
    rewrite Rmax_right; [reflexivity | now apply py_round_nonneg].
  - rewrite Rmax_left by lra. rewrite py_round_0.
    rewrite Rmax_left; [reflexivity | apply py_round_nonpos; lra].
Qed.

Lemma clamp_bounds lo hi x : lo <= hi -> lo <= clamp lo hi x <= hi.
Proof.
  intros H. unfold clamp. split; [apply Rmax_l|].
  apply Rmax_lub; [assumption | apply Rmin_l].
Qed.

(** [0.5 ** x] is positive and does not grow with [x]. *)
Lemma half_pow_pos x : 0 < Rpower (1 / 2) x.
Proof. unfold Rpower. apply exp_pos. Qed.

Lemma ln_half_neg : ln (1 / 2) < 0.
Proof.
  replace (1 / 2) with (/ 2) by lra.
  rewrite ln_Rinv by lra. pose proof ln_lt_2. lra.
Qed.

Lemma half_pow_antitone x y : x <= y -> Rpower (1 / 2) y <= Rpower (1 / 2) x.
Proof.
  intros [Hlt|Heq]; [|subst; lra].
  left. unfold Rpower. apply exp_increasing.
  pose proof ln_half_neg. nra.
Qed.

End PyFloat.

(** ** Feature sequences *)

(** A numpy array of shape (1, seq_length, n_feat), row by row; [None] is
    NaN. *)
Definition FeatureSequence : Type := list (list (option R)).

(** ** Python lists *)

Module PyList.

(** The slice [l[start:]] of Python, for any integer [start]. *)
Definition slice_from {A : Type} (start : Z) (l : list A) : list A :=
  let n := Z.of_nat (length l) in
  let s := if (start <? 0)%Z then Z.max 0 (start + n) else Z.min start n in
  skipn (Z.to_nat s) l.

(** [l[-1]]. *)
Definition last_item {A : Type} (l : list A) : result A :=
  match rev l with
  | x :: _ => Ok x
  | [] => Raise IndexError
  end.

(** [l[0]]. *)
Definition first_item {A : Type} (l : list A) : result A :=
  match l with
  | x :: _ => Ok x
  | [] => Raise IndexError
  end.

(** [l[i]] for an index [i >= 0]. *)
Definition item {A : Type} (l : list A) (i : nat) : result A :=
  match nth_error l i with
  | Some x => Ok x
  | None => Raise IndexError
  end.

(** [deque(maxlen=n).append(x)]: a full deque drops its oldest element, and
    a deque of capacity 0 stays empty. *)
Definition deque_append {A : Type} (maxlen : nat) (d : list A) (x : A) : list A :=
  if (maxlen =? 0)%nat then d
  else if (length d <? maxlen)%nat then d ++ [x]
  else tl d ++ [x].

Lemma slice_from_short {A : Type} (k : nat) (l : list A) :
  (length l <= k)%nat -> slice_from (- Z.of_nat k) l = l.
Proof.
  intros H. unfold slice_from.
  destruct (Z.ltb_spec (- Z.of_nat k) 0) as [Hk|Hk].
  - rewrite Z.max_l by lia. reflexivity.
  - assert (k = 0%nat) by lia. subst k.
    assert (length l = 0%nat) by lia.
    destruct l; [reflexivity | discriminate].
Qed.

Lemma slice_from_length {A : Type} (k : nat) (l : list A) :
  (k <= length l)%nat -> (0 < k)%nat ->
  length (slice_from (- Z.of_nat k) l) = k.
Proof.
  intros H Hk. unfold slice_from.
  destruct (Z.ltb_spec (- Z.of_nat k) 0) as [Hlt|Hge]; [|lia].
  rewrite Z.max_r by lia. rewrite length_skipn. lia.
Qed.

End PyList.

(** ** DecayEngine: [services/iob_cob_service.py] *)

Module IOBCOB.
Import PyFloat.

(** Seconds since the epoch. *)
Definition datetime : Type := R.

(** The fields of [models.schemas.Treatment] that the service reads. *)
Record Treatment : Type := mkTreatment {
  timestamp : datetime;
  insulin : option R;
  carbs : option R
}.

Record IOBCOBService : Type := mkIOBCOBService {
  insulin_duration_min : Z;
  insulin_half_life_min : R;
  carb_duration_min : Z;
  carb_half_life_min : R;
  carb_bg_factor : R;
  target_bg : Z
}.

(** [IOBCOBService()] with the defaults of [__init__]. *)
Definition default_service : IOBCOBService :=
  mkIOBCOBService 180 81 180 45 4 100.

(** [t.insulin and t.insulin > 0] (and the same test on [t.carbs]): [None]
    and [0.0] are falsy. *)
Definition positive_amount (a : option R) : bool :=
  match a with
  | Some x => Rltb 0 x
  | None => false
  end.

(** [(at_time - treatment.timestamp.replace(tzinfo=None)).total_seconds() / 60] *)
Definition time_elapsed (at_time : datetime) (t : Treatment) : R :=
  (at_time - timestamp t) / 60.

(** The [for treatment in ...] loop of [calculate_iob] and [calculate_cob];
    the two bodies differ only in the field read, the duration and the
    half-life. *)
Fixpoint decay_loop (amount : Treatment -> option R) (duration : Z)
    (half_life : R) (at_time : datetime) (ts : list Treatment) (total : R)
    : result R :=
  match ts with
  | [] => Ok total
  | treatment :: rest =>
      let te := time_elapsed at_time treatment in
      if Rleb 0 te && Rleb te (IZR duration) then
        e <- py_div te half_life ;;
        let decay_factor := Rpower (1 / 2) e in
        match amount treatment with
        | Some a =>
            decay_loop amount duration half_life at_time rest
              (total + a * decay_factor)
        | None => Raise TypeError
        end
      else decay_loop amount duration half_life at_time rest total
  end.

(** [at_time or datetime.utcnow()]; [utcnow] is the clock reading. *)
Definition at_time_or (at_time : option datetime) (utcnow : datetime) : datetime :=
  match at_time with
  | Some t => t
  | None => utcnow
  end.

Definition calculate_iob (self : IOBCOBService) (utcnow : datetime)
    (treatments : list Treatment) (at_time : option datetime) : result R :=
  match treatments with
  | [] => Ok 0
  | _ =>
      let at_time := at_time_or at_time utcnow in
      let insulin_treatments :=
        filter (fun t => positive_amount (insulin t)) treatments in
      total_iob <- decay_loop insulin (insulin_duration_min self)
                     (insulin_half_life_min self) at_time insulin_treatments 0 ;;
      Ok (py_round total_iob 2)
  end.

Definition calculate_cob (self : IOBCOBService) (utcnow : datetime)
    (treatments : list Treatment) (at_time : option datetime) : result R :=
  match treatments with
  | [] => Ok 0
  | _ =>
      let at_time := at_time_or at_time utcnow in
      let carb_treatments :=
        filter (fun t => positive_amount (carbs t)) treatments in
      total_cob <- decay_loop carbs (carb_duration_min self)
                     (carb_half_life_min self) at_time carb_treatments 0 ;;
      Ok (py_round total_cob 1)
  end.

(** [calculate_dose_recommendation]: the pair [(dose, effective_bg)]. *)
Definition calculate_dose_recommendation (self : IOBCOBService)
    (current_bg : Z) (iob cob isf : R) : R * Z :=
  if Rleb isf 0 then (0, current_bg)
  else
    let cob_effect := cob * carb_bg_factor self in
    let iob_effect := iob * isf in
    let effective_bg := IZR current_bg + cob_effect - iob_effect in
    let effective_bg := round_half_even effective_bg in
    let correction_needed := (effective_bg - target_bg self)%Z in
    if (correction_needed <=? 0)%Z then (0, effective_bg)
    else
      let dose := IZR correction_needed / isf in
      let dose := py_round (Rmax 0 dose) 2 in
      (dose, effective_bg).

(** *** Properties *)

Section DecayLoop.

Variable amount : Treatment -> option R.
Variable duration : Z.
Variable half_life : R.
Variable at_time : datetime.

(** Events past the action duration leave the running total untouched. *)
Lemma decay_loop_cutoff (ts : list Treatment) (total : R) :
  (forall e, In e ts -> IZR duration < time_elapsed at_time e) ->
  decay_loop amount duration half_life at_time ts total = Ok total.
Proof.
  revert total. induction ts as [|t ts IH]; intros total Hall; simpl.
  - reflexivity.
  - assert (Hle : Rleb (time_elapsed at_time t) (IZR duration) = false).
    { apply Rleb_false. apply Hall. now left. }
    rewrite Hle, andb_false_r. apply IH. intros e He. apply Hall. now right.
Qed.

(** With a non-zero half-life and positive amounts the loop returns, and
    the total only grows. *)
Lemma decay_loop_grows (ts : list Treatment) (total : R) :
  half_life <> 0 ->
  (forall e, In e ts -> positive_amount (amount e) = true) ->
  exists v, decay_loop amount duration half_life at_time ts total = Ok v
            /\ total <= v.
Proof.
  intros Hhl. revert total.
  induction ts as [|t ts IH]; intros total Hpos; simpl.
  - exists total. split; [reflexivity | lra].
  - assert (Hts : forall e, In e ts -> positive_amount (amount e) = true)
      by (intros e He; apply Hpos; now right).
    destruct (Rleb 0 _ && Rleb _ _).
    + unfold py_div. apply Reqb_false in Hhl. rewrite Hhl. simpl.
      specialize (Hpos t (or_introl eq_refl)).
      destruct (amount t) as [a|]; [|discriminate].
      simpl in Hpos. apply Rltb_true in Hpos.
      destruct (IH (total + a * Rpower (1 / 2) (time_elapsed at_time t / half_life)) Hts)
        as (v & Hv & Hle).
      exists v. split; [assumption|].
      pose proof (half_pow_pos (time_elapsed at_time t / half_life)). nra.
    + now apply IH.
Qed.

End DecayLoop.

Lemma filter_cutoff (p : Treatment -> bool) (d : Z) (at_time : datetime)
    (ts : list Treatment) :
  (forall e, In e ts -> IZR d < time_elapsed at_time e) ->
  forall e, In e (filter p ts) -> IZR d < time_elapsed at_time e.
Proof. intros H e He. apply filter_In in He. now apply H. Qed.

Lemma calculate_iob_cutoff self utcnow ts at_time :
  (forall e, In e ts ->
     IZR (insulin_duration_min self)
     < time_elapsed (at_time_or at_time utcnow) e) ->
  calculate_iob self utcnow ts at_time = Ok 0.
Proof.
  intros H. unfold calculate_iob. destruct ts as [|t ts]; [reflexivity|].
  rewrite decay_loop_cutoff by (now apply filter_cutoff).
  simpl. now rewrite py_round_0.
Qed.

Lemma calculate_cob_cutoff self utcnow ts at_time :
  (forall e, In e ts ->
     IZR (carb_duration_min self)
     < time_elapsed (at_time_or at_time utcnow) e) ->
  calculate_cob self utcnow ts at_time = Ok 0.
Proof.
  intros H. unfold calculate_cob. destruct ts as [|t ts]; [reflexivity|].
  rewrite decay_loop_cutoff by (now apply filter_cutoff).
  simpl. now rewrite py_round_0.
Qed.

(** C3. Hard cutoff: when every event of the list lies more than the
    configured action duration before the query time (the given [at_time],
    or the clock reading when none is given), [calculate_iob] returns
    exactly 0, and [calculate_cob] does the same with the carb duration. *)
Theorem hard_cutoff_iob_cob (self : IOBCOBService) (utcnow : datetime)
    (treatments : list Treatment) (at_time : option datetime) :
  let t := at_time_or at_time utcnow in
  ((forall e, In e treatments ->
      IZR (insulin_duration_min self) < time_elapsed t e) ->
   calculate_iob self utcnow treatments at_time = Ok 0)
  /\
  ((forall e, In e treatments ->
      IZR (carb_duration_min self) < time_elapsed t e) ->
   calculate_cob self utcnow treatments at_time = Ok 0).
Proof.
  intros t. split; intros H.
  - now apply calculate_iob_cutoff.
  - now apply calculate_cob_cutoff.
Qed.

(** The bolus of [test_iob_old_bolus]: 5 units, four hours old. *)
Definition old_bolus : Treatment := mkTreatment 0 (Some 5) None.

Lemma hard_cutoff_iob_cob_witness :
  calculate_iob default_service 0 [old_bolus] (Some 14400) = Ok 0
  /\ calculate_cob default_service 0 [old_bolus] (Some 14400) = Ok 0.
Proof.
  split.
  - apply (proj1 (hard_cutoff_iob_cob default_service 0 [old_bolus]
                    (Some 14400))).
    intros e [<-|[]]. unfold time_elapsed; simpl. lra.
  - apply (proj2 (hard_cutoff_iob_cob default_service 0 [old_bolus]
                    (Some 14400))).
    intros e [<-|[]]. unfold time_elapsed; simpl. lra.
Defined.

Lemma calculate_iob_nonneg self utcnow ts at_time :
  insulin_half_life_min self <> 0 ->
  exists v, calculate_iob self utcnow ts at_time = Ok v /\ 0 <= v.
Proof.
  intros Hhl. unfold calculate_iob. destruct ts as [|t ts].
  - exists 0. split; [reflexivity | lra].
  - set (l := filter _ _).
    destruct (decay_loop_grows insulin (insulin_duration_min self)
                (insulin_half_life_min self) (at_time_or at_time utcnow) l 0 Hhl)
      as (v & Hv & Hle).
    { intros e He. apply filter_In in He. tauto. }
    rewrite Hv. simpl. eexists. split; [reflexivity|].
    now apply py_round_nonneg.
Qed.

(** IOB of one bolus at a query time at or after it. *)
Lemma calculate_iob_single self utcnow e t :
  insulin_half_life_min self <> 0 ->
  timestamp e <= t ->
  calculate_iob self utcnow [e] (Some t) =
  Ok (match insulin e with
      | Some a =>
          if Rltb 0 a && Rleb (time_elapsed t e) (IZR (insulin_duration_min self))
          then py_round
                 (a * Rpower (1 / 2) (time_elapsed t e / insulin_half_life_min self)) 2
          else 0
      | None => 0
      end).
Proof.
  intros Hhl Ht. unfold calculate_iob. cbn [filter at_time_or].
  destruct (insulin e) as [a|] eqn:Ha; cbn [positive_amount].
  - destruct (Rltb 0 a) eqn:Hpos; cbn [andb].
    + cbn [decay_loop].
      assert (H0 : Rleb 0 (time_elapsed t e) = true).
      { apply Rleb_true. unfold time_elapsed. lra. }
      rewrite H0. cbn [andb].
      destruct (Rleb (time_elapsed t e) _); cbn [bind].
      * unfold py_div. apply Reqb_false in Hhl. rewrite Hhl. cbn [bind].
        rewrite Ha. cbn [bind]. now rewrite Rplus_0_l.
      * now rewrite py_round_0.
    + cbn [decay_loop bind]. now rewrite py_round_0.
  - cbn [decay_loop bind]. now rewrite py_round_0.
Qed.

(** C4. With a positive half-life, [calculate_iob] always returns a
    non-negative value, and for a list holding a single insulin event the
    value never grows as the query time moves on from the event time. *)
Theorem iob_nonneg_and_single_event_decreasing (self : IOBCOBService)
    (utcnow : datetime) :
  0 < insulin_half_life_min self ->
  (forall treatments at_time,
     exists v, calculate_iob self utcnow treatments at_time = Ok v /\ 0 <= v)
  /\
  (forall e t1 t2, timestamp e <= t1 -> t1 <= t2 ->
     exists v1 v2,
       calculate_iob self utcnow [e] (Some t1) = Ok v1
       /\ calculate_iob self utcnow [e] (Some t2) = Ok v2
       /\ v2 <= v1).
Proof.
  intros Hhl.
  assert (Hne : insulin_half_life_min self <> 0) by lra.
  split.
  - intros ts at_time. now apply calculate_iob_nonneg.
  - intros e t1 t2 H1 H12.
    rewrite !calculate_iob_single by lra.
    do 2 eexists. split; [reflexivity|]. split; [reflexivity|].
    destruct (insulin e) as [a|]; [|lra].
    destruct (Rltb 0 a) eqn:Hpos; cbn [andb]; [|lra].
    apply Rltb_true in Hpos.
    assert (Hte : time_elapsed t1 e <= time_elapsed t2 e)
      by (unfold time_elapsed; lra).
    assert (Hnn : forall x, 0 <= py_round (a * Rpower (1 / 2) x) 2).
    { intros x. apply py_round_nonneg.
      pose proof (half_pow_pos x). nra. }
    destruct (Rleb (time_elapsed t2 e) _) eqn:H2.
    + apply Rleb_true in H2.
      assert (H1' : Rleb (time_elapsed t1 e) (IZR (insulin_duration_min self)) = true)
        by (apply Rleb_true; lra).
      rewrite H1'. apply py_round_le.
      apply Rmult_le_compat_l; [lra|].
      apply half_pow_antitone.
      apply Rmult_le_compat_r; [left; now apply Rinv_0_lt_compat | assumption].
    + destruct (Rleb (time_elapsed t1 e) _); [apply Hnn | lra].
Qed.

(** The bolus of [test_iob_at_half_life]: 4 units, queried at the bolus
    time and one half-life (81 minutes) later. *)
Definition fresh_bolus : Treatment := mkTreatment 0 (Some 4) None.

Lemma iob_nonneg_and_single_event_decreasing_witness :
  (exists v, calculate_iob default_service 0 [fresh_bolus] (Some 4860) = Ok v
             /\ 0 <= v)
  /\
  (exists v1 v2,
     calculate_iob default_service 0 [fresh_bolus] (Some 0) = Ok v1
     /\ calculate_iob default_service 0 [fresh_bolus] (Some 4860) = Ok v2
     /\ v2 <= v1).
Proof.
  destruct (iob_nonneg_and_single_event_decreasing default_service 0)
    as [Hnonneg Hdecr].
  - simpl. lra.
  - split.
    + apply Hnonneg.
    + apply Hdecr; simpl; lra.
Defined.

(** [test_iob_at_half_life]: 4 units, one half-life later, leave 2. *)
Example iob_at_half_life :
  calculate_iob default_service 0 [fresh_bolus] (Some 4860) = Ok 2.
Proof.
  rewrite calculate_iob_single by (simpl; lra).
  cbn [insulin fresh_bolus insulin_duration_min insulin_half_life_min
       default_service].
  unfold time_elapsed. cbn [timestamp fresh_bolus].
  replace ((4860 - 0) / 60) with 81 by lra.
  assert (H1 : Rltb 0 4 = true) by (apply Rltb_true; lra).
  assert (H2 : Rleb 81 180 = true) by (apply Rleb_true; lra).
  rewrite H1, H2. cbn [andb]. f_equal.
  replace (81 / 81) with 1 by lra. rewrite Rpower_1 by lra.
  replace (4 * (1 / 2)) with 2 by lra. apply py_round_integer.
Qed.

(** [test_correction_dose_high_bg]: BG 200, target 100, ISF 50. *)
Example correction_dose_high_bg :
  calculate_dose_recommendation default_service 200 0 0 50 = (2, 200%Z).
Proof.
  unfold calculate_dose_recommendation.
  assert (H : Rleb 50 0 = false) by (apply Rleb_false; lra).
  rewrite H. cbn [carb_bg_factor target_bg default_service].
  replace (IZR 200 + 0 * 4 - 0 * 50) with (IZR 200) by lra.
  rewrite round_half_even_IZR.
  change (200 - 100)%Z with 100%Z. change (100 <=? 0)%Z with false.
  cbv iota. f_equal.
  replace (100 / 50) with 2 by lra. rewrite Rmax_right by lra.
  apply py_round_integer.
Qed.

(** *** Further behaviour of the service *)

(** [models.schemas.CurrentMetrics] *)
Record CurrentMetrics : Type := mkCurrentMetrics {
  iob : R;
  cob : R;
  isf : R;
  recommendedDose : R;
  effectiveBg : Z
}.

(** [calculate_iob] and [calculate_cob] each read the clock: [utcnow] and
    [utcnow'] are the two readings. *)
Definition get_current_metrics (self : IOBCOBService) (utcnow utcnow' : datetime)
    (current_bg : Z) (treatments : list Treatment) (isf : R)
    : result CurrentMetrics :=
  iob <- calculate_iob self utcnow treatments None ;;
  cob <- calculate_cob self utcnow' treatments None ;;
  let '(dose, effective_bg) :=
    calculate_dose_recommendation self current_bg iob cob isf in
  Ok (mkCurrentMetrics iob cob isf dose effective_bg).

(** The units (or grams) of the events that carry a positive amount. *)
Definition total_amount (amount : Treatment -> option R)
    (treatments : list Treatment) : R :=
  fold_right
    (fun t acc =>
       match amount t with
       | Some a => if Rltb 0 a then a + acc else acc
       | None => acc
       end)
    0 treatments.

Lemma half_pow_le_1 x : 0 <= x -> Rpower (1 / 2) x <= 1.
Proof.
  intros H. pose proof (half_pow_antitone 0 x H) as Hle.
  rewrite Rpower_O in Hle by lra. exact Hle.
Qed.

(** With a positive half-life, a counted event adds at most its amount. *)
Lemma decay_loop_bounded amount duration half_life at_time ts total :
  0 < half_life ->
  (forall e, In e ts -> positive_amount (amount e) = true) ->
  exists v, decay_loop amount duration half_life at_time ts total = Ok v
            /\ total <= v <= total + total_amount amount ts.
Proof.
  intros Hhl. revert total.
  induction ts as [|t ts IH]; intros total Hpos; simpl.
  - exists total. split; [reflexivity | lra].
  - assert (Hts : forall e, In e ts -> positive_amount (amount e) = true)
      by (intros e He; apply Hpos; now right).
    specialize (Hpos t (or_introl eq_refl)).
    destruct (amount t) as [a|] eqn:Ha; [|discriminate].
    simpl in Hpos. rewrite Hpos. apply Rltb_true in Hpos.
    destruct (Rleb 0 (time_elapsed at_time t)) eqn:H0; simpl.
    + destruct (Rleb (time_elapsed at_time t) (IZR duration)); simpl.
      * unfold py_div. assert (Hne : Reqb half_life 0 = false)
          by (apply Reqb_false; lra).
        rewrite Hne. simpl.
        destruct (IH (total + a * Rpower (1 / 2) (time_elapsed at_time t / half_life)) Hts)
          as (v & Hv & Hlo & Hhi).
        exists v. split; [assumption|].
        apply Rleb_true in H0.
        pose proof (half_pow_pos (time_elapsed at_time t / half_life)).
        assert (Rpower (1 / 2) (time_elapsed at_time t / half_life) <= 1).
        { apply half_pow_le_1. apply Rmult_le_pos; [assumption|].
          left. now apply Rinv_0_lt_compat. }
        split; nra.
      * destruct (IH total Hts) as (v & Hv & Hlo & Hhi).
        exists v. split; [assumption|]. split; lra.
    + destruct (IH total Hts) as (v & Hv & Hlo & Hhi).
      exists v. split; [assumption|]. split; lra.
Qed.

Lemma total_amount_filter amount ts :
  total_amount amount (filter (fun t => positive_amount (amount t)) ts)
  = total_amount amount ts.
Proof.
  induction ts as [|t ts IH]; simpl; [reflexivity|].
  unfold positive_amount at 1.
  destruct (amount t) as [a|] eqn:Ha; [|exact IH].
  destruct (Rltb 0 a) eqn:Hp; simpl; [|exact IH].
  now rewrite Ha, Hp, IH.
Qed.

Lemma total_amount_nonneg amount ts : 0 <= total_amount amount ts.
Proof.
  induction ts as [|t ts IH]; simpl; [lra|].
  destruct (amount t) as [a|]; [|exact IH].
  destruct (Rltb 0 a) eqn:Hp; [|exact IH]. apply Rltb_true in Hp. lra.
Qed.

(** X1. With positive half-lives, [calculate_iob] and [calculate_cob]
    return, and the value lies between 0 and the rounded total of the
    positive amounts in the list: decay never reports more insulin (or
    carbs) on board than was given. *)
Theorem on_board_bounded_by_total (self : IOBCOBService) (utcnow : datetime)
    (treatments : list Treatment) (at_time : option datetime) :
  0 < insulin_half_life_min self -> 0 < carb_half_life_min self ->
  (exists v, calculate_iob self utcnow treatments at_time = Ok v
             /\ 0 <= v <= py_round (total_amount insulin treatments) 2)
  /\
  (exists v, calculate_cob self utcnow treatments at_time = Ok v
             /\ 0 <= v <= py_round (total_amount carbs treatments) 1).
Proof.
  intros Hi Hc. split.
  - unfold calculate_iob. destruct treatments as [|t ts].
    + exists 0. split; [reflexivity|]. simpl. rewrite py_round_0. lra.
    + set (l := filter _ (t :: ts)).
      destruct (decay_loop_bounded insulin (insulin_duration_min self)
                  (insulin_half_life_min self) (at_time_or at_time utcnow) l 0 Hi)
        as (v & Hv & Hlo & Hhi).
      { intros e He. apply filter_In in He. tauto. }
      rewrite Hv. cbn [bind]. eexists. split; [reflexivity|].
      split; [now apply py_round_nonneg|]. apply py_round_le.
      unfold l in Hhi. rewrite total_amount_filter in Hhi. lra.
  - unfold calculate_cob. destruct treatments as [|t ts].
    + exists 0. split; [reflexivity|]. simpl. rewrite py_round_0. lra.
    + set (l := filter _ (t :: ts)).
      destruct (decay_loop_bounded carbs (carb_duration_min self)
                  (carb_half_life_min self) (at_time_or at_time utcnow) l 0 Hc)
        as (v & Hv & Hlo & Hhi).
      { intros e He. apply filter_In in He. tauto. }
      rewrite Hv. cbn [bind]. eexists. split; [reflexivity|].
      split; [now apply py_round_nonneg|]. apply py_round_le.
      unfold l in Hhi. rewrite total_amount_filter in Hhi. lra.
Qed.

(** A meal bolus of [test_full_metrics_calculation]: 3 units and 40 g. *)
Definition meal_bolus : Treatment := mkTreatment 0 (Some 3) (Some 40).

Lemma on_board_bounded_by_total_witness :
  (exists v, calculate_iob default_service 0 [meal_bolus] (Some 1800) = Ok v
             /\ 0 <= v <= py_round (total_amount insulin [meal_bolus]) 2)
  /\
  (exists v, calculate_cob default_service 0 [meal_bolus] (Some 1800) = Ok v
             /\ 0 <= v <= py_round (total_amount carbs [meal_bolus]) 1).
Proof.
  apply (on_board_bounded_by_total default_service 0 [meal_bolus] (Some 1800));
    simpl; lra.
Defined.

(** COB of one meal at a query time at or after it. *)
Lemma calculate_cob_single self utcnow e t :
  carb_half_life_min self <> 0 ->
  timestamp e <= t ->
  calculate_cob self utcnow [e] (Some t) =
  Ok (match carbs e with
      | Some a =>
          if Rltb 0 a && Rleb (time_elapsed t e) (IZR (carb_duration_min self))
          then py_round
                 (a * Rpower (1 / 2) (time_elapsed t e / carb_half_life_min self)) 1
          else 0
      | None => 0
      end).
Proof.
  intros Hhl Ht. unfold calculate_cob. cbn [filter at_time_or].
  destruct (carbs e) as [a|] eqn:Ha; cbn [positive_amount].
  - destruct (Rltb 0 a) eqn:Hpos; cbn [andb].
    + cbn [decay_loop].
      assert (H0 : Rleb 0 (time_elapsed t e) = true).
      { apply Rleb_true. unfold time_elapsed. lra. }
      rewrite H0. cbn [andb].
      destruct (Rleb (time_elapsed t e) _); cbn [bind].
      * unfold py_div. apply Reqb_false in Hhl. rewrite Hhl. cbn [bind].
        rewrite Ha. cbn [bind]. now rewrite Rplus_0_l.
      * now rewrite py_round_0.
    + cbn [decay_loop bind]. now rewrite py_round_0.
  - cbn [decay_loop bind]. now rewrite py_round_0.
Qed.

(** X2. With a positive carb half-life, the COB of a list holding a single
    event never grows as the query time moves on from the event time, and
    at the event time itself it is the meal's carbs rounded to one
    decimal (when the carb duration is not negative). *)
Theorem cob_single_event_decreasing (self : IOBCOBService)
    (utcnow : datetime) (e : Treatment) (t1 t2 : datetime) :
  0 < carb_half_life_min self -> timestamp e <= t1 -> t1 <= t2 ->
  (exists v1 v2,
     calculate_cob self utcnow [e] (Some t1) = Ok v1
     /\ calculate_cob self utcnow [e] (Some t2) = Ok v2
     /\ v2 <= v1)
  /\
  (forall a, carbs e = Some a -> 0 < a -> (0 <= carb_duration_min self)%Z ->
     calculate_cob self utcnow [e] (Some (timestamp e)) = Ok (py_round a 1)).
Proof.
  intros Hhl H1 H12. split.
  - rewrite !calculate_cob_single by lra.
    do 2 eexists. split; [reflexivity|]. split; [reflexivity|].
    destruct (carbs e) as [a|]; [|lra].
    destruct (Rltb 0 a) eqn:Hpos; cbn [andb]; [|lra].
    apply Rltb_true in Hpos.
    assert (Hte : time_elapsed t1 e <= time_elapsed t2 e)
      by (unfold time_elapsed; lra).
    assert (Hnn : forall x, 0 <= py_round (a * Rpower (1 / 2) x) 1).
    { intros x. apply py_round_nonneg.
      pose proof (half_pow_pos x). nra. }
    destruct (Rleb (time_elapsed t2 e) _) eqn:H2.
    + apply Rleb_true in H2.
      assert (H1' : Rleb (time_elapsed t1 e) (IZR (carb_duration_min self)) = true)
        by (apply Rleb_true; lra).
      rewrite H1'. apply py_round_le.
      apply Rmult_le_compat_l; [lra|].
      apply half_pow_antitone.
      apply Rmult_le_compat_r; [left; now apply Rinv_0_lt_compat | assumption].
    + destruct (Rleb (time_elapsed t1 e) _); [apply Hnn | lra].
  - intros a Ha Hpos Hdur.
    rewrite calculate_cob_single by lra. rewrite Ha.
    assert (E : time_elapsed (timestamp e) e = 0)
      by (unfold time_elapsed; lra).
    rewrite E.
    assert (Hp : Rltb 0 a = true) by now apply Rltb_true.
    assert (Hd : Rleb 0 (IZR (carb_duration_min self)) = true)
      by (apply Rleb_true; now apply IZR_le).
    rewrite Hp, Hd. cbn [andb]. do 2 f_equal.
    replace (0 / carb_half_life_min self) with 0 by (field; lra).
    rewrite Rpower_O by lra. lra.
Qed.

Lemma cob_single_event_decreasing_witness :
  exists v1 v2,
    calculate_cob default_service 0 [meal_bolus] (Some 0) = Ok v1
    /\ calculate_cob default_service 0 [meal_bolus] (Some 2700) = Ok v2
    /\ v2 <= v1.
Proof.
  apply (proj1 (cob_single_event_decreasing default_service 0 meal_bolus 0 2700
                  ltac:(simpl; lra) ltac:(simpl; lra) ltac:(lra))).
Defined.

(** An event the loop counts: a positive amount, logged at or before the
    query time and no longer ago than the action duration. *)
Definition counted (amount : Treatment -> option R) (duration : Z)
    (at_time : datetime) (t : Treatment) : bool :=
  positive_amount (amount t)
  && Rleb 0 (time_elapsed at_time t)
  && Rleb (time_elapsed at_time t) (IZR duration).

Lemma decay_loop_app amount duration half_life at_time l1 l2 total :
  decay_loop amount duration half_life at_time (l1 ++ l2) total =
  (x <- decay_loop amount duration half_life at_time l1 total ;;
   decay_loop amount duration half_life at_time l2 x).
Proof.
  revert total. induction l1 as [|t l1 IH]; intros total; simpl.
  - reflexivity.
  - destruct (Rleb 0 _ && Rleb _ _); [|apply IH].
    destruct (py_div _ _) as [e|]; simpl; [|reflexivity].
    destruct (amount t); [apply IH | reflexivity].
Qed.

(** The loop over the filtered list skips an event that is not counted. *)
Lemma decay_loop_skip amount duration half_life at_time l1 e l2 total :
  counted amount duration at_time e = false ->
  decay_loop amount duration half_life at_time
    (filter (fun t => positive_amount (amount t)) (l1 ++ e :: l2)) total =
  decay_loop amount duration half_life at_time
    (filter (fun t => positive_amount (amount t)) (l1 ++ l2)) total.
Proof.
  intros Hc. rewrite !filter_app, !decay_loop_app.
  destruct (decay_loop _ _ _ _ (filter _ l1) total) as [x|]; simpl;
    [|reflexivity].
  unfold counted in Hc.
  destruct (positive_amount (amount e)); [|reflexivity].
  simpl in Hc. simpl. now rewrite Hc.
Qed.

(** X3. An event that is not counted (no positive insulin, logged after
    the query time, or older than the insulin duration) can be added to or
    removed from the list, at any position, without changing the result
    of [calculate_iob]; the same holds for carbs and [calculate_cob]. *)
Theorem uncounted_event_is_ignored (self : IOBCOBService) (utcnow : datetime)
    (at_time : option datetime) (l1 l2 : list Treatment) (e : Treatment) :
  (counted insulin (insulin_duration_min self) (at_time_or at_time utcnow) e
   = false ->
   calculate_iob self utcnow (l1 ++ e :: l2) at_time
   = calculate_iob self utcnow (l1 ++ l2) at_time)
  /\
  (counted carbs (carb_duration_min self) (at_time_or at_time utcnow) e
   = false ->
   calculate_cob self utcnow (l1 ++ e :: l2) at_time
   = calculate_cob self utcnow (l1 ++ l2) at_time).
Proof.
  split; intros Hc.
  - unfold calculate_iob.
    destruct (l1 ++ e :: l2) as [|a l] eqn:E1;
      [now destruct l1|]. rewrite <- E1. clear E1.
    rewrite decay_loop_skip by exact Hc.
    destruct (l1 ++ l2) as [|b l'] eqn:E2; [|reflexivity].
    simpl. now rewrite py_round_0.
  - unfold calculate_cob.
    destruct (l1 ++ e :: l2) as [|a l] eqn:E1;
      [now destruct l1|]. rewrite <- E1. clear E1.
    rewrite decay_loop_skip by exact Hc.
    destruct (l1 ++ l2) as [|b l'] eqn:E2; [|reflexivity].
    simpl. now rewrite py_round_0.
Qed.

(** A bolus logged ten minutes after the query time. *)
Definition future_bolus : Treatment := mkTreatment 600 (Some 2) None.

Lemma uncounted_event_is_ignored_witness :
  calculate_iob default_service 0 ([fresh_bolus] ++ future_bolus :: []) None
  = calculate_iob default_service 0 ([fresh_bolus] ++ []) None.
Proof.
  apply (proj1 (uncounted_event_is_ignored default_service 0 None
                  [fresh_bolus] [] future_bolus)).
  unfold counted, future_bolus, time_elapsed. cbn.
  assert (E : Rleb 0 ((0 - 600) / 60) = false) by (apply Rleb_false; lra).
  rewrite E. now rewrite andb_false_r.
Defined.

(** With a zero half-life the loop raises as soon as it meets a counted
    event, and returns the untouched total when there is none. *)
Lemma decay_loop_zero_half_life amount duration at_time ts total :
  decay_loop amount duration 0 at_time
    (filter (fun t => positive_amount (amount t)) ts) total =
  if existsb (counted amount duration at_time) ts
  then Raise ZeroDivisionError else Ok total.
Proof.
  induction ts as [|t ts IH]; simpl; [reflexivity|].
  unfold counted at 1.
  destruct (positive_amount (amount t)); simpl; [|exact IH].
  destruct (Rleb 0 _ && Rleb _ _); simpl; [|exact IH].
  unfold py_div. assert (E : Reqb 0 0 = true) by now apply Reqb_true.
  now rewrite E.
Qed.

(** X4. A service configured with a zero insulin half-life raises
    [ZeroDivisionError] from [calculate_iob] exactly when the list holds a
    counted insulin event; otherwise it returns 0. *)
Theorem zero_half_life_raises_on_counted_event (self : IOBCOBService)
    (utcnow : datetime) (treatments : list Treatment)
    (at_time : option datetime) :
  insulin_half_life_min self = 0 ->
  calculate_iob self utcnow treatments at_time =
  if existsb (counted insulin (insulin_duration_min self)
                (at_time_or at_time utcnow)) treatments
  then Raise ZeroDivisionError else Ok 0.
Proof.
  intros Hz. unfold calculate_iob. destruct treatments as [|t ts];
    [reflexivity|].
  rewrite Hz, decay_loop_zero_half_life.
  destruct (existsb _ _); simpl; [reflexivity|]. now rewrite py_round_0.
Qed.

Lemma zero_half_life_raises_on_counted_event_witness :
  calculate_iob (mkIOBCOBService 180 0 180 45 4 100) 0 [fresh_bolus] None =
  if existsb (counted insulin 180 0) [fresh_bolus]
  then Raise ZeroDivisionError else Ok 0.
Proof.
  apply (zero_half_life_raises_on_counted_event
           (mkIOBCOBService 180 0 180 45 4 100) 0 [fresh_bolus] None).
  reflexivity.
Defined.

Lemma dose_recommendation_nonneg self current_bg iob cob isf :
  0 <= fst (calculate_dose_recommendation self current_bg iob cob isf).
Proof.
  unfold calculate_dose_recommendation.
  destruct (Rleb isf 0); [simpl; lra|].
  cbv zeta. destruct (_ <=? _)%Z; [simpl; lra|]. cbn [fst].
  apply py_round_nonneg. apply Rmax_l.
Qed.

(** X5. The recommended dose is never negative, and it never goes down
    when the glucose reading goes up, the insulin on board goes down or
    (with a non-negative carb factor) the carbs on board go up. *)
Theorem dose_recommendation_monotone (self : IOBCOBService)
    (bg1 bg2 : Z) (iob1 iob2 cob1 cob2 isf : R) :
  0 <= carb_bg_factor self ->
  (bg1 <= bg2)%Z -> iob2 <= iob1 -> cob1 <= cob2 ->
  0 <= fst (calculate_dose_recommendation self bg1 iob1 cob1 isf)
    <= fst (calculate_dose_recommendation self bg2 iob2 cob2 isf).
Proof.
  intros Hf Hbg Hiob Hcob. split; [apply dose_recommendation_nonneg|].
  pose proof (dose_recommendation_nonneg self bg2 iob2 cob2 isf) as Hnn.
  unfold calculate_dose_recommendation in *.
  destruct (Rleb isf 0) eqn:Hisf; [simpl; lra|].
  apply Rleb_false in Hisf. cbv zeta in *.
  set (e1 := round_half_even (IZR bg1 + cob1 * carb_bg_factor self - iob1 * isf)) in *.
  set (e2 := round_half_even (IZR bg2 + cob2 * carb_bg_factor self - iob2 * isf)) in *.
  assert (He : (e1 <= e2)%Z).
  { apply round_half_even_le. apply IZR_le in Hbg. nra. }
  destruct (e1 - target_bg self <=? 0)%Z eqn:H1; [exact Hnn|].
  apply Z.leb_gt in H1.
  assert (H2 : (e2 - target_bg self <=? 0)%Z = false) by (apply Z.leb_gt; lia).
  rewrite H2. cbn [fst]. apply py_round_le.
  apply Rle_max_compat_l.
  apply Rmult_le_compat_r; [left; now apply Rinv_0_lt_compat|].
  apply IZR_le. lia.
Qed.

Lemma dose_recommendation_monotone_witness :
  0 <= fst (calculate_dose_recommendation default_service 150 1 0 50)
    <= fst (calculate_dose_recommendation default_service 200 0 10 50).
Proof.
  apply (dose_recommendation_monotone default_service 150 200 1 0 0 10 50);
    simpl; (lra || lia).
Defined.

Lemma calculate_cob_nonneg self utcnow ts at_time :
  carb_half_life_min self <> 0 ->
  exists v, calculate_cob self utcnow ts at_time = Ok v /\ 0 <= v.
Proof.
  intros Hhl. unfold calculate_cob. destruct ts as [|t ts].
  - exists 0. split; [reflexivity | lra].
  - set (l := filter _ _).
    destruct (decay_loop_grows carbs (carb_duration_min self)
                (carb_half_life_min self) (at_time_or at_time utcnow) l 0 Hhl)
      as (v & Hv & Hle).
    { intros e He. apply filter_In in He. tauto. }
    rewrite Hv. simpl. eexists. split; [reflexivity|].
    now apply py_round_nonneg.
Qed.

(** X6. With non-zero half-lives [get_current_metrics] returns, whatever
    the treatments and the sensitivity passed in: IOB, COB and the
    recommended dose are non-negative, the sensitivity is echoed, and a
    sensitivity that is zero or negative gives dose 0 with the effective
    glucose equal to the reading. *)
Theorem current_metrics_returns (self : IOBCOBService)
    (utcnow utcnow' : datetime)
    (current_bg : Z) (treatments : list Treatment) (isf_value : R) :
  insulin_half_life_min self <> 0 -> carb_half_life_min self <> 0 ->
  exists m,
    get_current_metrics self utcnow utcnow' current_bg treatments isf_value
    = Ok m
    /\ 0 <= iob m /\ 0 <= cob m /\ 0 <= recommendedDose m
    /\ isf m = isf_value
    /\ (isf_value <= 0 -> recommendedDose m = 0 /\ effectiveBg m = current_bg).
Proof.
  intros Hi Hc. unfold get_current_metrics.
  destruct (calculate_iob_nonneg self utcnow treatments None Hi)
    as (i & Ei & Hinn).
  destruct (calculate_cob_nonneg self utcnow' treatments None Hc)
    as (c & Ec & Hcnn).
  rewrite Ei, Ec. cbn [bind].
  pose proof (dose_recommendation_nonneg self current_bg i c isf_value) as Hd.
  assert (Hz : isf_value <= 0 ->
               calculate_dose_recommendation self current_bg i c isf_value
               = (0, current_bg)).
  { intros H. unfold calculate_dose_recommendation.
    apply Rleb_true in H. now rewrite H. }
  destruct (calculate_dose_recommendation self current_bg i c isf_value)
    as [dose eff].
  eexists. split; [reflexivity|]. cbn [iob cob recommendedDose isf effectiveBg].
  split; [assumption|]. split; [assumption|]. split; [exact Hd|].
  split; [reflexivity|].
  intros H. specialize (Hz H). split; congruence.
Qed.

Lemma current_metrics_returns_witness :
  exists m,
    get_current_metrics default_service 0 1 150 [meal_bolus] (-5) = Ok m
    /\ 0 <= iob m /\ 0 <= cob m /\ 0 <= recommendedDose m
    /\ isf m = -5
    /\ (-5 <= 0 -> recommendedDose m = 0 /\ effectiveBg m = 150%Z).
Proof.
  apply (current_metrics_returns default_service 0 1 150 [meal_bolus] (-5));
    simpl; lra.
Defined.

End IOBCOB.

(** ** Dose correction of the prediction service:
       [PredictionService.calculate_dose_correction] *)

Module Dose.
Import PyFloat.

(** The returned dictionary, one field per key.  The [formula] key is an
    f-string over [effective_bg], [target_bg], [isf] and [raw_correction];
    it is kept as the raw correction it prints with two decimals. *)
Record DoseCorrection : Type := mkDoseCorrection {
  current_bg : R;
  target_bg : R;
  effective_bg : R;
  iob : R;
  cob : R;
  isf : R;
  iob_effect_mgdl : R;
  cob_effect_mgdl : R;
  raw_correction_units : R;
  recommended_dose_units : R;
  formula : R
}.

Definition calculate_dose_correction
    (current_bg target_bg isf iob cob cob_ratio : R) : result DoseCorrection :=
  let cob_effect := cob * cob_ratio in
  let iob_effect := iob * isf in
  let effective_bg := current_bg + cob_effect - iob_effect in
  raw_correction <- py_div (effective_bg - target_bg) isf ;;
  let recommended_dose := Rmax 0 raw_correction in
  Ok {| current_bg := current_bg;
        target_bg := target_bg;
        effective_bg := py_round effective_bg 1;
        iob := py_round iob 2;
        cob := py_round cob 1;
        isf := py_round isf 1;
        iob_effect_mgdl := py_round iob_effect 1;
        cob_effect_mgdl := py_round cob_effect 1;
        raw_correction_units := py_round raw_correction 2;
        recommended_dose_units := py_round recommended_dose 2;
        formula := py_round raw_correction 2 |}.

(** The default [cob_ratio]. *)
Definition default_cob_ratio : R := 4.

(** *** Properties *)

Lemma round_half_even_down (x : R) (k : Z) :
  IZR k <= x < IZR k + 1 / 2 -> round_half_even x = k.
Proof.
  intros [H1 H2]. unfold round_half_even.
  rewrite (Zfloor_eq k x) by lra.
  assert (H : Rltb (x - IZR k) (1 / 2) = true) by (apply Rltb_true; lra).
  now rewrite H.
Qed.

(** A value more than half a unit below zero rounds to at most -1. *)
Lemma round_half_even_negative (x : R) :
  x < - (1 / 2) -> (round_half_even x <= -1)%Z.
Proof.
  intros Hx. pose proof (Zfloor_bound x) as [Hf1 Hf2].
  pose proof (round_half_even_floor x) as [_ Hr].
  destruct (Z_le_gt_dec (Zfloor x) (-2)) as [Hle|Hgt]; [lia|].
  assert (Hfl : (Zfloor x <= -1)%Z).
  { apply Z.lt_succ_r. apply lt_IZR. simpl. lra. }
  assert (E : Zfloor x = (-1)%Z) by lia.
  unfold round_half_even. rewrite E.
  assert (H : Rltb (x - IZR (-1)) (1 / 2) = true) by (apply Rltb_true; simpl; lra).
  rewrite H. lia.
Qed.

Lemma py_round_negative (x : R) (n : nat) :
  x * 10 ^ n < - (1 / 2) -> py_round x n < 0.
Proof.
  intros Hx. unfold py_round. pose proof (pow10_pos n) as Hp.
  apply round_half_even_negative in Hx. apply IZR_le in Hx.
  apply Rmult_lt_reg_r with (10 ^ n); [assumption|].
  unfold Rdiv. rewrite Rmult_assoc, Rinv_l by lra. lra.
Qed.

(** The sibling [IOBCOBService.calculate_dose_recommendation] does reject a
    non-positive sensitivity: zero dose, current BG unchanged. *)
Lemma dose_recommendation_rejects_nonpositive_isf
    (self : IOBCOB.IOBCOBService) (current_bg : Z) (iob cob isf : R) :
  isf <= 0 ->
  IOBCOB.calculate_dose_recommendation self current_bg iob cob isf
  = (0, current_bg).
Proof.
  intros H. unfold IOBCOB.calculate_dose_recommendation.
  apply Rleb_true in H. now rewrite H.
Qed.

(** C1. [PredictionService.calculate_dose_correction] has no guard on the
    sensitivity: with [isf = 0] it raises [ZeroDivisionError], and with
    [isf = -10], BG 80 and target 100 it returns a recommended dose of 2
    units instead of rejecting the input with a zero dose. *)
Theorem dose_correction_accepts_nonpositive_isf :
  calculate_dose_correction 200 100 0 0 0 default_cob_ratio
    = Raise ZeroDivisionError
  /\
  exists d, calculate_dose_correction 80 100 (-10) 0 0 default_cob_ratio = Ok d
            /\ recommended_dose_units d = 2
            /\ raw_correction_units d = 2.
Proof.
  split.
  - unfold calculate_dose_correction, py_div.
    assert (H : Reqb 0 0 = true) by now apply Reqb_true.
    now rewrite H.
  - unfold calculate_dose_correction, py_div, default_cob_ratio.
    assert (H : Reqb (-10) 0 = false) by (apply Reqb_false; lra).
    rewrite H. cbn [bind]. eexists. split; [reflexivity|].
    cbn [recommended_dose_units raw_correction_units].
    replace ((80 + 0 * 4 - 0 * -10 - 100) / -10) with 2 by lra.
    rewrite Rmax_right by lra. rewrite py_round_integer. auto.
Qed.

Section PositiveSensitivity.

Variables current_bg target_bg isf iob cob cob_ratio : R.

Let effectiveBg : R := current_bg + cob * cob_ratio - iob * isf.
Let rawCorrection : R := (effectiveBg - target_bg) / isf.

Lemma dose_correction_returns :
  isf <> 0 ->
  exists d,
    calculate_dose_correction current_bg target_bg isf iob cob cob_ratio = Ok d
    /\ recommended_dose_units d = py_round (Rmax 0 rawCorrection) 2
    /\ raw_correction_units d = py_round rawCorrection 2.
Proof.
  intros H. unfold calculate_dose_correction, py_div.
  apply Reqb_false in H. rewrite H. cbn [bind].
  eexists. split; [reflexivity|]. split; reflexivity.
Qed.

End PositiveSensitivity.

(** C2 (as the code has it). For a positive sensitivity the returned
    [recommended_dose_units] is [max(0, rawCorrection)] rounded to two
    decimals, which is [max(0, raw_correction_units)], where
    [raw_correction_units] is [rawCorrection] rounded to two decimals,
    [rawCorrection = (effectiveBg - targetBg) / sensitivity] and
    [effectiveBg = currentBg + cob * carbFactor - iob * sensitivity].  When
    [rawCorrection] is negative the returned dose is 0 and the returned raw
    correction is not positive; it is negative as soon as [rawCorrection]
    is below -0.005.  [IOBCOBService.calculate_dose_recommendation] returns
    only the dose and the effective BG rounded to an integer; its dose is
    that formula over the rounded effective BG, rounded to two decimals. *)
Theorem dose_is_floored_rounded_correction
    (current_bg target_bg isf iob cob cob_ratio : R) :
  0 < isf ->
  let effectiveBg := current_bg + cob * cob_ratio - iob * isf in
  let rawCorrection := (effectiveBg - target_bg) / isf in
  (exists d,
     calculate_dose_correction current_bg target_bg isf iob cob cob_ratio = Ok d
     /\ recommended_dose_units d = py_round (Rmax 0 rawCorrection) 2
     /\ raw_correction_units d = py_round rawCorrection 2
     /\ recommended_dose_units d = Rmax 0 (raw_correction_units d)
     /\ (rawCorrection < 0 ->
         recommended_dose_units d = 0 /\ raw_correction_units d <= 0)
     /\ (rawCorrection < - (5 / 1000) -> raw_correction_units d < 0))
  /\
  (forall (self : IOBCOB.IOBCOBService) (bg : Z),
     let effective := round_half_even
                        (IZR bg + cob * IOBCOB.carb_bg_factor self - iob * isf) in
     IOBCOB.calculate_dose_recommendation self bg iob cob isf
     = (py_round (Rmax 0 (IZR (effective - IOBCOB.target_bg self) / isf)) 2,
        effective)).
Proof.
  intros Hisf effectiveBg rawCorrection. split.
  - destruct (dose_correction_returns current_bg target_bg isf iob cob cob_ratio)
      as (d & Hd & Hrec & Hraw); [lra|].
    fold effectiveBg in Hrec, Hraw. fold rawCorrection in Hrec, Hraw.
    exists d. split; [assumption|]. split; [assumption|]. split; [assumption|].
    split; [|split].
    + now rewrite Hrec, Hraw, py_round_Rmax_0.
    + intros Hneg. rewrite Hrec, Hraw. split.
      * rewrite Rmax_left by lra. apply py_round_0.
      * apply py_round_nonpos. lra.
    + intros Hneg. rewrite Hraw. apply py_round_negative. simpl. lra.
  - intros self bg effective.
    unfold IOBCOB.calculate_dose_recommendation.
    assert (H : Rleb isf 0 = false) by (apply Rleb_false; lra).
    rewrite H. fold effective.
    destruct (Z.leb_spec (effective - IOBCOB.target_bg self) 0) as [Hle|Hgt];
      [|reflexivity].
    f_equal. rewrite Rmax_left; [now rewrite py_round_0|].
    apply IZR_le in Hle.
    apply Rmult_le_reg_r with isf; [assumption|].
    unfold Rdiv. rewrite Rmult_assoc, Rinv_l by lra. lra.
Qed.

(** The example of the specification: BG 80, target 100, sensitivity 50,
    IOB 2.0, COB 0. *)
Lemma dose_is_floored_rounded_correction_witness :
  exists d,
    calculate_dose_correction 80 100 50 2 0 default_cob_ratio = Ok d
    /\ recommended_dose_units d = 0
    /\ raw_correction_units d < 0.
Proof.
  destruct (dose_is_floored_rounded_correction 80 100 50 2 0 default_cob_ratio)
    as [(d & Hd & _ & _ & _ & Hneg & Hlow) _]; [lra|].
  exists d. split; [exact Hd|]. split.
  - apply Hneg. unfold default_cob_ratio. lra.
  - apply Hlow. unfold default_cob_ratio. lra.
Defined.

(** The returned dose is not the unrounded [max(0, rawCorrection)]: BG 150,
    target 100, sensitivity 150 gives [rawCorrection = 1/3], and the
    returned dose is 0.33. *)
Lemma dose_differs_from_unrounded_correction :
  exists d,
    calculate_dose_correction 150 100 150 0 0 default_cob_ratio = Ok d
    /\ recommended_dose_units d = 33 / 100
    /\ recommended_dose_units d
       <> Rmax 0 ((150 + 0 * default_cob_ratio - 0 * 150 - 100) / 150).
Proof.
  destruct (dose_correction_returns 150 100 150 0 0 default_cob_ratio)
    as (d & Hd & Hrec & _); [lra|].
  exists d. split; [exact Hd|].
  assert (E : recommended_dose_units d = 33 / 100).
  { rewrite Hrec. unfold default_cob_ratio.
    replace ((150 + 0 * 4 - 0 * 150 - 100) / 150) with (1 / 3) by lra.
    rewrite Rmax_right by lra. unfold py_round.
    rewrite (round_half_even_down _ 33); simpl; lra. }
  split; [exact E|]. rewrite E. unfold default_cob_ratio.
  replace ((150 + 0 * 4 - 0 * 150 - 100) / 150) with (1 / 3) by lra.
  rewrite Rmax_right by lra. lra.
Qed.

(** BG 200, target 100, sensitivity 50, nothing on board: 2 units. *)
Example dose_correction_high_bg :
  exists d,
    calculate_dose_correction 200 100 50 0 0 default_cob_ratio = Ok d
    /\ recommended_dose_units d = 2
    /\ effective_bg d = 200.
Proof.
  unfold calculate_dose_correction, py_div, default_cob_ratio.
  assert (H : Reqb 50 0 = false) by (apply Reqb_false; lra).
  rewrite H. cbn [bind]. eexists. split; [reflexivity|].
  cbn [recommended_dose_units effective_bg].
  replace ((200 + 0 * 4 - 0 * 50 - 100) / 50) with 2 by lra.
  replace (200 + 0 * 4 - 0 * 50) with 200 by lra.
  rewrite Rmax_right by lra. now rewrite !py_round_integer.
Qed.

(** *** The two implementations side by side *)

(** Rounding to the nearest integer moves a number by at most one half. *)
Lemma round_half_even_error (x : R) :
  - (1 / 2) <= IZR (round_half_even x) - x <= 1 / 2.
Proof.
  unfold round_half_even. pose proof (Zfloor_bound x) as [Hlo Hhi].
  destruct (Rltb (x - IZR (Zfloor x)) (1 / 2)) eqn:E1;
    [apply Rltb_true in E1; lra | apply Rltb_false in E1].
  destruct (Rltb (1 / 2) (x - IZR (Zfloor x))) eqn:E2;
    [apply Rltb_true in E2; rewrite plus_IZR; lra | apply Rltb_false in E2].
  destruct (Z.even (Zfloor x)); [lra | rewrite plus_IZR; lra].
Qed.

Lemma py_round_error (x : R) (n : nat) :
  - (1 / 2) / 10 ^ n <= py_round x n - x <= (1 / 2) / 10 ^ n.
Proof.
  unfold py_round. pose proof (pow10_pos n) as Hp.
  pose proof (round_half_even_error (x * 10 ^ n)) as [Hlo Hhi].
  assert (Hinv : 0 < / 10 ^ n) by now apply Rinv_0_lt_compat.
  assert (E : IZR (round_half_even (x * 10 ^ n)) / 10 ^ n - x
              = (IZR (round_half_even (x * 10 ^ n)) - x * 10 ^ n) / 10 ^ n)
    by (field; lra).
  rewrite E. unfold Rdiv. split.
  - rewrite <- Ropp_mult_distr_l.
    replace (- (1 * / 2 * / 10 ^ n)) with (- (1 * / 2) * / 10 ^ n) by ring.
    apply Rmult_le_compat_r; lra.
  - apply Rmult_le_compat_r; lra.
Qed.

(** The dose of [calculate_dose_recommendation] for a positive
    sensitivity. *)
Lemma dose_recommendation_value (self : IOBCOB.IOBCOBService) (bg : Z)
    (iob cob isf : R) :
  0 < isf ->
  let effective :=
    round_half_even (IZR bg + cob * IOBCOB.carb_bg_factor self - iob * isf) in
  IOBCOB.calculate_dose_recommendation self bg iob cob isf
  = (py_round (Rmax 0 (IZR (effective - IOBCOB.target_bg self) / isf)) 2,
     effective).
Proof.
  intros Hisf effective. unfold IOBCOB.calculate_dose_recommendation.
  assert (H : Rleb isf 0 = false) by (apply Rleb_false; lra).
  rewrite H. fold effective.
  destruct (Z.leb_spec (effective - IOBCOB.target_bg self) 0) as [Hle|Hgt];
    [|reflexivity].
  f_equal. rewrite Rmax_left; [now rewrite py_round_0|].
  apply IZR_le in Hle.
  apply Rmult_le_reg_r with isf; [assumption|].
  unfold Rdiv. rewrite Rmult_assoc, Rinv_l by lra. lra.
Qed.

(** X25. For a positive sensitivity, an integer reading and the same
    carb factor and target, the two dose implementations differ only by
    rounding: [calculate_dose_correction] returns, the effective glucose
    of [calculate_dose_recommendation] is within 0.5 mg/dL of the
    unrounded one, and the two recommended doses differ by at most
    [0.5 / isf + 0.01] units. *)
Theorem dose_implementations_agree (self : IOBCOB.IOBCOBService) (bg : Z)
    (iob cob isf : R) :
  0 < isf ->
  exists d,
    calculate_dose_correction (IZR bg) (IZR (IOBCOB.target_bg self)) isf iob cob
      (IOBCOB.carb_bg_factor self) = Ok d
    /\ Rabs (IZR (snd (IOBCOB.calculate_dose_recommendation self bg iob cob isf))
             - (IZR bg + cob * IOBCOB.carb_bg_factor self - iob * isf))
       <= 1 / 2
    /\ Rabs (fst (IOBCOB.calculate_dose_recommendation self bg iob cob isf)
             - recommended_dose_units d)
       <= (1 / 2) / isf + 1 / 100.
Proof.
  intros Hisf.
  destruct (dose_correction_returns (IZR bg) (IZR (IOBCOB.target_bg self)) isf
              iob cob (IOBCOB.carb_bg_factor self)) as (d & Hd & Hrec & _);
    [lra|].
  exists d. split; [exact Hd|].
  rewrite dose_recommendation_value by exact Hisf. cbn [fst snd].
  rewrite Hrec.
  set (e := IZR bg + cob * IOBCOB.carb_bg_factor self - iob * isf).
  set (T := IOBCOB.target_bg self).
  pose proof (round_half_even_error e) as [Hlo Hhi].
  split; [apply Rabs_le; lra|].
  rewrite minus_IZR.
  set (E := IZR (round_half_even e)) in *.
  assert (Hinv : 0 < / isf) by now apply Rinv_0_lt_compat.
  set (u := (E - IZR T) / isf). set (v := (e - IZR T) / isf).
  assert (Huv : - ((1 / 2) / isf) <= u - v <= (1 / 2) / isf).
  { assert (Ed : u - v = (E - e) / isf) by (unfold u, v; field; lra).
    rewrite Ed. unfold Rdiv. split.
    - replace (- (1 * / 2 * / isf)) with (- (1 * / 2) * / isf) by ring.
      apply Rmult_le_compat_r; lra.
    - apply Rmult_le_compat_r; lra. }
  assert (Hmax : - ((1 / 2) / isf) <= Rmax 0 u - Rmax 0 v <= (1 / 2) / isf).
  { assert (Hq : 0 <= (1 / 2) / isf) by (unfold Rdiv; nra).
    unfold Rmax. destruct (Rle_dec 0 u), (Rle_dec 0 v); lra. }
  pose proof (py_round_error (Rmax 0 u) 2) as [Hu1 Hu2].
  pose proof (py_round_error (Rmax 0 v) 2) as [Hv1 Hv2].
  simpl in Hu1, Hu2, Hv1, Hv2.
  apply Rabs_le. lra.
Qed.

Lemma dose_implementations_agree_witness :
  exists d,
    calculate_dose_correction (IZR 180) (IZR 100) 50 1 10 4 = Ok d
    /\ Rabs (fst (IOBCOB.calculate_dose_recommendation IOBCOB.default_service
                    180 1 10 50)
             - recommended_dose_units d)
       <= (1 / 2) / 50 + 1 / 100.
Proof.
  destruct (dose_implementations_agree IOBCOB.default_service 180 1 10 50)
    as (d & H1 & _ & H2); [lra|].
  exists d. split; [exact H1 | exact H2].
Defined.

End Dose.

(** ** TrendExtrapolator: [ml/inference/linear_prediction.py] *)

Module Linear.
Import PyFloat PyList.

Definition datetime : Type := R.

Record LinearPredictor : Type := mkLinearPredictor {
  history_points : Z;
  prediction_horizons : list Z
}.

(** [__init__]: [prediction_horizons or [5, 10, 15]]; [None] and the empty
    list are both falsy. *)
Definition init (history_points : Z) (prediction_horizons : option (list Z))
    : LinearPredictor :=
  {| history_points := history_points;
     prediction_horizons :=
       match prediction_horizons with
       | Some (h :: hs) => h :: hs
       | _ => [5; 10; 15]%Z
       end |}.

(** [LinearPredictor()]. *)
Definition default_predictor : LinearPredictor := init 6 None.

(** [np.arange(n) * interval_min]. *)
Definition arange_times (n : nat) (interval_min : Z) : list R :=
  map (fun i => INR i * IZR interval_min) (seq 0 n).

(** [np.mean(y)]. *)
Definition mean (y : list R) : R :=
  fold_right Rplus 0 y / INR (length y).

Section Predict.

(** [np.polyfit(x, y, 1)] is numpy's; [None] stands for a raised exception,
    [Some (slope, intercept)] for the fitted coefficients. *)
Variable polyfit : list R -> list R -> option (R * R).

Definition predict (self : LinearPredictor) (glucose_values : list R)
    (timestamps : option (list datetime)) (interval_min : Z)
    : result (list R * R * R) :=
  if (length glucose_values <? 2)%nat then
    let last_val :=
      match glucose_values with
      | [] => 100
      | _ => last glucose_values 0
      end in
    Ok (repeat last_val (length (prediction_horizons self)), 0, last_val)
  else
    let recent_values := slice_from (- history_points self) glucose_values in
    let n_points := length recent_values in
    x <- match timestamps with
         | Some (t :: ts) =>
             if (n_points <=? length (t :: ts))%nat then
               let recent_ts := slice_from (- Z.of_nat n_points) (t :: ts) in
               base_time <- first_item recent_ts ;;
               Ok (map (fun t => (t - base_time) / 60) recent_ts)
             else Ok (arange_times n_points interval_min)
         | _ => Ok (arange_times n_points interval_min)
         end ;;
    let y := recent_values in
    let '(slope, intercept) :=
      match polyfit x y with
      | Some coeffs => coeffs
      | None => (0, mean y)
      end in
    current_x <- last_item x ;;
    let predictions :=
      map (fun horizon_min =>
             let future_x := current_x + IZR horizon_min in
             let predicted_value := slope * future_x + intercept in
             clamp 40 400 predicted_value)
          (prediction_horizons self) in
    Ok (predictions, slope, intercept).

End Predict.

(** [trend_rates.get(int(trend), 0.0)] *)
Definition trend_rate (trend : Z) : R :=
  if ((-3 <=? trend) && (trend <=? 3))%Z then IZR trend else 0.

Definition predict_with_trend (self : LinearPredictor) (current_bg : R)
    (trend : Z) : list R :=
  let rate := trend_rate trend in
  map (fun horizon_min =>
         let predicted := current_bg + rate * IZR horizon_min in
         clamp 40 400 predicted)
      (prediction_horizons self).

(** *** Properties *)

Lemma short_list_cases (l : list R) :
  (length l < 2)%nat -> l = [] \/ exists v, l = [v].
Proof.
  destruct l as [|a [|b l]]; simpl; intros H.
  - now left.
  - right. now exists a.
  - lia.
Qed.

(** C8. With fewer than two glucose values [predict] does not raise: it
    returns the last value (the only one; 100.0 for the empty list)
    repeated once per horizon, with slope 0 and that value as intercept. *)
Theorem predict_degenerate (polyfit : list R -> list R -> option (R * R))
    (self : LinearPredictor) (glucose_values : list R)
    (timestamps : option (list datetime)) (interval_min : Z) :
  (length glucose_values < 2)%nat ->
  let last_val := last glucose_values 100 in
  predict polyfit self glucose_values timestamps interval_min
  = Ok (repeat last_val (length (prediction_horizons self)), 0, last_val).
Proof.
  intros Hlen last_val. subst last_val.
  destruct (short_list_cases glucose_values Hlen) as [->|[v ->]];
    reflexivity.
Qed.

(** One reading of 120 mg/dL, default predictor: [120, 120, 120], slope 0. *)
Lemma predict_degenerate_witness :
  predict (fun _ _ => None) default_predictor [120] None 5
  = Ok ([120; 120; 120], 0, 120).
Proof.
  apply (predict_degenerate (fun _ _ => None) default_predictor [120] None 5).
  simpl. lia.
Defined.

(** A flat trend predicts no change: [predict_with_trend(120, 0)]. *)
Example flat_trend :
  predict_with_trend default_predictor 120 0 = [120; 120; 120].
Proof.
  unfold predict_with_trend, trend_rate, default_predictor, init.
  cbn [andb Z.leb prediction_horizons map]. simpl (_ && _)%bool. cbv iota.
  assert (E : forall h, clamp 40 400 (120 + 0 * IZR h) = 120).
  { intros h. unfold clamp. rewrite Rmult_0_l, Rplus_0_r.
    rewrite Rmin_right by lra. now rewrite Rmax_right by lra. }
  now rewrite !E.
Qed.

(** *** The trend arrow and the accuracy helpers *)

(** The [if]/[elif] chain of [get_trend_from_values]. *)
Definition trend_of_rate (rate : R) : Z :=
  if Rleb rate (-3) then (-3)%Z
  else if Rleb rate (-2) then (-2)%Z
  else if Rleb rate (-1) then (-1)%Z
  else if Rltb rate 1 then 0%Z
  else if Rltb rate 2 then 1%Z
  else if Rltb rate 3 then 2%Z
  else 3%Z.

Definition get_trend_from_values (self : LinearPredictor)
    (glucose_values : list R) (interval_min : Z) : result (Z * R) :=
  if (length glucose_values <? 2)%nat then Ok (0%Z, 0)
  else
    let recent :=
      if (3 <=? length glucose_values)%nat
      then slice_from (-3) glucose_values else glucose_values in
    let n := length recent in
    newest <- last_item recent ;;
    oldest <- first_item recent ;;
    let total_change := newest - oldest in
    let total_time := ((Z.of_nat n - 1) * interval_min)%Z in
    rate <- (if (0 <? total_time)%Z
             then py_div total_change (IZR total_time) else Ok 0) ;;
    Ok (trend_of_rate rate, rate).

(** The dictionary of [calculate_prediction_accuracy]: the three [None]
    entries of the empty case, or the six metrics.  [mape] is a
    [np.nanmean], which is NaN ([None]) when every actual is zero. *)
Inductive accuracy : Type :=
| NoData
| Metrics (mae rmse : R) (mape : option R) (mean_error std_error : R)
          (n_samples : nat).

(** [preds - acts] over [predictions[:min_len]] and [actuals[:min_len]]. *)
Definition errors_of (predictions actuals : list R) : list R :=
  map (fun pa => fst pa - snd pa) (combine predictions actuals).

Definition calculate_prediction_accuracy (predictions actuals : list R)
    : accuracy :=
  match predictions, actuals with
  | [], _ | _, [] => NoData
  | _, _ =>
      let min_len := Nat.min (length predictions) (length actuals) in
      let errors := errors_of predictions actuals in
      let abs_errors := map Rabs errors in
      let mae := mean abs_errors in
      let rmse := sqrt (mean (map (fun e => e ^ 2) errors)) in
      let percentage_errors :=
        map (fun pa => Rabs ((fst pa - snd pa) / snd pa) * 100)
            (filter (fun pa => negb (Reqb (snd pa) 0))
                    (combine predictions actuals)) in
      let mape :=
        match percentage_errors with
        | [] => None
        | _ => Some (mean percentage_errors)
        end in
      let mean_error := mean errors in
      let std_error :=
        sqrt (mean (map (fun e => (e - mean_error) ^ 2) errors)) in
      Metrics mae rmse mape mean_error std_error min_len
  end.

(** A float that may be infinite or NaN, for [float("inf")] and what
    [compare_predictions] computes from it. *)
Inductive xfloat : Type :=
| Finite (r : R)
| Inf
| NaN.

(** [accuracy.get("mae", float("inf"))], a [None] replaced by infinity. *)
Definition mae_or_inf (a : accuracy) : xfloat :=
  match a with
  | NoData => Inf
  | Metrics mae _ _ _ _ _ => Finite mae
  end.

(** [a < b]. *)
Definition xlt (a b : xfloat) : bool :=
  match a, b with
  | Finite x, Finite y => Rltb x y
  | Finite _, Inf => true
  | _, _ => false
  end.

(** [abs(a - b)]. *)
Definition xabs_sub (a b : xfloat) : xfloat :=
  match a, b with
  | Finite x, Finite y => Finite (Rabs (x - y))
  | NaN, _ | _, NaN => NaN
  | Inf, Inf => NaN
  | _, _ => Inf
  end.

(** [(a / max(b, 0.001)) * 100]; the divisor is never zero. *)
Definition xpct (a b : xfloat) : xfloat :=
  match a, b with
  | Finite x, Finite y => Finite (x / Rmax y (1 / 1000) * 100)
  | Finite _, Inf => Finite 0
  | Inf, Finite _ => Inf
  | _, _ => NaN
  end.

Record Comparison : Type := mkComparison {
  linear : accuracy;
  lstm : accuracy;
  winner : string;
  improvement_mg_dl : xfloat;
  improvement_pct : xfloat
}.

Definition compare_predictions (linear_preds lstm_preds actuals : list R)
    : Comparison :=
  let linear_accuracy := calculate_prediction_accuracy linear_preds actuals in
  let lstm_accuracy := calculate_prediction_accuracy lstm_preds actuals in
  let linear_mae := mae_or_inf linear_accuracy in
  let lstm_mae := mae_or_inf lstm_accuracy in
  let winner := if xlt linear_mae lstm_mae then "linear"%string
                else "lstm"%string in
  let improvement := xabs_sub linear_mae lstm_mae in
  {| linear := linear_accuracy;
     lstm := lstm_accuracy;
     winner := winner;
     improvement_mg_dl := improvement;
     improvement_pct := xpct improvement linear_mae |}.

(** *** Properties *)

Lemma trend_of_rate_spec (rate : R) :
  (-3 <= trend_of_rate rate <= 3)%Z
  /\ Rabs (IZR (trend_of_rate rate)) <= Rabs rate
  /\ 0 <= IZR (trend_of_rate rate) * rate
  /\ (trend_of_rate rate = 0%Z <-> -1 < rate < 1).
Proof.
  unfold trend_of_rate.
  destruct (Rleb rate (-3)) eqn:H1;
    [apply Rleb_true in H1 | apply Rleb_false in H1].
  { split; [lia|]. rewrite !Rabs_left by lra.
    split; [lra|]. split; [nra|]. split; [discriminate | lra]. }
  destruct (Rleb rate (-2)) eqn:H2;
    [apply Rleb_true in H2 | apply Rleb_false in H2].
  { split; [lia|]. rewrite !Rabs_left by lra.
    split; [lra|]. split; [nra|]. split; [discriminate | lra]. }
  destruct (Rleb rate (-1)) eqn:H3;
    [apply Rleb_true in H3 | apply Rleb_false in H3].
  { split; [lia|]. rewrite !Rabs_left by lra.
    split; [lra|]. split; [nra|]. split; [discriminate | lra]. }
  destruct (Rltb rate 1) eqn:H4;
    [apply Rltb_true in H4 | apply Rltb_false in H4].
  { split; [lia|]. rewrite Rabs_R0.
    split; [apply Rabs_pos|]. split; [lra|]. split; [lra | reflexivity]. }
  destruct (Rltb rate 2) eqn:H5;
    [apply Rltb_true in H5 | apply Rltb_false in H5].
  { split; [lia|]. rewrite !Rabs_right by lra.
    split; [lra|]. split; [nra|]. split; [discriminate | lra]. }
  destruct (Rltb rate 3) eqn:H6;
    [apply Rltb_true in H6 | apply Rltb_false in H6].
  { split; [lia|]. rewrite !Rabs_right by lra.
    split; [lra|]. split; [nra|]. split; [discriminate | lra]. }
  split; [lia|]. rewrite !Rabs_right by lra.
  split; [lra|]. split; [nra|]. split; [discriminate | lra].
Qed.

Lemma trend_rate_in_range (trend : Z) :
  (-3 <= trend <= 3)%Z -> trend_rate trend = IZR trend.
Proof.
  intros H. unfold trend_rate.
  assert (E1 : (-3 <=? trend)%Z = true) by (apply Z.leb_le; lia).
  assert (E2 : (trend <=? 3)%Z = true) by (apply Z.leb_le; lia).
  now rewrite E1, E2.
Qed.

Lemma last_item_cons {A : Type} (a : A) (l : list A) :
  exists x, last_item (a :: l) = Ok x.
Proof.
  unfold last_item. destruct (rev (a :: l)) as [|x r] eqn:E.
  - apply (f_equal (@length A)) in E. rewrite length_rev in E. discriminate.
  - now exists x.
Qed.

(** [get_trend_from_values] returns some pair. *)
Lemma get_trend_from_values_returns self glucose_values interval_min :
  exists rate,
    get_trend_from_values self glucose_values interval_min
    = Ok (trend_of_rate rate, rate)
    /\ ((length glucose_values < 2)%nat \/ (interval_min <= 0)%Z -> rate = 0).
Proof.
  unfold get_trend_from_values.
  destruct (Nat.ltb_spec (length glucose_values) 2) as [Hlt|Hge].
  { exists 0. split; [|reflexivity].
    unfold trend_of_rate.
    assert (E1 : Rleb 0 (-3) = false) by (apply Rleb_false; lra).
    assert (E2 : Rleb 0 (-2) = false) by (apply Rleb_false; lra).
    assert (E3 : Rleb 0 (-1) = false) by (apply Rleb_false; lra).
    assert (E4 : Rltb 0 1 = true) by (apply Rltb_true; lra).
    now rewrite E1, E2, E3, E4. }
  cbv zeta.
  set (recent := if (3 <=? _)%nat then _ else _).
  assert (Hn : (2 <= length recent)%nat).
  { subst recent. destruct (Nat.leb_spec 3 (length glucose_values)); [|lia].
    change (-3)%Z with (- Z.of_nat 3)%Z. rewrite slice_from_length; lia. }
  destruct recent as [|a rest] eqn:Er; [simpl in Hn; lia|].
  destruct (last_item_cons a rest) as [x Hx]. rewrite Hx. cbn [bind first_item].
  set (total_time := ((Z.of_nat (length (a :: rest)) - 1) * interval_min)%Z).
  destruct (Z.ltb_spec 0 total_time) as [Hpos|Hnpos].
  - unfold py_div.
    assert (E : Reqb (IZR total_time) 0 = false).
    { apply Reqb_false. apply IZR_lt in Hpos. lra. }
    rewrite E. cbn [bind]. eexists. split; [reflexivity|].
    intros [H|H]; [lia|]. exfalso. subst total_time. nia.
  - cbn [bind]. exists 0. split; [reflexivity|]. reflexivity.
Qed.

(** X7. [get_trend_from_values] never raises.  The arrow it returns lies
    in -3..3, has the sign of the rate and is never larger than it in
    magnitude, and is flat exactly when the rate is strictly between -1
    and 1 mg/dL per minute; [predict_with_trend] reads such an arrow as a
    rate of that many mg/dL per minute.  Fewer than two values, or an
    interval that is not positive, give a rate of 0 and a flat arrow. *)
Theorem trend_arrow_bounded_by_rate (self : LinearPredictor)
    (glucose_values : list R) (interval_min : Z) :
  exists trend rate,
    get_trend_from_values self glucose_values interval_min = Ok (trend, rate)
    /\ (-3 <= trend <= 3)%Z
    /\ Rabs (IZR trend) <= Rabs rate
    /\ 0 <= IZR trend * rate
    /\ (trend = 0%Z <-> -1 < rate < 1)
    /\ trend_rate trend = IZR trend
    /\ ((length glucose_values < 2)%nat \/ (interval_min <= 0)%Z ->
        trend = 0%Z /\ rate = 0).
Proof.
  destruct (get_trend_from_values_returns self glucose_values interval_min)
    as (rate & E & Hz).
  destruct (trend_of_rate_spec rate) as (Hr & Ha & Hs & Hf).
  exists (trend_of_rate rate), rate.
  split; [exact E|]. split; [exact Hr|]. split; [exact Ha|].
  split; [exact Hs|]. split; [exact Hf|].
  split; [now apply trend_rate_in_range|].
  intros H. specialize (Hz H). split; [|exact Hz].
  apply Hf. rewrite Hz. lra.
Qed.

Lemma clamp_in_range x : 40 <= clamp 40 400 x <= 400.
Proof. apply clamp_bounds. lra. Qed.

Lemma Forall_map_clamp {A : Type} (f : A -> R) (l : list A) :
  Forall (fun p => 40 <= p <= 400) (map (fun a => clamp 40 400 (f a)) l).
Proof.
  induction l as [|a l IH]; simpl; constructor; [apply clamp_in_range | exact IH].
Qed.

Section PredictProperties.

Variable polyfit : list R -> list R -> option (R * R).

(** The slice [glucose_values[-history_points:]] is not empty as long as a
    negative [history_points] does not skip the whole list. *)
Lemma recent_values_nonempty (self : LinearPredictor) (glucose_values : list R) :
  (2 <= length glucose_values)%nat ->
  (- Z.of_nat (length glucose_values) < history_points self)%Z ->
  (0 < length (slice_from (- history_points self) glucose_values))%nat.
Proof.
  intros Hlen Hhp. unfold slice_from. rewrite length_skipn.
  destruct (Z.ltb_spec (- history_points self) 0); lia.
Qed.

(** X8. With two glucose values or more, and a [history_points] that
    leaves at least one value to fit, [predict] returns whatever
    [np.polyfit] does and whatever timestamps are passed: one prediction
    per horizon, each within 40..400 mg/dL.  When the fit raises, the
    slope is 0 and every prediction is the clamped mean of the values
    fitted. *)
Theorem predict_returns_clamped (self : LinearPredictor)
    (glucose_values : list R) (timestamps : option (list datetime))
    (interval_min : Z) :
  (2 <= length glucose_values)%nat ->
  (- Z.of_nat (length glucose_values) < history_points self)%Z ->
  exists predictions slope intercept,
    predict polyfit self glucose_values timestamps interval_min
    = Ok (predictions, slope, intercept)
    /\ length predictions = length (prediction_horizons self)
    /\ Forall (fun p => 40 <= p <= 400) predictions
    /\ ((forall x y, polyfit x y = None) ->
        let recent := slice_from (- history_points self) glucose_values in
        slope = 0 /\ intercept = mean recent
        /\ predictions = repeat (clamp 40 400 (mean recent))
                                (length (prediction_horizons self))).
Proof.
  intros Hlen Hhp. unfold predict.
  assert (E : (length glucose_values <? 2)%nat = false)
    by (apply Nat.ltb_ge; lia).
  rewrite E. cbv zeta.
  pose proof (recent_values_nonempty self glucose_values Hlen Hhp) as Hrec.
  set (recent := slice_from (- history_points self) glucose_values) in *.
  match goal with
  | |- context [bind ?m _] =>
      assert (Hx : exists x, x <> [] /\ m = Ok x)
  end.
  { assert (Ha : arange_times (length recent) interval_min <> []).
    { unfold arange_times. destruct (length recent); [lia | discriminate]. }
    destruct timestamps as [[|t ts]|]; try (eexists; split; [exact Ha | reflexivity]).
    destruct (Nat.leb_spec (length recent) (length (t :: ts))) as [Hle|Hgt];
      [|eexists; split; [exact Ha | reflexivity]].
    pose proof (slice_from_length (length recent) (t :: ts) Hle Hrec) as Hl.
    destruct (slice_from (- Z.of_nat (length recent)) (t :: ts)) as [|b bs];
      [simpl in Hl; lia|].
    cbn [first_item bind]. eexists. split; [|reflexivity]. discriminate. }
  destruct Hx as (x & Hxne & Hx). rewrite Hx. cbn [bind].
  destruct x as [|x0 xs]; [congruence|].
  destruct (last_item_cons x0 xs) as [cx Hcx].
  destruct (polyfit (x0 :: xs) recent) as [[slope intercept]|] eqn:Hfit.
  - rewrite Hcx. cbn [bind]. do 3 eexists. split; [reflexivity|].
    split; [apply length_map|]. split; [apply Forall_map_clamp|].
    intros Hnone. rewrite Hnone in Hfit. discriminate.
  - rewrite Hcx. cbn [bind]. do 3 eexists. split; [reflexivity|].
    split; [apply length_map|]. split; [apply Forall_map_clamp|].
    intros _. split; [reflexivity|]. split; [reflexivity|].
    induction (prediction_horizons self) as [|h hs IH]; simpl; [reflexivity|].
    rewrite IH. f_equal. f_equal. lra.
Qed.

End PredictProperties.

(** Two steady readings and a fit that raises. *)
Lemma predict_returns_clamped_witness :
  exists predictions slope intercept,
    predict (fun _ _ => None) default_predictor [120; 130] None 5
    = Ok (predictions, slope, intercept)
    /\ length predictions = length (prediction_horizons default_predictor)
    /\ Forall (fun p => 40 <= p <= 400) predictions
    /\ ((forall x y : list R, (fun _ _ => @None (R * R)) x y = None) ->
        let recent :=
          slice_from (- history_points default_predictor) [120; 130] in
        slope = 0 /\ intercept = mean recent
        /\ predictions = repeat (clamp 40 400 (mean recent))
                                (length (prediction_horizons default_predictor))).
Proof.
  apply (predict_returns_clamped (fun _ _ => None) default_predictor
           [120; 130] None 5); simpl; lia.
Defined.

Lemma clamp_monotone lo hi x y : x <= y -> clamp lo hi x <= clamp lo hi y.
Proof.
  intros H. unfold clamp. apply Rle_max_compat_l. now apply Rle_min_compat_l.
Qed.

(** X9. Extrapolating with the arrow computed from the values never
    overshoots extrapolating with the rate itself: at every horizon that
    is not negative, the value [predict_with_trend] returns for the arrow
    of [get_trend_from_values] lies between the clamped current reading
    and the clamped rate extrapolation, and within 40..400 mg/dL. *)
Theorem trend_prediction_between (self : LinearPredictor)
    (glucose_values : list R) (interval_min : Z) (current_bg : R) :
  Forall (fun h => (0 <= h)%Z) (prediction_horizons self) ->
  exists trend rate,
    get_trend_from_values self glucose_values interval_min = Ok (trend, rate)
    /\ length (predict_with_trend self current_bg trend)
       = length (prediction_horizons self)
    /\ Forall2
         (fun h p =>
            40 <= p <= 400
            /\ Rmin (clamp 40 400 current_bg)
                    (clamp 40 400 (current_bg + rate * IZR h)) <= p
            /\ p <= Rmax (clamp 40 400 current_bg)
                         (clamp 40 400 (current_bg + rate * IZR h)))
         (prediction_horizons self)
         (predict_with_trend self current_bg trend).
Proof.
  intros Hh.
  destruct (get_trend_from_values_returns self glucose_values interval_min)
    as (rate & E & _).
  destruct (trend_of_rate_spec rate) as (Hr & Ha & Hs & _).
  exists (trend_of_rate rate), rate. split; [exact E|].
  unfold predict_with_trend. split; [apply length_map|].
  rewrite trend_rate_in_range by exact Hr.
  set (k := IZR (trend_of_rate rate)) in *.
  induction Hh as [|h hs Hh0 _ IH]; simpl; constructor; [|exact IH].
  split; [apply clamp_in_range|].
  apply IZR_le in Hh0.
  assert (Hcase : (0 <= k <= rate) \/ (rate <= k <= 0)).
  { destruct (Rle_lt_dec 0 rate) as [Hp|Hn].
    - left. rewrite (Rabs_right rate) in Ha by lra.
      destruct (Rle_lt_dec 0 k) as [Hk|Hk].
      + rewrite Rabs_right in Ha by lra. lra.
      + exfalso. destruct (Req_dec rate 0) as [Hz|Hz]; [|nra].
        rewrite Hz, Rabs_left in Ha by lra. lra.
    - right. rewrite (Rabs_left rate) in Ha by lra.
      destruct (Rle_lt_dec k 0) as [Hk|Hk].
      + destruct Hk as [Hk|Hk].
        * rewrite Rabs_left in Ha by lra. lra.
        * rewrite Hk, Rabs_R0 in Ha. lra.
      + exfalso. nra. }
  destruct Hcase as [[H0 H1]|[H1 H0]].
  - split.
    + eapply Rle_trans; [apply Rmin_l|]. apply clamp_monotone. nra.
    + eapply Rle_trans; [|apply Rmax_r]. apply clamp_monotone. nra.
  - split.
    + eapply Rle_trans; [apply Rmin_r|]. apply clamp_monotone. nra.
    + eapply Rle_trans; [|apply Rmax_l]. apply clamp_monotone. nra.
Qed.

Lemma trend_prediction_between_witness :
  exists trend rate,
    get_trend_from_values default_predictor [100; 110; 125] 5 = Ok (trend, rate)
    /\ length (predict_with_trend default_predictor 125 trend)
       = length (prediction_horizons default_predictor)
    /\ Forall2
         (fun h p =>
            40 <= p <= 400
            /\ Rmin (clamp 40 400 125)
                    (clamp 40 400 (125 + rate * IZR h)) <= p
            /\ p <= Rmax (clamp 40 400 125)
                         (clamp 40 400 (125 + rate * IZR h)))
         (prediction_horizons default_predictor)
         (predict_with_trend default_predictor 125 trend).
Proof.
  apply (trend_prediction_between default_predictor [100; 110; 125] 5 125).
  simpl. repeat constructor; lia.
Defined.

(** Sums behind [np.mean]. *)
Definition total (l : list R) : R := fold_right Rplus 0 l.

Lemma mean_total l : mean l = total l / INR (length l).
Proof. reflexivity. Qed.

Lemma total_cons a l : total (a :: l) = a + total l.
Proof. reflexivity. Qed.

Lemma total_abs_nonneg l : 0 <= total (map Rabs l).
Proof.
  induction l as [|a l IH]; cbn [map]; [unfold total; simpl; lra|].
  rewrite total_cons. pose proof (Rabs_pos a). lra.
Qed.

Lemma total_abs_triangle l : Rabs (total l) <= total (map Rabs l).
Proof.
  induction l as [|a l IH]; cbn [map].
  - unfold total. simpl. rewrite Rabs_R0. lra.
  - rewrite !total_cons. eapply Rle_trans; [apply Rabs_triang|]. lra.
Qed.

Lemma total_sq_nonneg l : 0 <= total (map (fun e => e ^ 2) l).
Proof.
  induction l as [|a l IH]; cbn [map]; [unfold total; simpl; lra|].
  rewrite total_cons. nra.
Qed.

Lemma sq_abs b : b ^ 2 = Rabs b ^ 2.
Proof. unfold Rabs. destruct (Rcase_abs b); ring. Qed.

Lemma total_abs_young l a :
  2 * a * total (map Rabs l)
  <= total (map (fun e => e ^ 2) l) + INR (length l) * a ^ 2.
Proof.
  induction l as [|b l IH].
  - unfold total. simpl. lra.
  - change (length (b :: l)) with (S (length l)). rewrite S_INR.
    cbn [map]. rewrite !total_cons.
    assert (H : 2 * a * Rabs b <= b ^ 2 + a ^ 2).
    { rewrite (sq_abs b). pose proof (pow2_ge_0 (a - Rabs b)). lra. }
    lra.
Qed.

Lemma total_abs_square l :
  total (map Rabs l) ^ 2
  <= INR (length l) * total (map (fun e => e ^ 2) l).
Proof.
  induction l as [|b l IH].
  - unfold total. simpl. lra.
  - change (length (b :: l)) with (S (length l)). rewrite S_INR.
    cbn [map]. rewrite !total_cons.
    pose proof (total_abs_young l (Rabs b)) as HY.
    rewrite (sq_abs b). nra.
Qed.

Lemma total_centered l m :
  total (map (fun e => (e - m) ^ 2) l)
  = total (map (fun e => e ^ 2) l) - 2 * m * total l + INR (length l) * m ^ 2.
Proof.
  induction l as [|b l IH].
  - unfold total. simpl. lra.
  - change (length (b :: l)) with (S (length l)). rewrite S_INR.
    cbn [map]. rewrite !total_cons, IH. ring.
Qed.

Lemma total_abs_zero l : total (map Rabs l) = 0 -> Forall (fun e => e = 0) l.
Proof.
  induction l as [|b l IH]; intros H; constructor;
    cbn [map] in H; rewrite total_cons in H;
    pose proof (total_abs_nonneg l); pose proof (Rabs_pos b).
  - destruct (Req_dec b 0) as [E|E]; [exact E|].
    apply Rabs_no_R0 in E. lra.
  - apply IH. lra.
Qed.

Lemma errors_of_length predictions actuals :
  length (errors_of predictions actuals)
  = Nat.min (length predictions) (length actuals).
Proof. unfold errors_of. now rewrite length_map, length_combine. Qed.

(** X10. [calculate_prediction_accuracy] gives no metrics exactly when a
    list is empty.  Otherwise it scores the first [min(len, len)] pairs:
    the mean absolute error is not negative and never above the root
    mean square error, the mean error is never above the mean absolute
    error in magnitude, the squared RMSE is the squared standard
    deviation plus the squared mean error, and the MAE is 0 exactly when
    every scored prediction equals its actual. *)
Theorem prediction_accuracy_metrics (predictions actuals : list R) :
  (predictions = [] \/ actuals = [] <->
   calculate_prediction_accuracy predictions actuals = NoData)
  /\
  (predictions <> [] -> actuals <> [] ->
   exists mae rmse mape mean_error std_error,
     calculate_prediction_accuracy predictions actuals
     = Metrics mae rmse mape mean_error std_error
         (Nat.min (length predictions) (length actuals))
     /\ 0 <= mae <= rmse
     /\ Rabs mean_error <= mae
     /\ 0 <= std_error
     /\ rmse ^ 2 = std_error ^ 2 + mean_error ^ 2
     /\ (mae = 0 <->
         Forall (fun pa => fst pa = snd pa) (combine predictions actuals))).
Proof.
  split.
  - destruct predictions as [|p ps], actuals as [|a acts];
      cbn [calculate_prediction_accuracy]; split; intros H;
      try reflexivity; try (now left); try (now right);
      try discriminate; destruct H; discriminate.
  - intros Hp Ha.
    destruct predictions as [|p ps]; [congruence|].
    destruct actuals as [|a acts]; [congruence|].
    unfold calculate_prediction_accuracy. cbv zeta.
    set (errors := errors_of (p :: ps) (a :: acts)).
    assert (Hlen : length errors
                   = Nat.min (length (p :: ps)) (length (a :: acts)))
      by apply errors_of_length.
    assert (Hn : 0 < INR (length errors)).
    { apply lt_0_INR. rewrite Hlen. simpl. lia. }
    set (n := INR (length errors)) in *.
    do 5 eexists. split; [reflexivity|].
    rewrite !mean_total, !length_map. fold n.
    pose proof (total_abs_nonneg errors) as HS0.
    pose proof (total_abs_square errors) as HCS. fold n in HCS.
    pose proof (total_sq_nonneg errors) as HQ0.
    pose proof (total_abs_triangle errors) as HT.
    set (S := total (map Rabs errors)) in *.
    set (Q := total (map (fun e => e ^ 2) errors)) in *.
    assert (Hinv : 0 < / n) by now apply Rinv_0_lt_compat.
    assert (Hmae : 0 <= S / n) by (unfold Rdiv; nra).
    split; [split; [exact Hmae|]|].
    { rewrite <- (sqrt_square (S / n)) by exact Hmae.
      apply sqrt_le_1_alt.
      assert (E : S / n * (S / n) = S ^ 2 * / n * / n) by (unfold Rdiv; ring).
      rewrite E. unfold Rdiv.
      apply Rmult_le_compat_r; [lra|].
      apply Rmult_le_reg_r with n; [exact Hn|].
      rewrite Rmult_assoc, Rinv_l by lra. lra. }
    split.
    { unfold Rdiv. rewrite Rabs_mult, (Rabs_right (/ n)) by lra.
      apply Rmult_le_compat_r; [lra | exact HT]. }
    split; [apply sqrt_pos|].
    split.
    { pose proof (total_centered errors (total errors / n)) as HVeq.
      pose proof (total_sq_nonneg (map (fun e => e - total errors / n) errors))
        as HV0.
      rewrite map_map in HV0. fold Q in HVeq. fold n in HVeq.
      set (V := total (map (fun e => (e - total errors / n) ^ 2) errors)) in *.
      set (T := total errors) in *.
      assert (HQn : 0 <= Q / n) by (unfold Rdiv; nra).
      assert (HVn : 0 <= V / n) by (unfold Rdiv; nra).
      replace (sqrt (Q / n) ^ 2) with (sqrt (Q / n) * sqrt (Q / n)) by ring.
      replace (sqrt (V / n) ^ 2) with (sqrt (V / n) * sqrt (V / n)) by ring.
      rewrite !sqrt_sqrt by assumption.
      rewrite HVeq. field. lra. }
    split.
    + intros Hz.
      assert (HS : S = 0).
      { apply Rmult_eq_reg_r with (/ n); [|lra]. unfold Rdiv in Hz. lra. }
      apply total_abs_zero in HS. subst errors. unfold errors_of in HS.
      rewrite Forall_map in HS.
      eapply Forall_impl; [|exact HS]. cbv beta. intros x Hx. lra.
    + intros Hall.
      assert (HS : S = 0).
      { subst S errors. unfold errors_of.
        induction Hall as [|x l Hx _ IH]; [reflexivity|].
        cbn [map]. rewrite total_cons, IH.
        rewrite Hx. replace (snd x - snd x) with 0 by ring.
        rewrite Rabs_R0. lra. }
      rewrite HS. unfold Rdiv. ring.
Qed.

Lemma prediction_accuracy_metrics_witness :
  exists mae rmse mape mean_error std_error,
    calculate_prediction_accuracy [110; 120] [100; 125; 130]
    = Metrics mae rmse mape mean_error std_error
        (Nat.min (length [110; 120]) (length [100; 125; 130]))
    /\ 0 <= mae <= rmse
    /\ Rabs mean_error <= mae
    /\ 0 <= std_error
    /\ rmse ^ 2 = std_error ^ 2 + mean_error ^ 2
    /\ (mae = 0 <->
        Forall (fun pa => fst pa = snd pa)
               (combine [110; 120] [100; 125; 130])).
Proof.
  apply (proj2 (prediction_accuracy_metrics [110; 120] [100; 125; 130]));
    discriminate.
Defined.

(** X11. [compare_predictions] names "linear" the winner exactly when the
    linear predictions can be scored and either the LSTM ones cannot or
    the linear MAE is strictly smaller; a tie, and the case where nothing
    can be scored, go to "lstm". *)
Theorem compare_predictions_winner (linear_preds lstm_preds actuals : list R) :
  let c := compare_predictions linear_preds lstm_preds actuals in
  (winner c = "linear"%string \/ winner c = "lstm"%string)
  /\ (winner c = "linear"%string <->
      exists mae rmse mape me sd n,
        linear c = Metrics mae rmse mape me sd n
        /\ match lstm c with
           | NoData => True
           | Metrics mae' _ _ _ _ _ => mae < mae'
           end)
  /\ (mae_or_inf (linear c) = mae_or_inf (lstm c) -> winner c = "lstm"%string)
  /\ (actuals = [] ->
      linear c = NoData /\ lstm c = NoData /\ winner c = "lstm"%string
      /\ improvement_mg_dl c = NaN).
Proof.
  intros c. subst c. unfold compare_predictions.
  cbn [winner linear lstm improvement_mg_dl].
  set (la := calculate_prediction_accuracy linear_preds actuals).
  set (ls := calculate_prediction_accuracy lstm_preds actuals).
  split; [destruct (xlt _ _); auto|].
  split; [|split].
  - split.
    + destruct la as [|m r p me sd n]; cbn [mae_or_inf xlt].
      * discriminate.
      * destruct ls as [|m' r' p' me' sd' n']; cbn [mae_or_inf xlt].
        -- intros _. do 6 eexists. split; [reflexivity | exact I].
        -- destruct (Rltb m m') eqn:E; [|discriminate].
           intros _. apply Rltb_true in E.
           do 6 eexists. split; [reflexivity | exact E].
    + intros (m & r & p & me & sd & n & El & Hm). rewrite El.
      cbn [mae_or_inf xlt].
      destruct ls as [|m' r' p' me' sd' n']; cbn [mae_or_inf xlt];
        [reflexivity|].
      apply Rltb_true in Hm. now rewrite Hm.
  - intros E. rewrite E.
    destruct (mae_or_inf ls) as [x| |]; cbn [xlt]; try reflexivity.
    assert (H : Rltb x x = false) by (apply Rltb_false; lra).
    now rewrite H.
  - intros ->. subst la ls.
    assert (E : forall l, calculate_prediction_accuracy l [] = NoData)
      by (intros [|x l]; reflexivity).
    rewrite !E. cbn. auto.
Qed.

(** Whenever [predict] takes the fitting branch and returns, its
    predictions are clamped, one per horizon. *)
Lemma predict_ok_clamped (polyfit : list R -> list R -> option (R * R))
    (self : LinearPredictor) glucose_values timestamps interval_min
    predictions slope intercept :
  (2 <= length glucose_values)%nat ->
  predict polyfit self glucose_values timestamps interval_min
  = Ok (predictions, slope, intercept) ->
  length predictions = length (prediction_horizons self)
  /\ Forall (fun p => 40 <= p <= 400) predictions.
Proof.
  intros Hlen. unfold predict.
  assert (E : (length glucose_values <? 2)%nat = false)
    by (apply Nat.ltb_ge; lia).
  rewrite E. cbv zeta.
  match goal with
  | |- context [bind ?m _] => destruct m as [x|e]
  end; cbn [bind]; [|discriminate].
  destruct (match polyfit x _ with Some c => c | None => _ end) as [s i].
  destruct (last_item x) as [cx|e]; cbn [bind]; [|discriminate].
  intros H. injection H as <- <- <-.
  split; [apply length_map | apply Forall_map_clamp].
Qed.

Lemma predict_with_trend_clamped (self : LinearPredictor) current_bg trend :
  length (predict_with_trend self current_bg trend)
  = length (prediction_horizons self)
  /\ Forall (fun p => 40 <= p <= 400) (predict_with_trend self current_bg trend).
Proof.
  unfold predict_with_trend. split; [apply length_map | apply Forall_map_clamp].
Qed.

(** The mean of non-negative values is at most their root mean square. *)
Lemma mean_le_rms (l : list R) :
  l <> [] -> Forall (fun e => 0 <= e) l ->
  0 <= total l / INR (length l)
    <= sqrt (total (map (fun e => e ^ 2) l) / INR (length l)).
Proof.
  intros Hne Hpos.
  assert (Habs : map Rabs l = l).
  { clear Hne. induction Hpos as [|x l Hx _ IH]; [reflexivity|]. cbn [map].
    rewrite Rabs_right by lra. now rewrite IH. }
  assert (Hn : 0 < INR (length l)).
  { apply lt_0_INR. destruct l; [congruence | simpl; lia]. }
  pose proof (total_abs_nonneg l) as HS0.
  pose proof (total_abs_square l) as HCS.
  rewrite Habs in HS0, HCS.
  set (n := INR (length l)) in *. set (S := total l) in *.
  set (Q := total (map (fun e => e ^ 2) l)) in *.
  assert (Hinv : 0 < / n) by now apply Rinv_0_lt_compat.
  assert (Hmae : 0 <= S / n) by (unfold Rdiv; nra).
  split; [exact Hmae|].
  rewrite <- (sqrt_square (S / n)) by exact Hmae.
  apply sqrt_le_1_alt.
  assert (E : S / n * (S / n) = S ^ 2 * / n * / n) by (unfold Rdiv; ring).
  rewrite E. unfold Rdiv.
  apply Rmult_le_compat_r; [lra|].
  apply Rmult_le_reg_r with n; [exact Hn|].
  rewrite Rmult_assoc, Rinv_l by lra. lra.
Qed.

End Linear.

(** ** Sensitivity estimator: [ml/inference/isf_inference.py] *)

Module ISF.
Import PyFloat.

(** The trained network together with the scaling and tensor conversion in
    front of it: what the [try] block of [predict] computes before the
    clamp, or the exception it raises.  [ISFNet.forward] ends in a
    softplus. *)
Definition ISFNet : Type := FeatureSequence -> result R.

Record ISFInferenceService : Type := mkISFInferenceService {
  model : option ISFNet;
  _loaded : bool;
  default_isf : R
}.

(** [__init__] *)
Definition init : ISFInferenceService :=
  {| model := None; _loaded := false; default_isf := 50 |}.

(** What [load] found on disk. *)
Inductive load_outcome : Type :=
| ModelFileMissing
| LoadRaisedEarly
| LoadRaisedAfterModel (net : ISFNet)
| Loaded (net : ISFNet).

Definition load (self : ISFInferenceService) (o : load_outcome)
    : ISFInferenceService * bool :=
  match o with
  | ModelFileMissing => (self, false)
  | LoadRaisedEarly => (self, false)
  | LoadRaisedAfterModel net =>
      ({| model := Some net; _loaded := _loaded self;
          default_isf := default_isf self |}, false)
  | Loaded net =>
      ({| model := Some net; _loaded := true;
          default_isf := default_isf self |}, true)
  end.

Definition is_loaded (self : ISFInferenceService) : bool :=
  _loaded self && match model self with Some _ => true | None => false end.

Definition predict (self : ISFInferenceService)
    (feature_sequence : FeatureSequence) : option R :=
  if negb (is_loaded self) then Some (default_isf self)
  else
    let attempt :=
      match model self with
      | Some net => isf_value <- net feature_sequence ;;
                    Ok (clamp 10 150 isf_value)
      | None => Raise TypeError
      end in
    match attempt with
    | Ok isf_value => Some isf_value
    | Raise _ => Some (default_isf self)
    end.

Definition get_default_isf (self : ISFInferenceService) : R :=
  default_isf self.

Definition set_default_isf (self : ISFInferenceService) (value : R)
    : ISFInferenceService :=
  {| model := model self; _loaded := _loaded self;
     default_isf := clamp 10 150 value |}.

(** The service states that the methods can produce from [__init__]. *)
Inductive reachable : ISFInferenceService -> Prop :=
| reach_init : reachable init
| reach_load s o : reachable s -> reachable (fst (load s o))
| reach_set_default s v : reachable s -> reachable (set_default_isf s v).

(** *** Properties *)

Lemma default_isf_in_range (s : ISFInferenceService) :
  reachable s -> 10 <= default_isf s <= 150.
Proof.
  induction 1 as [|s o _ IH|s v _ _].
  - simpl. lra.
  - destruct o; exact IH.
  - simpl. apply clamp_bounds. lra.
Qed.

(** What [predict] returns, by case. *)
Lemma predict_cases (s : ISFInferenceService) (seq : FeatureSequence) :
  exists v, predict s seq = Some v /\
    ((is_loaded s = false /\ v = default_isf s)
     \/ (exists net e, is_loaded s = true /\ model s = Some net
                       /\ net seq = Raise e /\ v = default_isf s)
     \/ (exists net out, is_loaded s = true /\ model s = Some net
                         /\ net seq = Ok out /\ v = clamp 10 150 out)).
Proof.
  unfold predict. destruct (is_loaded s) eqn:Hl; simpl.
  - unfold is_loaded in Hl. apply andb_prop in Hl as [_ Hm].
    destruct (model s) as [net|]; [|discriminate].
    destruct (net seq) as [out|e] eqn:Hnet; simpl; eexists; split;
      try reflexivity.
    + right; right. now exists net, out.
    + right; left. now exists net, e.
  - eexists; split; [reflexivity|]. now left.
Qed.

(** C9. [predict] never returns [None].  In a service state produced by
    [__init__] (default 50), [load] and [set_default_isf], the value is the
    configured default when the model is not loaded or the call fails, and
    the model output clamped into [10, 150] otherwise; in every case it
    lies in [10, 150]. *)
Theorem isf_predict_total_and_bounded (s : ISFInferenceService)
    (feature_sequence : FeatureSequence) :
  reachable s ->
  default_isf init = 50
  /\ exists v,
       predict s feature_sequence = Some v
       /\ 10 <= v <= 150
       /\ (is_loaded s = false -> v = default_isf s)
       /\ (forall net, model s = Some net ->
           (forall e, net feature_sequence = Raise e -> v = default_isf s)
           /\ (forall out, is_loaded s = true ->
               net feature_sequence = Ok out -> v = clamp 10 150 out)).
Proof.
  intros Hr. split; [reflexivity|].
  pose proof (default_isf_in_range s Hr) as Hd.
  destruct (predict_cases s feature_sequence) as (v & Hv & Hc).
  exists v. split; [exact Hv|].
  destruct Hc as [[Hl ->]|[(net & e & Hl & Hm & Hn & ->)|(net & out & Hl & Hm & Hn & ->)]].
  - split; [exact Hd|]. split; [reflexivity|].
    intros net _. split; [reflexivity|]. intros out Hl'. congruence.
  - split; [exact Hd|]. split; [reflexivity|].
    intros net' Hm'. split; [reflexivity|].
    intros out _ Ho. congruence.
  - split; [apply clamp_bounds; lra|]. split; [congruence|].
    intros net' Hm'. assert (net' = net) by congruence. subst net'.
    split; [intros e He; congruence|].
    intros out' _ Ho. congruence.
Qed.

(** A loaded service whose network answers 400, after the default was set
    to 500: the default is stored as 150 and the answer is clamped to 150. *)
Definition loud_net : ISFNet := fun _ => Ok 400.

Lemma isf_predict_total_and_bounded_witness :
  default_isf init = 50
  /\ exists v,
       predict (set_default_isf (fst (load init (Loaded loud_net))) 500) [] = Some v
       /\ 10 <= v <= 150.
Proof.
  destruct (isf_predict_total_and_bounded
              (set_default_isf (fst (load init (Loaded loud_net))) 500) [])
    as (H50 & v & Hv & Hb & _).
  - apply reach_set_default, reach_load, reach_init.
  - split; [exact H50|]. exists v. split; [exact Hv | exact Hb].
Defined.

End ISF.

(** ** AccuracyLedger: [services/accuracy_service.py] *)

Module Accuracy.
Import PyFloat PyList.

Definition datetime : Type := R.

Record PredictionRecord : Type := mkPredictionRecord {
  timestamp : datetime;
  current_bg : R;
  linear_5 : R;
  linear_10 : R;
  linear_15 : R;
  lstm_5 : option R;
  lstm_10 : option R;
  lstm_15 : option R;
  actual_5 : option R;
  actual_10 : option R;
  actual_15 : option R;
  evaluated : bool
}.

Definition set_actual_5 (r : PredictionRecord) (v : R) : PredictionRecord :=
  mkPredictionRecord (timestamp r) (current_bg r) (linear_5 r) (linear_10 r)
    (linear_15 r) (lstm_5 r) (lstm_10 r) (lstm_15 r)
    (Some v) (actual_10 r) (actual_15 r) (evaluated r).

Definition set_actual_10 (r : PredictionRecord) (v : R) : PredictionRecord :=
  mkPredictionRecord (timestamp r) (current_bg r) (linear_5 r) (linear_10 r)
    (linear_15 r) (lstm_5 r) (lstm_10 r) (lstm_15 r)
    (actual_5 r) (Some v) (actual_15 r) (evaluated r).

Definition set_actual_15 (r : PredictionRecord) (v : R) : PredictionRecord :=
  mkPredictionRecord (timestamp r) (current_bg r) (linear_5 r) (linear_10 r)
    (linear_15 r) (lstm_5 r) (lstm_10 r) (lstm_15 r)
    (actual_5 r) (actual_10 r) (Some v) (evaluated r).

Definition set_evaluated (r : PredictionRecord) : PredictionRecord :=
  mkPredictionRecord (timestamp r) (current_bg r) (linear_5 r) (linear_10 r)
    (linear_15 r) (lstm_5 r) (lstm_10 r) (lstm_15 r)
    (actual_5 r) (actual_10 r) (actual_15 r) true.

Record AccuracyMetrics : Type := mkAccuracyMetrics {
  mae_5 : R;
  mae_10 : R;
  mae_15 : R;
  mae_overall : R;
  rmse_5 : R;
  rmse_10 : R;
  rmse_15 : R;
  rmse_overall : R;
  sample_count : nat;
  within_10_pct : R;
  within_20_pct : R
}.

(** [AccuracyMetrics()] *)
Definition no_metrics : AccuracyMetrics :=
  mkAccuracyMetrics 0 0 0 0 0 0 0 0 0 0 0.

Record AccuracyComparison : Type := mkAccuracyComparison {
  linear : AccuracyMetrics;
  lstm : option AccuracyMetrics;
  winner : string;
  linear_wins : nat;
  lstm_wins : nat;
  total_comparisons : nat;
  period_hours : Z;
  comparison_timestamp : datetime
}.

Definition errors : Type := (R * R * R)%type.

Record AccuracyTracker : Type := mkAccuracyTracker {
  max_records : nat;
  _predictions : list PredictionRecord;
  _linear_errors : list errors;
  _lstm_errors : list errors;
  _linear_wins : nat;
  _lstm_wins : nat
}.

(** [AccuracyTracker(max_records)] *)
Definition init (max_records : nat) : AccuracyTracker :=
  mkAccuracyTracker max_records [] [] [] 0 0.

Definition with_predictions (self : AccuracyTracker)
    (predictions : list PredictionRecord) : AccuracyTracker :=
  mkAccuracyTracker (max_records self) predictions (_linear_errors self)
    (_lstm_errors self) (_linear_wins self) (_lstm_wins self).

(** [lstm[i] if lstm else None] *)
Definition lstm_item (lstm : option (list R)) (i : nat) : result (option R) :=
  match lstm with
  | Some (x :: xs) => v <- item (x :: xs) i ;; Ok (Some v)
  | _ => Ok None
  end.

Definition record_prediction (self : AccuracyTracker) (utcnow : datetime)
    (current_bg : R) (linear : list R) (lstm : option (list R))
    : result AccuracyTracker :=
  l5 <- item linear 0 ;;
  l10 <- item linear 1 ;;
  l15 <- item linear 2 ;;
  m5 <- lstm_item lstm 0 ;;
  m10 <- lstm_item lstm 1 ;;
  m15 <- lstm_item lstm 2 ;;
  let record :=
    mkPredictionRecord utcnow current_bg l5 l10 l15 m5 m10 m15
      None None None false in
  Ok (with_predictions self
        (deque_append (max_records self) (_predictions self) record)).

Definition is_none {A : Type} (o : option A) : bool :=
  match o with
  | None => true
  | Some _ => false
  end.

(** An operand that must not be [None]: arithmetic on [None] is a
    [TypeError]. *)
Definition number (o : option R) : result R :=
  match o with
  | Some x => Ok x
  | None => Raise TypeError
  end.

(** [errors[-max_errors:]] when the list is longer than [max_errors]. *)
Definition trim (max_errors : nat) (l : list errors) : list errors :=
  if (max_errors <? length l)%nat then slice_from (- Z.of_nat max_errors) l
  else l.

Definition _evaluate_record (self : AccuracyTracker)
    (record : PredictionRecord) : result AccuracyTracker :=
  a5 <- number (actual_5 record) ;;
  let linear_err_5 := Rabs (linear_5 record - a5) in
  a10 <- number (actual_10 record) ;;
  let linear_err_10 := Rabs (linear_10 record - a10) in
  a15 <- number (actual_15 record) ;;
  let linear_err_15 := Rabs (linear_15 record - a15) in
  let linear_errors :=
    _linear_errors self ++ [(linear_err_5, linear_err_10, linear_err_15)] in
  let linear_avg := (linear_err_5 + linear_err_10 + linear_err_15) / 3 in
  '(lstm_errors, linear_wins, lstm_wins) <-
    match lstm_5 record with
    | Some m5 =>
        let lstm_err_5 := Rabs (m5 - a5) in
        m10 <- number (lstm_10 record) ;;
        let lstm_err_10 := Rabs (m10 - a10) in
        m15 <- number (lstm_15 record) ;;
        let lstm_err_15 := Rabs (m15 - a15) in
        let lstm_errors :=
          _lstm_errors self ++ [(lstm_err_5, lstm_err_10, lstm_err_15)] in
        let lstm_avg := (lstm_err_5 + lstm_err_10 + lstm_err_15) / 3 in
        if Rltb lstm_avg linear_avg
        then Ok (lstm_errors, _linear_wins self, S (_lstm_wins self))
        else Ok (lstm_errors, S (_linear_wins self), _lstm_wins self)
    | None => Ok (_lstm_errors self, _linear_wins self, _lstm_wins self)
    end ;;
  let max_errors := 500%nat in
  Ok (mkAccuracyTracker (max_records self) (_predictions self)
        (trim max_errors linear_errors) (trim max_errors lstm_errors)
        linear_wins lstm_wins).

(** The [if]/[elif] chain of [record_actual] that matches a reading to a
    horizon slot. *)
Definition fill_slot (now : datetime) (value : R) (record : PredictionRecord)
    : PredictionRecord :=
  let time_diff := (now - timestamp record) / 60 in
  if Rleb 4 time_diff && Rleb time_diff 6 && is_none (actual_5 record)
  then set_actual_5 record value
  else if Rleb 9 time_diff && Rleb time_diff 11 && is_none (actual_10 record)
  then set_actual_10 record value
  else if Rleb 14 time_diff && Rleb time_diff 16 && is_none (actual_15 record)
  then set_actual_15 record value
  else record.

Definition all_filled (record : PredictionRecord) : bool :=
  negb (is_none (actual_5 record)) && negb (is_none (actual_10 record))
  && negb (is_none (actual_15 record)).

(** The [for record in self._predictions] loop of [record_actual].  The
    records are updated in place, so the deque keeps its order; [self]
    carries the error pools and the win counters through the loop. *)
Fixpoint record_actual_loop (now : datetime) (value : R)
    (records : list PredictionRecord) (self : AccuracyTracker)
    : result (list PredictionRecord * AccuracyTracker) :=
  match records with
  | [] => Ok ([], self)
  | record :: rest =>
      if evaluated record then
        '(rest', self') <- record_actual_loop now value rest self ;;
        Ok (record :: rest', self')
      else
        let record := fill_slot now value record in
        if all_filled record then
          let record := set_evaluated record in
          self <- _evaluate_record self record ;;
          '(rest', self') <- record_actual_loop now value rest self ;;
          Ok (record :: rest', self')
        else
          '(rest', self') <- record_actual_loop now value rest self ;;
          Ok (record :: rest', self')
  end.

Definition record_actual (self : AccuracyTracker) (timestamp : datetime)
    (value : R) : result AccuracyTracker :=
  let now := timestamp in
  '(records, self') <- record_actual_loop now value (_predictions self) self ;;
  Ok (with_predictions self' records).

Definition sum (l : list R) : R := fold_right Rplus 0 l.

Definition len {A : Type} (l : list A) : R := INR (length l).

(** [sum(1 for e in l if e <= bound)] *)
Definition count_within (bound : R) (l : list R) : R :=
  len (filter (fun e => Rleb e bound) l).

Definition _calculate_metrics (errs : list errors) : AccuracyMetrics :=
  match errs with
  | [] => no_metrics
  | _ =>
      let n := length errs in
      let errors_5 := map (fun e => fst (fst e)) errs in
      let errors_10 := map (fun e => snd (fst e)) errs in
      let errors_15 := map (fun e => snd e) errs in
      let all_errors := errors_5 ++ errors_10 ++ errors_15 in
      let mae_5 := sum errors_5 / len errors_5 in
      let mae_10 := sum errors_10 / len errors_10 in
      let mae_15 := sum errors_15 / len errors_15 in
      let mae_overall := sum all_errors / len all_errors in
      let sq := map (fun e => e ^ 2) in
      let rmse_5 := sqrt (sum (sq errors_5) / len errors_5) in
      let rmse_10 := sqrt (sum (sq errors_10) / len errors_10) in
      let rmse_15 := sqrt (sum (sq errors_15) / len errors_15) in
      let rmse_overall := sqrt (sum (sq all_errors) / len all_errors) in
      let within_10 := count_within 10 all_errors / len all_errors * 100 in
      let within_20 := count_within 20 all_errors / len all_errors * 100 in
      mkAccuracyMetrics
        (py_round mae_5 1) (py_round mae_10 1) (py_round mae_15 1)
        (py_round mae_overall 1)
        (py_round rmse_5 1) (py_round rmse_10 1) (py_round rmse_15 1)
        (py_round rmse_overall 1)
        n (py_round within_10 1) (py_round within_20 1)
  end.

(** [if lstm_metrics and ...]: a metrics object is truthy, [None] is not. *)
Definition get_accuracy (self : AccuracyTracker) (hours : Z)
    (utcnow : datetime) : AccuracyComparison :=
  let linear_metrics := _calculate_metrics (_linear_errors self) in
  let lstm_metrics :=
    match _lstm_errors self with
    | [] => None
    | _ => Some (_calculate_metrics (_lstm_errors self))
    end in
  let winner :=
    match lstm_metrics with
    | Some m =>
        if Rltb (mae_overall m) (mae_overall linear_metrics)
        then "lstm"%string else "linear"%string
    | None => "linear"%string
    end in
  mkAccuracyComparison linear_metrics lstm_metrics winner
    (_linear_wins self) (_lstm_wins self)
    (_linear_wins self + _lstm_wins self) hours utcnow.

(** A run of [record_actual] calls, oldest first. *)
Fixpoint record_actuals (self : AccuracyTracker)
    (actuals : list (datetime * R)) : result AccuracyTracker :=
  match actuals with
  | [] => Ok self
  | (t, v) :: rest =>
      self' <- record_actual self t v ;;
      record_actuals self' rest
  end.

(** *** The loop of [record_actual], record by record *)

(** What one call does to one record. *)
Definition step (now : datetime) (value : R) (r : PredictionRecord)
    : PredictionRecord :=
  if evaluated r then r
  else
    let r1 := fill_slot now value r in
    if all_filled r1 then set_evaluated r1 else r1.

(** The record is handed to [_evaluate_record] by this call. *)
Definition completes (now : datetime) (value : R) (r : PredictionRecord) : bool :=
  negb (evaluated r) && all_filled (fill_slot now value r).

(** The calls of [_evaluate_record] that one [record_actual] makes. *)
Fixpoint evaluate_all (now : datetime) (value : R)
    (records : list PredictionRecord) (self : AccuracyTracker)
    : result AccuracyTracker :=
  match records with
  | [] => Ok self
  | r :: rest =>
      if completes now value r then
        self' <- _evaluate_record self (step now value r) ;;
        evaluate_all now value rest self'
      else evaluate_all now value rest self
  end.

(** A record through a run of calls. *)
Fixpoint steps (actuals : list (datetime * R)) (r : PredictionRecord)
    : PredictionRecord :=
  match actuals with
  | [] => r
  | (t, v) :: rest => steps rest (step t v r)
  end.

(** The error pools and win counters through a run of calls over the
    records [records]. *)
Fixpoint run (actuals : list (datetime * R)) (records : list PredictionRecord)
    (self : AccuracyTracker) : result AccuracyTracker :=
  match actuals with
  | [] => Ok self
  | (t, v) :: rest =>
      self' <- evaluate_all t v records self ;;
      run rest (map (step t v) records) self'
  end.

Definition rmap {A B : Type} (f : A -> B) (m : result A) : result B :=
  match m with
  | Ok a => Ok (f a)
  | Raise e => Raise e
  end.

(** The aggregate state: error pools and win counters. *)
Definition pools (self : AccuracyTracker)
    : list errors * list errors * nat * nat :=
  (_linear_errors self, _lstm_errors self, _linear_wins self, _lstm_wins self).

(** The three [lstm_*] fields of a record come from one list in
    [record_prediction]: all set or all [None]. *)
Definition lstm_consistent (r : PredictionRecord) : Prop :=
  lstm_5 r = None \/ (lstm_10 r <> None /\ lstm_15 r <> None).

Lemma with_predictions_twice self p q :
  with_predictions (with_predictions self p) q = with_predictions self q.
Proof. reflexivity. Qed.

Lemma with_predictions_same self :
  with_predictions self (_predictions self) = self.
Proof. now destruct self. Qed.

Lemma pools_with_predictions self p : pools (with_predictions self p) = pools self.
Proof. reflexivity. Qed.

Lemma evaluate_record_with_predictions self p r :
  _evaluate_record (with_predictions self p) r
  = rmap (fun s => with_predictions s p) (_evaluate_record self r).
Proof.
  unfold _evaluate_record.
  destruct (number (actual_5 r)) as [a5|]; [|reflexivity].
  destruct (number (actual_10 r)) as [a10|]; [|reflexivity].
  destruct (number (actual_15 r)) as [a15|]; [|reflexivity].
  cbn [bind].
  destruct (lstm_5 r) as [m5|]; [|reflexivity].
  destruct (number (lstm_10 r)) as [m10|]; [|reflexivity].
  destruct (number (lstm_15 r)) as [m15|]; [|reflexivity].
  cbn [bind]. destruct (Rltb _ _); reflexivity.
Qed.

Lemma evaluate_all_with_predictions now value rs self p :
  evaluate_all now value rs (with_predictions self p)
  = rmap (fun s => with_predictions s p) (evaluate_all now value rs self).
Proof.
  revert self. induction rs as [|r rs IH]; intros self; simpl.
  - reflexivity.
  - destruct (completes now value r); [|apply IH].
    rewrite evaluate_record_with_predictions.
    destruct (_evaluate_record self _) as [s|e]; simpl; [apply IH | reflexivity].
Qed.

Lemma run_with_predictions actuals rs self p :
  run actuals rs (with_predictions self p)
  = rmap (fun s => with_predictions s p) (run actuals rs self).
Proof.
  revert rs self. induction actuals as [|[t v] rest IH]; intros rs self; simpl.
  - reflexivity.
  - rewrite evaluate_all_with_predictions.
    destruct (evaluate_all t v rs self) as [s|e]; simpl; [apply IH | reflexivity].
Qed.

(** The loop updates every record by [step] and makes the calls of
    [evaluate_all]. *)
Lemma record_actual_loop_spec now value rs self :
  record_actual_loop now value rs self
  = rmap (fun s => (map (step now value) rs, s)) (evaluate_all now value rs self).
Proof.
  revert self. induction rs as [|r rs IH]; intros self; simpl.
  - reflexivity.
  - unfold step, completes. destruct (evaluated r); simpl.
    + rewrite IH. now destruct (evaluate_all now value rs self).
    + destruct (all_filled (fill_slot now value r)).
      * destruct (_evaluate_record self _) as [s|e]; simpl; [|reflexivity].
        rewrite IH. now destruct (evaluate_all now value rs s).
      * rewrite IH. now destruct (evaluate_all now value rs self).
Qed.

Lemma record_actual_spec self t v :
  record_actual self t v
  = rmap (fun s => with_predictions s (map (step t v) (_predictions self)))
      (evaluate_all t v (_predictions self) self).
Proof.
  unfold record_actual. rewrite record_actual_loop_spec.
  now destruct (evaluate_all t v (_predictions self) self).
Qed.

Lemma record_actuals_spec actuals self :
  record_actuals self actuals
  = rmap (fun s => with_predictions s (map (steps actuals) (_predictions self)))
      (run actuals (_predictions self) self).
Proof.
  revert self. induction actuals as [|[t v] rest IH]; intros self; simpl.
  - rewrite map_id. now rewrite with_predictions_same.
  - rewrite record_actual_spec.
    destruct (evaluate_all t v (_predictions self) self) as [s|e]; simpl;
      [|reflexivity].
    rewrite IH. cbn [_predictions with_predictions].
    rewrite run_with_predictions, map_map.
    destruct (run rest _ s); reflexivity.
Qed.

(** *** One record through the calls *)

Lemma step_evaluated now value r : evaluated r = true -> step now value r = r.
Proof. intros H. unfold step. now rewrite H. Qed.

Lemma steps_evaluated actuals r : evaluated r = true -> steps actuals r = r.
Proof.
  revert r. induction actuals as [|[t v] rest IH]; intros r H; simpl.
  - reflexivity.
  - rewrite step_evaluated by assumption. now apply IH.
Qed.

Lemma all_filled_set_evaluated r : all_filled (set_evaluated r) = all_filled r.
Proof. reflexivity. Qed.

(** A call that completes a record leaves it evaluated with its three
    slots filled, and it stays that way. *)
Lemma completes_final now value actuals r :
  completes now value r = true ->
  all_filled (steps actuals (step now value r)) = true
  /\ evaluated (steps actuals (step now value r)) = true.
Proof.
  unfold completes. intros H. apply andb_prop in H as [He Hf].
  apply negb_true_iff in He.
  assert (E : step now value r = set_evaluated (fill_slot now value r))
    by (unfold step; now rewrite He, Hf).
  rewrite E, steps_evaluated by reflexivity.
  now rewrite all_filled_set_evaluated.
Qed.

(** [fill_slot] writes at most one of the three actual slots and nothing
    else. *)
Lemma fill_slot_cases now value r :
  fill_slot now value r = r
  \/ fill_slot now value r = set_actual_5 r value
  \/ fill_slot now value r = set_actual_10 r value
  \/ fill_slot now value r = set_actual_15 r value.
Proof.
  unfold fill_slot.
  destruct (_ && _ && is_none (actual_5 r)); [tauto|].
  destruct (_ && _ && is_none (actual_10 r)); [tauto|].
  destruct (_ && _ && is_none (actual_15 r)); tauto.
Qed.

Lemma fill_slot_evaluated now value r :
  evaluated (fill_slot now value r) = evaluated r.
Proof.
  destruct (fill_slot_cases now value r) as [E|[E|[E|E]]]; now rewrite E.
Qed.

Lemma fill_slot_lstm now value r :
  lstm_5 (fill_slot now value r) = lstm_5 r
  /\ lstm_10 (fill_slot now value r) = lstm_10 r
  /\ lstm_15 (fill_slot now value r) = lstm_15 r.
Proof.
  destruct (fill_slot_cases now value r) as [E|[E|[E|E]]]; now rewrite E.
Qed.

(** A slot changes only inside its tolerance band, and only when empty. *)
Lemma fill_slot_bands now value r :
  let time_diff := (now - timestamp r) / 60 in
  let r' := fill_slot now value r in
  (actual_5 r' <> actual_5 r ->
     4 <= time_diff <= 6 /\ actual_5 r = None /\ actual_5 r' = Some value)
  /\ (actual_10 r' <> actual_10 r ->
     9 <= time_diff <= 11 /\ actual_10 r = None /\ actual_10 r' = Some value)
  /\ (actual_15 r' <> actual_15 r ->
     14 <= time_diff <= 16 /\ actual_15 r = None /\ actual_15 r' = Some value).
Proof.
  intros time_diff r'. subst r'. unfold fill_slot. fold time_diff.
  destruct (Rleb 4 time_diff && Rleb time_diff 6 && is_none (actual_5 r)) eqn:B5.
  { apply andb_prop in B5 as [B5 N5]. apply andb_prop in B5 as [L5 U5].
    apply Rleb_true in L5, U5.
    destruct (actual_5 r) eqn:A5; [discriminate|].
    simpl. split; [|split]; intros H; try (now elim H); repeat split; auto. }
  destruct (Rleb 9 time_diff && Rleb time_diff 11 && is_none (actual_10 r)) eqn:B10.
  { apply andb_prop in B10 as [B10 N10]. apply andb_prop in B10 as [L10 U10].
    apply Rleb_true in L10, U10.
    destruct (actual_10 r) eqn:A10; [discriminate|].
    simpl. split; [|split]; intros H; try (now elim H); repeat split; auto. }
  destruct (Rleb 14 time_diff && Rleb time_diff 16 && is_none (actual_15 r)) eqn:B15.
  { apply andb_prop in B15 as [B15 N15]. apply andb_prop in B15 as [L15 U15].
    apply Rleb_true in L15, U15.
    destruct (actual_15 r) eqn:A15; [discriminate|].
    simpl. split; [|split]; intros H; try (now elim H); repeat split; auto. }
  split; [|split]; intros H; now elim H.
Qed.

(** A call that does not complete a record leaves its [evaluated] flag. *)
Lemma not_completes_evaluated now value r :
  completes now value r = false ->
  evaluated (step now value r) = evaluated r.
Proof.
  unfold completes, step. destruct (evaluated r) eqn:He; simpl.
  - now rewrite He.
  - intros ->. now rewrite fill_slot_evaluated.
Qed.

Lemma not_completes_unfilled now value actuals r :
  all_filled (steps actuals (step now value r)) = false ->
  completes now value r = false.
Proof.
  intros H. destruct (completes now value r) eqn:C; [|reflexivity].
  destruct (completes_final now value actuals r C) as [F _]. congruence.
Qed.

(** A record whose slots are not all filled at the end was never handed to
    [_evaluate_record], so its flag is the one it started with. *)
Lemma unfilled_keeps_flag actuals r :
  all_filled (steps actuals r) = false ->
  evaluated (steps actuals r) = evaluated r.
Proof.
  revert r. induction actuals as [|[t v] rest IH]; intros r H; simpl in *.
  - reflexivity.
  - rewrite IH by assumption.
    apply not_completes_evaluated. now apply not_completes_unfilled with rest.
Qed.

(** A record becomes evaluated only with its three slots filled. *)
Lemma evaluated_implies_filled actuals r :
  evaluated r = false ->
  evaluated (steps actuals r) = true ->
  all_filled (steps actuals r) = true.
Proof.
  intros H0 H1.
  destruct (all_filled (steps actuals r)) eqn:F; [reflexivity|].
  rewrite unfilled_keeps_flag in H1 by assumption. congruence.
Qed.

(** *** The pools do not see a record that never completes *)

Lemma evaluate_all_skip now value l1 r l2 self :
  completes now value r = false ->
  evaluate_all now value (l1 ++ r :: l2) self
  = evaluate_all now value (l1 ++ l2) self.
Proof.
  intros C. revert self. induction l1 as [|a l1 IH]; intros self; simpl.
  - now rewrite C.
  - destruct (completes now value a); [|apply IH].
    destruct (_evaluate_record self _); simpl; [apply IH | reflexivity].
Qed.

Lemma run_skip actuals l1 r l2 self :
  all_filled (steps actuals r) = false ->
  run actuals (l1 ++ r :: l2) self = run actuals (l1 ++ l2) self.
Proof.
  revert l1 r l2 self.
  induction actuals as [|[t v] rest IH]; intros l1 r l2 self H; simpl in *.
  - reflexivity.
  - rewrite evaluate_all_skip by (now apply not_completes_unfilled with rest).
    destruct (evaluate_all t v (l1 ++ l2) self) as [s|e]; simpl; [|reflexivity].
    rewrite !map_app. simpl. now apply IH.
Qed.

(** *** The calls return *)

Lemma step_lstm_consistent now value r :
  lstm_consistent r -> lstm_consistent (step now value r).
Proof.
  unfold lstm_consistent, step.
  destruct (fill_slot_lstm now value r) as (E5 & E10 & E15).
  destruct (evaluated r); [tauto|].
  destruct (all_filled _); simpl; rewrite E5, E10, E15; tauto.
Qed.

Lemma evaluate_record_returns self r :
  all_filled r = true -> lstm_consistent r ->
  exists self', _evaluate_record self r = Ok self'.
Proof.
  unfold all_filled, lstm_consistent, _evaluate_record. intros F L.
  destruct (actual_5 r); [|discriminate].
  destruct (actual_10 r); [|discriminate].
  destruct (actual_15 r); [|discriminate].
  cbn [number bind].
  destruct (lstm_5 r) as [m5|]; [|eexists; reflexivity].
  destruct L as [L|[L10 L15]]; [discriminate|].
  destruct (lstm_10 r); [|now elim L10].
  destruct (lstm_15 r); [|now elim L15].
  cbn [number bind]. destruct (Rltb _ _); eexists; reflexivity.
Qed.

Lemma evaluate_all_returns now value rs self :
  Forall lstm_consistent rs ->
  exists self', evaluate_all now value rs self = Ok self'.
Proof.
  intros H. revert self. induction H as [|r rs Hr _ IH]; intros self; simpl.
  - now exists self.
  - destruct (completes now value r) eqn:C; [|apply IH].
    destruct (evaluate_record_returns self (step now value r)) as [s Hs].
    + destruct (completes_final now value [] r C) as [F _]. exact F.
    + now apply step_lstm_consistent.
    + rewrite Hs. simpl. apply IH.
Qed.

Lemma run_returns actuals rs self :
  Forall lstm_consistent rs ->
  exists self', run actuals rs self = Ok self'.
Proof.
  revert rs self. induction actuals as [|[t v] rest IH]; intros rs self H; simpl.
  - now exists self.
  - destruct (evaluate_all_returns t v rs self H) as [s Hs]. rewrite Hs. simpl.
    apply IH. apply Forall_map.
    eapply Forall_impl; [|exact H]. intros r. apply step_lstm_consistent.
Qed.

(** The aggregate report reads the pools only. *)
Lemma get_accuracy_pools a b hours utcnow :
  pools a = pools b -> get_accuracy a hours utcnow = get_accuracy b hours utcnow.
Proof.
  unfold pools, get_accuracy. intros H. injection H as -> -> -> ->. reflexivity.
Qed.

(** C7. Over any run of [record_actual] calls on a tracker whose records
    were made by [record_prediction]: the calls return; a record that was
    not evaluated and is evaluated at the end has its three actual slots
    filled; a record whose slots are not all filled at the end keeps its
    flag and has added nothing to the aggregate state -- the error pools,
    the win counters and every report of [get_accuracy] are those of the
    same run without that record; and a slot is written only when the
    reading is 4 to 6, 9 to 11 or 14 to 16 minutes after the record's
    creation. *)
Theorem evaluated_only_when_all_slots_filled (self : AccuracyTracker)
    (actuals : list (datetime * R)) :
  Forall lstm_consistent (_predictions self) ->
  (exists self',
     record_actuals self actuals = Ok self'
     /\ _predictions self' = map (steps actuals) (_predictions self)
     /\ (forall i r r',
           nth_error (_predictions self) i = Some r ->
           nth_error (_predictions self') i = Some r' ->
           evaluated r = false -> evaluated r' = true ->
           all_filled r' = true)
     /\ (forall l1 r l2 r',
           _predictions self = l1 ++ r :: l2 ->
           nth_error (_predictions self') (length l1) = Some r' ->
           all_filled r' = false ->
           evaluated r' = evaluated r
           /\ exists other,
                record_actuals (with_predictions self (l1 ++ l2)) actuals
                = Ok other
                /\ pools other = pools self'
                /\ forall hours utcnow,
                     get_accuracy other hours utcnow
                     = get_accuracy self' hours utcnow))
  /\
  (forall now value r,
     let time_diff := (now - timestamp r) / 60 in
     let r' := fill_slot now value r in
     (actual_5 r' <> actual_5 r -> 4 <= time_diff <= 6)
     /\ (actual_10 r' <> actual_10 r -> 9 <= time_diff <= 11)
     /\ (actual_15 r' <> actual_15 r -> 14 <= time_diff <= 16)).
Proof.
  intros Hwf. split.
  - destruct (run_returns actuals (_predictions self) self Hwf) as [s Hs].
    exists (with_predictions s (map (steps actuals) (_predictions self))).
    split; [now rewrite record_actuals_spec, Hs|].
    split; [reflexivity|].
    cbn [_predictions with_predictions]. split.
    + intros i r r' Hi Hi' E0 E1.
      rewrite nth_error_map, Hi in Hi'. injection Hi' as <-.
      now apply evaluated_implies_filled.
    + intros l1 r l2 r' Hl Hn F.
      rewrite Hl, map_app, nth_error_app2 in Hn by (rewrite length_map; lia).
      rewrite length_map, Nat.sub_diag in Hn. simpl in Hn. injection Hn as <-.
      split; [now apply unfilled_keeps_flag|].
      rewrite record_actuals_spec. cbn [_predictions with_predictions].
      rewrite run_with_predictions.
      rewrite Hl, run_skip in Hs by assumption. rewrite Hs. simpl.
      eexists. split; [reflexivity|]. split; [reflexivity|].
      intros hours utcnow. now apply get_accuracy_pools.
  - intros now value r time_diff r'.
    destruct (fill_slot_bands now value r) as (B5 & B10 & B15).
    fold time_diff in B5, B10, B15. fold r' in B5, B10, B15.
    split; [|split]; intros H; [apply B5 | apply B10 | apply B15]; exact H.
Qed.

Lemma fill_slot_in_5 now value r :
  4 <= (now - timestamp r) / 60 <= 6 -> actual_5 r = None ->
  fill_slot now value r = set_actual_5 r value.
Proof.
  intros [L U] N. unfold fill_slot.
  apply Rleb_true in L, U. now rewrite L, U, N.
Qed.

Lemma fill_slot_in_10 now value r :
  9 <= (now - timestamp r) / 60 <= 11 -> actual_10 r = None ->
  fill_slot now value r = set_actual_10 r value.
Proof.
  intros [L U] N. unfold fill_slot.
  assert (U5 : Rleb ((now - timestamp r) / 60) 6 = false)
    by (apply Rleb_false; lra).
  apply Rleb_true in L, U. now rewrite U5, andb_false_r, L, U, N.
Qed.

(** A prediction made at time 0 that sees readings after 5 and 10 minutes
    and none after 15. *)
Definition open_record : PredictionRecord :=
  mkPredictionRecord 0 100 100 100 100 None None None None None None false.

Definition two_readings : list (datetime * R) := [(300, 110); (600, 120)].

Lemma open_record_steps :
  steps two_readings open_record
  = mkPredictionRecord 0 100 100 100 100 None None None
      (Some 110) (Some 120) None false.
Proof.
  assert (S1 : step 300 110 open_record = set_actual_5 open_record 110).
  { unfold step. cbn [evaluated open_record].
    rewrite fill_slot_in_5 by (simpl; try lra; reflexivity). reflexivity. }
  unfold two_readings. cbn [steps]. rewrite S1.
  unfold step. cbn [evaluated set_actual_5 open_record].
  rewrite fill_slot_in_10 by (simpl; try lra; reflexivity). reflexivity.
Qed.

Lemma evaluated_only_when_all_slots_filled_witness :
  exists self',
    record_actuals (with_predictions (init 1000) [open_record]) two_readings
    = Ok self'
    /\ nth_error (_predictions self') 0 = Some (steps two_readings open_record)
    /\ evaluated (steps two_readings open_record) = false
    /\ pools self' = pools (init 1000).
Proof.
  destruct (evaluated_only_when_all_slots_filled
              (with_predictions (init 1000) [open_record]) two_readings)
    as [(self' & Hrun & Hpreds & _ & Hout) _].
  - repeat constructor.
  - exists self'. split; [exact Hrun|].
    assert (Hn : nth_error (_predictions self') 0
                 = Some (steps two_readings open_record))
      by (rewrite Hpreds; reflexivity).
    split; [exact Hn|].
    destruct (Hout [] open_record [] (steps two_readings open_record)
                eq_refl Hn)
      as (Hflag & other & Hother & Hpools & _).
    + rewrite open_record_steps. reflexivity.
    + split; [rewrite Hflag; reflexivity|].
      rewrite <- Hpools. simpl in Hother. injection Hother as <-. reflexivity.
Defined.

(** *** Winner determination *)

(** The mean of all per-horizon absolute errors of a pool, before
    rounding. *)
Definition overall_mae (errs : list errors) : R :=
  let all_errors :=
    map (fun e => fst (fst e)) errs ++ map (fun e => snd (fst e)) errs
    ++ map (fun e => snd e) errs in
  sum all_errors / len all_errors.

Lemma calculate_metrics_mae_overall errs :
  errs <> [] ->
  mae_overall (_calculate_metrics errs) = py_round (overall_mae errs) 1.
Proof. destruct errs; [congruence | reflexivity]. Qed.

Lemma py_round_lt_inv x y n : py_round x n < py_round y n -> x < y.
Proof.
  intros H. destruct (Rlt_le_dec x y) as [Hlt|Hle]; [assumption|].
  pose proof (py_round_le y x n Hle). lra.
Qed.

(** C10. A tie goes to the linear method.  [_evaluate_record], on a record
    with both methods' predictions and its three actuals, adds one to the
    lstm win counter exactly when the lstm mean absolute error over the
    three horizons is strictly below the linear one, and adds one to the
    linear counter otherwise, a tie included.  [get_accuracy] names "lstm"
    the winner exactly when lstm metrics exist and their overall MAE is
    strictly below the linear overall MAE, and "linear" otherwise; the
    means before rounding are then strictly ordered too. *)
Theorem tie_goes_to_linear :
  (forall self ts bg l5 l10 l15 m5 m10 m15 a5 a10 a15 ev,
     let record :=
       mkPredictionRecord ts bg l5 l10 l15 (Some m5) (Some m10) (Some m15)
         (Some a5) (Some a10) (Some a15) ev in
     let linear_avg := (Rabs (l5 - a5) + Rabs (l10 - a10) + Rabs (l15 - a15)) / 3 in
     let lstm_avg := (Rabs (m5 - a5) + Rabs (m10 - a10) + Rabs (m15 - a15)) / 3 in
     exists self',
       _evaluate_record self record = Ok self'
       /\ (lstm_avg < linear_avg ->
           _lstm_wins self' = S (_lstm_wins self)
           /\ _linear_wins self' = _linear_wins self)
       /\ (linear_avg <= lstm_avg ->
           _lstm_wins self' = _lstm_wins self
           /\ _linear_wins self' = S (_linear_wins self)))
  /\
  (forall self hours utcnow,
     let comparison := get_accuracy self hours utcnow in
     (winner comparison = "lstm"%string \/ winner comparison = "linear"%string)
     /\ (winner comparison = "lstm"%string <->
         exists m, lstm comparison = Some m
                   /\ mae_overall m < mae_overall (linear comparison))
     /\ (winner comparison = "lstm"%string ->
         _linear_errors self <> [] ->
         overall_mae (_lstm_errors self) < overall_mae (_linear_errors self))).
Proof.
  split.
  - intros self ts bg l5 l10 l15 m5 m10 m15 a5 a10 a15 ev record linear_avg lstm_avg.
    unfold _evaluate_record. cbn [record actual_5 actual_10 actual_15 lstm_5
      lstm_10 lstm_15 linear_5 linear_10 linear_15 number bind].
    fold linear_avg. fold lstm_avg.
    destruct (Rltb lstm_avg linear_avg) eqn:W; cbn [bind];
      eexists; (split; [reflexivity|]);
      cbn [_lstm_wins _linear_wins].
    + apply Rltb_true in W. split; [auto|]. intros; lra.
    + apply Rltb_false in W. split; [intros; lra | auto].
  - intros self hours utcnow comparison. subst comparison.
    unfold get_accuracy. cbn [winner lstm linear].
    destruct (_lstm_errors self) as [|e errs] eqn:El.
    + split; [now right|]. split.
      * split; [discriminate | intros (m & Hm & _); discriminate].
      * discriminate.
    + set (lstm_m := _calculate_metrics (e :: errs)).
      set (lin_m := _calculate_metrics (_linear_errors self)).
      destruct (Rltb (mae_overall lstm_m) (mae_overall lin_m)) eqn:W.
      * apply Rltb_true in W. split; [now left|]. split.
        -- split; [intros _; now exists lstm_m | reflexivity].
        -- intros _ Hne. subst lstm_m lin_m.
           rewrite !calculate_metrics_mae_overall in W by congruence.
           now apply py_round_lt_inv in W.
      * apply Rltb_false in W. split; [now right|]. split.
        -- split; [discriminate|].
           intros (m & Hm & Hlt). injection Hm as <-. lra.
        -- discriminate.
Qed.

(** *** The states of a tracker *)

(** The trackers that [AccuracyTracker(max_records)] and calls of
    [record_prediction] and [record_actual] that return produce. *)
Inductive reachable : AccuracyTracker -> Prop :=
| reach_init max_records : reachable (init max_records)
| reach_prediction s utcnow current_bg linear lstm s' :
    reachable s ->
    record_prediction s utcnow current_bg linear lstm = Ok s' ->
    reachable s'
| reach_actual s t v s' :
    reachable s -> record_actual s t v = Ok s' -> reachable s'.

Definition nonneg_errors (e : errors) : Prop :=
  0 <= fst (fst e) /\ 0 <= snd (fst e) /\ 0 <= snd e.

(** What holds of the error pools and the win counters. *)
Definition pools_bounded (s : AccuracyTracker) : Prop :=
  (length (_linear_errors s) <= 500)%nat
  /\ (length (_lstm_errors s) <= length (_linear_errors s))%nat
  /\ (length (_lstm_errors s) <= _linear_wins s + _lstm_wins s)%nat
  /\ Forall nonneg_errors (_linear_errors s)
  /\ Forall nonneg_errors (_lstm_errors s).

(** What holds of the stored records. *)
Definition records_sound (s : AccuracyTracker) : Prop :=
  (length (_predictions s) <= max_records s)%nat
  /\ Forall lstm_consistent (_predictions s)
  /\ Forall (fun r => evaluated r = all_filled r) (_predictions s).

Lemma trim_length n l : (0 < n)%nat -> length (trim n l) = Nat.min n (length l).
Proof.
  intros Hn. unfold trim. destruct (Nat.ltb_spec n (length l)).
  - rewrite slice_from_length; lia.
  - lia.
Qed.

Lemma trim_Forall (P : errors -> Prop) n l : Forall P l -> Forall P (trim n l).
Proof.
  intros H. unfold trim. destruct (_ <? _)%nat; [|exact H].
  unfold slice_from. generalize (Z.to_nat
    (if (- Z.of_nat n <? 0)%Z
     then Z.max 0 (- Z.of_nat n + Z.of_nat (length l))
     else Z.min (- Z.of_nat n) (Z.of_nat (length l)))).
  intros k. revert l H. induction k as [|k IH]; intros l H; [exact H|].
  destruct H as [|x l Hx Hl]; [constructor|]. simpl. now apply IH.
Qed.

Lemma evaluate_record_bounded self r self' :
  _evaluate_record self r = Ok self' ->
  pools_bounded self ->
  pools_bounded self'
  /\ max_records self' = max_records self
  /\ _predictions self' = _predictions self.
Proof.
  unfold _evaluate_record, pools_bounded.
  intros H (B1 & B2 & B3 & B4 & B5).
  destruct (number (actual_5 r)) as [a5|]; [|discriminate].
  destruct (number (actual_10 r)) as [a10|]; [|discriminate].
  destruct (number (actual_15 r)) as [a15|]; [|discriminate].
  cbn [bind] in H.
  assert (Hlin : Forall nonneg_errors
            (_linear_errors self ++
             [(Rabs (linear_5 r - a5), Rabs (linear_10 r - a10),
               Rabs (linear_15 r - a15))])).
  { apply Forall_app. split; [exact B4|]. constructor; [|constructor].
    unfold nonneg_errors. cbn [fst snd]. repeat split; apply Rabs_pos. }
  destruct (lstm_5 r) as [m5|].
  - destruct (number (lstm_10 r)) as [m10|]; [|discriminate].
    destruct (number (lstm_15 r)) as [m15|]; [|discriminate].
    cbn [bind] in H.
    assert (Hlstm : Forall nonneg_errors
              (_lstm_errors self ++
               [(Rabs (m5 - a5), Rabs (m10 - a10), Rabs (m15 - a15))])).
    { apply Forall_app. split; [exact B5|]. constructor; [|constructor].
      unfold nonneg_errors. cbn [fst snd]. repeat split; apply Rabs_pos. }
    destruct (Rltb _ _); cbn [bind] in H; injection H as <-;
      cbn [_linear_errors _lstm_errors _linear_wins _lstm_wins max_records
           _predictions];
      rewrite !trim_length, !length_app by lia; cbn [length];
      (split; [|split; reflexivity]);
      (split; [lia|]); (split; [lia|]); (split; [lia|]);
      (split; apply trim_Forall; assumption).
  - cbn [bind] in H. injection H as <-.
    cbn [_linear_errors _lstm_errors _linear_wins _lstm_wins max_records
         _predictions].
    rewrite !trim_length, !length_app by lia. cbn [length].
    split; [|split; reflexivity].
    split; [lia|]. split; [lia|]. split; [lia|].
    split; apply trim_Forall; assumption.
Qed.

Lemma evaluate_all_bounded now value rs :
  forall self self',
    evaluate_all now value rs self = Ok self' ->
    pools_bounded self ->
    pools_bounded self'
    /\ max_records self' = max_records self
    /\ _predictions self' = _predictions self.
Proof.
  induction rs as [|r rs IH]; intros self self' H B; simpl in H.
  - injection H as <-. auto.
  - destruct (completes now value r); [|now apply IH].
    destruct (_evaluate_record self (step now value r)) as [s|e] eqn:E;
      cbn [bind] in H; [|discriminate].
    destruct (evaluate_record_bounded self _ s E B) as (B' & M & P).
    destruct (IH s self' H B') as (B'' & M' & P').
    split; [exact B''|]. split; congruence.
Qed.

Lemma step_sound now value r :
  evaluated r = all_filled r ->
  evaluated (step now value r) = all_filled (step now value r).
Proof.
  intros H. unfold step. destruct (evaluated r) eqn:E; [now rewrite E|].
  destruct (all_filled (fill_slot now value r)) eqn:F.
  - now rewrite all_filled_set_evaluated, F.
  - now rewrite fill_slot_evaluated, E, F.
Qed.

Lemma lstm_item_cases lstm i v :
  lstm_item lstm i = Ok v ->
  (v = None /\ (lstm = None \/ lstm = Some []))
  \/ (v <> None /\ exists x xs, lstm = Some (x :: xs)).
Proof.
  unfold lstm_item. destruct lstm as [[|x xs]|].
  - intros H. injection H as <-. left. auto.
  - destruct (item (x :: xs) i); cbn [bind]; [|discriminate].
    intros H. injection H as <-. right. split; [discriminate|].
    now exists x, xs.
  - intros H. injection H as <-. left. auto.
Qed.

Lemma deque_append_length {A : Type} maxlen (d : list A) x :
  (length d <= maxlen)%nat -> (length (deque_append maxlen d x) <= maxlen)%nat.
Proof.
  intros H. unfold deque_append.
  destruct (Nat.eqb_spec maxlen 0); [exact H|].
  destruct (Nat.ltb_spec (length d) maxlen).
  - rewrite length_app. simpl. lia.
  - rewrite length_app. destruct d; simpl in *; lia.
Qed.

Lemma deque_append_Forall {A : Type} (P : A -> Prop) maxlen (d : list A) x :
  Forall P d -> P x -> Forall P (deque_append maxlen d x).
Proof.
  intros Hd Hx. unfold deque_append.
  destruct (_ =? _)%nat; [exact Hd|].
  destruct (_ <? _)%nat; apply Forall_app; split;
    try (constructor; [exact Hx | constructor]); try exact Hd.
  destruct Hd; [constructor | assumption].
Qed.

Lemma reachable_sound s : reachable s -> records_sound s /\ pools_bounded s.
Proof.
  induction 1 as [n | s utcnow bg linear lstm s' _ [(R1 & R2 & R3) B] Hp
                  | s t v s' _ [(R1 & R2 & R3) B] Ha].
  - split.
    + unfold records_sound. simpl. repeat split; try constructor. lia.
    + unfold pools_bounded. simpl. repeat split; try constructor; lia.
  - unfold record_prediction in Hp.
    destruct (item linear 0) as [l5|]; cbn [bind] in Hp; [|discriminate].
    destruct (item linear 1) as [l10|]; cbn [bind] in Hp; [|discriminate].
    destruct (item linear 2) as [l15|]; cbn [bind] in Hp; [|discriminate].
    destruct (lstm_item lstm 0) as [m5|] eqn:E5; cbn [bind] in Hp; [|discriminate].
    destruct (lstm_item lstm 1) as [m10|] eqn:E10; cbn [bind] in Hp; [|discriminate].
    destruct (lstm_item lstm 2) as [m15|] eqn:E15; cbn [bind] in Hp; [|discriminate].
    injection Hp as <-. split; [|exact B].
    unfold records_sound. cbn [_predictions max_records with_predictions].
    split; [now apply deque_append_length|].
    split; apply deque_append_Forall; try assumption; [|reflexivity].
    unfold lstm_consistent. cbn [lstm_5 lstm_10 lstm_15].
    destruct (lstm_item_cases lstm 0 m5 E5) as [[-> _]|[_ (x & xs & Hl)]];
      [now left|].
    right.
    destruct (lstm_item_cases lstm 1 m10 E10) as [[_ [H|H]]|[H10 _]];
      try congruence.
    destruct (lstm_item_cases lstm 2 m15 E15) as [[_ [H|H]]|[H15 _]];
      try congruence.
    now split.
  - rewrite record_actual_spec in Ha.
    destruct (evaluate_all t v (_predictions s) s) as [s1|e] eqn:E;
      [|discriminate].
    cbn [rmap] in Ha. injection Ha as <-.
    destruct (evaluate_all_bounded t v _ s s1 E B) as (B' & M & _).
    split.
    + unfold records_sound. cbn [_predictions max_records with_predictions].
      rewrite length_map, M. split; [exact R1|].
      split; apply Forall_map.
      * eapply Forall_impl; [|exact R2]. intros r. apply step_lstm_consistent.
      * eapply Forall_impl; [|exact R3]. intros r. apply step_sound.
    + exact B'.
Qed.

(** X18. Every tracker produced from [AccuracyTracker(max_records)] by
    calls of [record_prediction] and [record_actual] that return holds at
    most [max_records] records, each evaluated exactly when its three
    actual slots are filled; holds at most 500 entries in each error
    pool, all non-negative, the LSTM pool never longer than the linear
    one nor than the number of comparisons counted; and every further
    [record_actual] on it returns. *)
Theorem reachable_tracker_invariants (s : AccuracyTracker) :
  reachable s ->
  (length (_predictions s) <= max_records s)%nat
  /\ Forall (fun r => evaluated r = all_filled r) (_predictions s)
  /\ (length (_lstm_errors s) <= length (_linear_errors s) <= 500)%nat
  /\ (length (_lstm_errors s) <= _linear_wins s + _lstm_wins s)%nat
  /\ Forall nonneg_errors (_linear_errors s ++ _lstm_errors s)
  /\ (forall t v, exists s',
        record_actual s t v = Ok s'
        /\ reachable s'
        /\ length (_predictions s') = length (_predictions s)).
Proof.
  intros Hr.
  destruct (reachable_sound s Hr) as [(R1 & R2 & R3) (B1 & B2 & B3 & B4 & B5)].
  split; [exact R1|]. split; [exact R3|]. split; [lia|]. split; [exact B3|].
  split; [apply Forall_app; now split|].
  intros t v.
  destruct (evaluate_all_returns t v (_predictions s) s R2) as [s1 E].
  assert (Ha : record_actual s t v
               = Ok (with_predictions s1 (map (step t v) (_predictions s))))
    by (now rewrite record_actual_spec, E).
  eexists. split; [exact Ha|]. split.
  - eapply reach_actual; [exact Hr | exact Ha].
  - cbn [_predictions with_predictions]. apply length_map.
Qed.

(** A tracker of capacity 2 after three predictions. *)
Definition small_tracker : AccuracyTracker :=
  with_predictions (init 2)
    [mkPredictionRecord 300 110 112 114 116 None None None None None None false;
     mkPredictionRecord 600 120 122 124 126 (Some 121) (Some 123) (Some 125)
       None None None false].

Lemma small_tracker_reachable : reachable small_tracker.
Proof.
  apply (reach_prediction
           (with_predictions (init 2)
              [mkPredictionRecord 0 100 102 104 106 None None None
                 None None None false;
               mkPredictionRecord 300 110 112 114 116 None None None
                 None None None false])
           600 120 [122; 124; 126] (Some [121; 123; 125])); [|reflexivity].
  apply (reach_prediction
           (with_predictions (init 2)
              [mkPredictionRecord 0 100 102 104 106 None None None
                 None None None false])
           300 110 [112; 114; 116] None); [|reflexivity].
  apply (reach_prediction (init 2) 0 100 [102; 104; 106] None);
    [apply reach_init | reflexivity].
Qed.

Lemma reachable_tracker_invariants_witness :
  (length (_predictions small_tracker) <= max_records small_tracker)%nat
  /\ (forall t v, exists s',
        record_actual small_tracker t v = Ok s'
        /\ reachable s'
        /\ length (_predictions s') = length (_predictions small_tracker)).
Proof.
  destruct (reachable_tracker_invariants small_tracker small_tracker_reachable)
    as (H1 & _ & _ & _ & _ & H2).
  split; [exact H1 | exact H2].
Defined.

(** *** Reports *)






Lemma count_within_le (b1 b2 : R) (l : list R) :
  b1 <= b2 -> 0 <= count_within b1 l <= count_within b2 l
              /\ count_within b2 l <= len l.
Proof.
  intros Hb. unfold count_within, len.
  assert (H : (length (filter (fun e => Rleb e b1) l)
               <= length (filter (fun e => Rleb e b2) l) <= length l)%nat).
  { induction l as [|x l IH]; simpl; [lia|].
    destruct (Rleb x b1) eqn:E1.
    - apply Rleb_true in E1.
      assert (E2 : Rleb x b2 = true) by (apply Rleb_true; lra).
      rewrite E2. simpl. lia.
    - destruct (Rleb x b2); simpl; lia. }
  split; [split|].
  - apply pos_INR.
  - apply le_INR. lia.
  - apply le_INR. lia.
Qed.

Lemma errors_column_nonneg (f : errors -> R) (errs : list errors) :
  (forall e, nonneg_errors e -> 0 <= f e) ->
  Forall nonneg_errors errs -> Forall (fun x => 0 <= x) (map f errs).
Proof.
  intros Hf H. apply Forall_map. eapply Forall_impl; [|exact H]. exact Hf.
Qed.

(** X20. For a pool of non-negative errors that is not empty,
    [_calculate_metrics] counts every entry of the pool, reports each mean
    absolute error between 0 and the matching root mean square error, and
    reports the shares within 10 and within 20 mg/dL as percentages with
    0 <= within 10 <= within 20 <= 100.  An empty pool gives the all-zero
    metrics. *)
Theorem calculated_metrics_are_consistent (errs : list errors) :
  Forall nonneg_errors errs -> errs <> [] ->
  let m := _calculate_metrics errs in
  sample_count m = length errs
  /\ 0 <= mae_5 m <= rmse_5 m
  /\ 0 <= mae_10 m <= rmse_10 m
  /\ 0 <= mae_15 m <= rmse_15 m
  /\ 0 <= mae_overall m <= rmse_overall m
  /\ 0 <= within_10_pct m <= within_20_pct m
  /\ within_20_pct m <= 100
  /\ _calculate_metrics [] = no_metrics.
Proof.
  intros Hpos Hne m. subst m.
  destruct errs as [|e0 rest] eqn:Ee; [congruence|]. rewrite <- Ee in *.
  assert (E : _calculate_metrics errs
    = let n := length errs in
      let errors_5 := map (fun e => fst (fst e)) errs in
      let errors_10 := map (fun e => snd (fst e)) errs in
      let errors_15 := map (fun e => snd e) errs in
      let all_errors := (errors_5 ++ errors_10 ++ errors_15)%list in
      let sq := map (fun e => e ^ 2) in
      mkAccuracyMetrics
        (py_round (sum errors_5 / len errors_5) 1)
        (py_round (sum errors_10 / len errors_10) 1)
        (py_round (sum errors_15 / len errors_15) 1)
        (py_round (sum all_errors / len all_errors) 1)
        (py_round (sqrt (sum (sq errors_5) / len errors_5)) 1)
        (py_round (sqrt (sum (sq errors_10) / len errors_10)) 1)
        (py_round (sqrt (sum (sq errors_15) / len errors_15)) 1)
        (py_round (sqrt (sum (sq all_errors) / len all_errors)) 1)
        n
        (py_round (count_within 10 all_errors / len all_errors * 100) 1)
        (py_round (count_within 20 all_errors / len all_errors * 100) 1))
    by (rewrite Ee; reflexivity).
  rewrite E. cbv zeta.
  cbn [sample_count mae_5 mae_10 mae_15 mae_overall rmse_5 rmse_10 rmse_15
       rmse_overall within_10_pct within_20_pct].
  assert (H5 : Forall (fun x => 0 <= x) (map (fun e => fst (fst e)) errs))
    by (apply errors_column_nonneg; [unfold nonneg_errors; tauto | exact Hpos]).
  assert (H10 : Forall (fun x => 0 <= x) (map (fun e => snd (fst e)) errs))
    by (apply errors_column_nonneg; [unfold nonneg_errors; tauto | exact Hpos]).
  assert (H15 : Forall (fun x => 0 <= x) (map (fun e : R * R * R => snd e) errs))
    by (apply errors_column_nonneg; [unfold nonneg_errors; tauto | exact Hpos]).
  assert (Hall : Forall (fun x => 0 <= x)
            (map (fun e => fst (fst e)) errs ++
             map (fun e => snd (fst e)) errs ++
             map (fun e : R * R * R => snd e) errs))
    by (rewrite !Forall_app; auto).
  assert (Hmr : forall l, l <> [] -> Forall (fun x => 0 <= x) l ->
            0 <= py_round (sum l / len l) 1
              <= py_round (sqrt (sum (map (fun e => e ^ 2) l) / len l)) 1).
  { intros l Hl Hp. destruct (Linear.mean_le_rms l Hl Hp) as [Ha Hb].
    split; [apply py_round_nonneg; exact Ha | apply py_round_le; exact Hb]. }
  assert (Hne5 : map (fun e => fst (fst e)) errs <> [])
    by (rewrite Ee; discriminate).
  assert (Hne10 : map (fun e => snd (fst e)) errs <> [])
    by (rewrite Ee; discriminate).
  assert (Hne15 : map (fun e : R * R * R => snd e) errs <> [])
    by (rewrite Ee; discriminate).
  assert (Hneall : (map (fun e => fst (fst e)) errs ++
                    map (fun e => snd (fst e)) errs ++
                    map (fun e : R * R * R => snd e) errs)%list <> [])
    by (rewrite Ee; discriminate).
  split; [reflexivity|].
  split; [now apply Hmr|]. split; [now apply Hmr|]. split; [now apply Hmr|].
  split; [now apply Hmr|].
  set (all := (map (fun e => fst (fst e)) errs ++
               map (fun e => snd (fst e)) errs ++
               map (fun e : R * R * R => snd e) errs)%list) in *.
  destruct (count_within_le 10 20 all) as [[Hc0 Hc1] Hc2]; [lra|].
  assert (Hlen : 0 < len all).
  { unfold len. apply lt_0_INR. destruct all; [congruence | simpl; lia]. }
  assert (Hinv : 0 < / len all) by now apply Rinv_0_lt_compat.
  split; [split|split].
  - apply py_round_nonneg. unfold Rdiv. 
    apply Rmult_le_pos; [apply Rmult_le_pos|]; lra.
  - apply py_round_le. unfold Rdiv.
    apply Rmult_le_compat_r; [lra|]. apply Rmult_le_compat_r; lra.
  - assert (H1 : count_within 20 all / len all <= 1).
    { apply Rmult_le_reg_r with (len all); [exact Hlen|].
      unfold Rdiv. rewrite Rmult_assoc, Rinv_l by lra. lra. }
    apply Rle_trans with (py_round (IZR 100) 1);
      [apply py_round_le; lra | rewrite py_round_integer; lra].
  - reflexivity.
Qed.

Lemma calculated_metrics_are_consistent_witness :
  sample_count (_calculate_metrics [(4, 12, 25)]) = 1%nat
  /\ 0 <= mae_overall (_calculate_metrics [(4, 12, 25)])
       <= rmse_overall (_calculate_metrics [(4, 12, 25)])
  /\ 0 <= within_10_pct (_calculate_metrics [(4, 12, 25)])
       <= within_20_pct (_calculate_metrics [(4, 12, 25)]).
Proof.
  destruct (calculated_metrics_are_consistent [(4, 12, 25)])
    as (H1 & _ & _ & _ & H2 & H3 & _).
  - repeat constructor; simpl; lra.
  - discriminate.
  - split; [exact H1|]. split; [exact H2 | exact H3].
Defined.

End Accuracy.

(** ** FeatureBuffer: [ml/feature_engineering.py] *)

Module Features.
Import PyFloat PyList.
Open Scope string_scope.

Definition datetime : Type := R.

Definition SAMPLING_MIN : nat := 5.
Definition POLY_DEGREE : nat := 2.
Definition ROLL_WINDOW_SHORT : nat := 6.
Definition ROLL_WINDOW_LONG : nat := 18.
Definition POLY_WINDOW_SIZE : nat := 24.
Definition SEQ_LENGTH : nat := 24.

Definition BG_FEATURE_COLUMNS : list string :=
  [ "value"; "trend";
    "carbs"; "protein"; "fat";
    "iob";
    "roll30_mean"; "roll30_std"; "roll90_mean"; "roll90_std";
    "secs_since_start";
    "min5_sin"; "min5_cos"; "min15_sin"; "min15_cos";
    "hour_sin"; "hour_cos"; "dow_sin"; "dow_cos";
    "mon_sin"; "mon_cos"; "doy_sin"; "doy_cos";
    "poly0"; "poly1"; "poly2" ].

(** *** Data frames

    A reading is a [dict]: keys with numeric values, [None] for a value
    that is missing or does not parse (NaN, NaT).  A timestamp is its
    number of seconds.  A data frame is its column names and its rows, a
    row giving the cell of each column. *)

Definition dict : Type := list (string * option R).

Definition Cells : Type := string -> option R.

Record DataFrame : Type := mkDataFrame {
  columns : list string;
  index : list Cells
}.

(** [pd.DataFrame()] *)
Definition empty_frame : DataFrame := mkDataFrame [] [].

(** [len(df)] *)
Definition df_len (df : DataFrame) : nat := length (index df).

(** [df.empty] *)
Definition df_empty (df : DataFrame) : bool :=
  (length (columns df) =? 0)%nat || (df_len df =? 0)%nat.

(** [col in df.columns] *)
Definition has_column (col : string) (df : DataFrame) : bool :=
  existsb (String.eqb col) (columns df).

Definition get (d : dict) (key : string) : option R :=
  match find (fun kv => String.eqb key (fst kv)) d with
  | Some (_, v) => v
  | None => None
  end.

(** [pd.DataFrame(list_of_dicts)]: the columns are the keys met, in order. *)
Definition from_dicts (ds : list dict) : DataFrame :=
  {| columns := nodup string_dec (flat_map (map fst) ds);
     index := map get ds |}.

Definition set_cell (row : Cells) (col : string) (v : option R) : Cells :=
  fun c => if String.eqb col c then v else row c.

(** [[f(i, x) for i, x in enumerate(l, start)]] *)
Fixpoint mapi_from {A B : Type} (start : nat) (f : nat -> A -> B) (l : list A)
    : list B :=
  match l with
  | [] => []
  | x :: rest => f start x :: mapi_from (S start) f rest
  end.

Definition mapi {A B : Type} (f : nat -> A -> B) (l : list A) : list B :=
  mapi_from 0 f l.

(** [df[col] = ...], the new cell of row [i] being [f i]. *)
Definition assign (col : string) (f : nat -> option R) (df : DataFrame)
    : DataFrame :=
  {| columns := if has_column col df then columns df else columns df ++ [col];
     index := mapi (fun i row => set_cell row col (f i)) (index df) |}.

(** [df[col] = scalar] *)
Definition assign_scalar (col : string) (x : R) : DataFrame -> DataFrame :=
  assign col (fun _ => Some x).

(** [df[col] = series] *)
Definition assign_series (col : string) (series : list (option R))
    : DataFrame -> DataFrame :=
  assign col (fun i => nth i series None).

(** [df[col]] *)
Definition column (col : string) (df : DataFrame) : list (option R) :=
  map (fun row => row col) (index df).

Definition fillna (x : R) (c : option R) : R :=
  match c with
  | Some v => v
  | None => x
  end.

(** A column without NaN, as numbers. *)
Definition numbers (col : string) (df : DataFrame) : list R :=
  map (fillna 0) (column col df).

Definition isna (c : option R) : bool :=
  match c with
  | None => true
  | Some _ => false
  end.

(** [df.dropna(subset=cols)] *)
Definition dropna (cols : list string) (df : DataFrame) : DataFrame :=
  {| columns := columns df;
     index := filter (fun row => forallb (fun c => negb (isna (row c))) cols)
                (index df) |}.

(** [df.sort_values(col, ignore_index=True)]: a stable insertion sort. *)
Fixpoint insert_row (col : string) (row : Cells) (sorted : list Cells)
    : list Cells :=
  match sorted with
  | [] => [row]
  | r :: rest =>
      if Rltb (fillna 0 (row col)) (fillna 0 (r col))
      then row :: r :: rest
      else r :: insert_row col row rest
  end.

Definition sort_values (col : string) (df : DataFrame) : DataFrame :=
  {| columns := columns df;
     index := fold_left (fun sorted row => insert_row col row sorted)
                (index df) [] |}.

(** [df.tail(n)] *)
Definition tail (n : nat) (df : DataFrame) : DataFrame :=
  {| columns := columns df;
     index := skipn (df_len df - n) (index df) |}.

(** *** Series helpers *)

Definition sum (l : list R) : R := fold_right Rplus 0 l.

Definition mean (l : list R) : R := sum l / INR (length l).

(** The sample standard deviation of pandas ([ddof=1]); NaN below two
    values. *)
Definition std (l : list R) : option R :=
  if (length l <? 2)%nat then None
  else
    let m := mean l in
    Some (sqrt (sum (map (fun x => (x - m) ^ 2) l) / INR (length l - 1))).

(** The rolling window that ends at row [i]. *)
Definition window {A : Type} (w i : nat) (l : list A) : list A :=
  firstn (Nat.min w (S i)) (skipn (S i - w) l).

(** [series.rolling(window=w, min_periods=m).apply(f)] on a series without
    NaN. *)
Definition rolling (w m : nat) (f : list R -> option R) (l : list R)
    : list (option R) :=
  mapi (fun i _ =>
          let win := window w i l in
          if (length win <? m)%nat then None else f win)
       l.

(** [series.ffill()] *)
Fixpoint ffill_from (prev : option R) (l : list (option R)) : list (option R) :=
  match l with
  | [] => []
  | Some x :: rest => Some x :: ffill_from (Some x) rest
  | None :: rest => prev :: ffill_from prev rest
  end.

Definition ffill (l : list (option R)) : list (option R) := ffill_from None l.

(** [series.bfill()] *)
Definition bfill (l : list (option R)) : list (option R) :=
  rev (ffill (rev l)).

(** [series.astype(int)] on a number: truncation towards zero. *)
Definition to_int (x : R) : R :=
  if Rleb 0 x then IZR (Zfloor x) else IZR (Zceil x).

(** [sincos(series, period)] *)
Definition sincos (series : list R) (period : R) : list R * list R :=
  let theta := map (fun x => 2 * PI * x / period) series in
  (map sin theta, map cos theta).

(** [x % m] for a non-negative minute count. *)
Definition fmod (x m : R) : R := x - IZR (Zfloor (x / m)) * m.

(** [calculate_iob_for_features]: the linear-decay IOB column. *)
Definition calculate_iob_for_features (insulin_series : list R)
    (duration_min sampling_min : nat) : list R :=
  let zero := map (fun _ => 0) insulin_series in
  let decay_steps := (duration_min / sampling_min)%nat in
  if (decay_steps <=? 0)%nat then zero
  else
    let bolus_indices :=
      filter (fun i => Rltb 0 (nth i insulin_series 0))
        (seq 0 (length insulin_series)) in
    fold_left
      (fun iob idx =>
         let bolus_amount := nth idx insulin_series 0 in
         fold_left
           (fun iob i =>
              let future_idx := (idx + i)%nat in
              if (future_idx <? length iob)%nat then
                let decay_factor := Rmax 0 (1 - INR i / INR decay_steps) in
                mapi (fun j x => if (j =? future_idx)%nat
                                 then x + bolus_amount * decay_factor else x)
                     iob
              else iob)
           (seq 0 decay_steps) iob)
      bolus_indices zero.

Section Engineer.

(** The calendar accessors of pandas ([dt.minute], [dt.hour],
    [dt.dayofweek], [dt.month], [dt.dayofyear]) on a timestamp. *)
Variable dt : string -> datetime -> R.

(** [np.polyfit(x, y, deg)]: the coefficients, or the exception raised. *)
Variable np_polyfit : list R -> list R -> nat -> result (list R).

(** [_safe_polyfit] on a window without NaN. *)
Definition _safe_polyfit (y : list R) (degree coef_index : nat) : option R :=
  if (degree + 1 <=? length y)%nat then
    match np_polyfit (map INR (seq 0 (length y))) y degree with
    | Ok coeffs => nth_error coeffs coef_index
    | Raise _ => None
    end
  else None.

Definition add_defaults (df : DataFrame) : DataFrame :=
  fold_left
    (fun df col => if has_column col df then df else assign_scalar col 0 df)
    ["trend"; "carbs"; "protein"; "fat"; "insulin"] df.

Definition coerce_numeric (df : DataFrame) : DataFrame :=
  fold_left
    (fun df col =>
       assign_series col (map (fun c => Some (fillna 0 c)) (column col df)) df)
    ["value"; "trend"; "carbs"; "protein"; "fat"; "insulin"] df.

Definition add_time_features (df : DataFrame) : DataFrame :=
  let ts := numbers "timestamp" df in
  let start_time_utc := nth 0 ts 0 in
  let df := assign_series "secs_since_start"
              (map (fun t => Some (t - start_time_utc)) ts) df in
  let acc name := map (dt name) ts in
  let df := assign_series "minute" (map Some (acc "minute")) df in
  let df := assign_series "hour" (map Some (acc "hour")) df in
  let df := assign_series "day_of_week" (map Some (acc "dayofweek")) df in
  let df := assign_series "month" (map Some (acc "month")) df in
  let df := assign_series "day_of_year" (map Some (acc "dayofyear")) df in
  let pair name_sin name_cos series period df :=
    let sc := sincos series period in
    assign_series name_cos (map Some (snd sc))
      (assign_series name_sin (map Some (fst sc)) df) in
  let df := pair "min5_sin" "min5_cos"
              (map (fun m => fmod m 5) (acc "minute")) 5 df in
  let df := pair "min15_sin" "min15_cos"
              (map (fun m => fmod m 15) (acc "minute")) 15 df in
  let df := pair "hour_sin" "hour_cos" (acc "hour") 24 df in
  let df := pair "dow_sin" "dow_cos" (acc "dayofweek") 7 df in
  let df := pair "mon_sin" "mon_cos" (acc "month") 12 df in
  pair "doy_sin" "doy_cos" (acc "dayofyear") 365 df.

Definition add_rolling (df : DataFrame) : DataFrame :=
  let value := numbers "value" df in
  let roll w f := rolling w 1 f value in
  let fill0 := map (fun c => Some (fillna 0 c)) in
  let df := assign_series "roll30_mean"
              (roll ROLL_WINDOW_SHORT (fun l => Some (mean l))) df in
  let df := assign_series "roll30_std"
              (fill0 (roll ROLL_WINDOW_SHORT std)) df in
  let df := assign_series "roll90_mean"
              (roll ROLL_WINDOW_LONG (fun l => Some (mean l))) df in
  assign_series "roll90_std" (fill0 (roll ROLL_WINDOW_LONG std)) df.

Definition add_poly (df : DataFrame) : DataFrame :=
  let current_poly_win_size := Nat.min POLY_WINDOW_SIZE (df_len df) in
  let value := numbers "value" df in
  let poly k :=
    if (POLY_DEGREE + 1 <=? current_poly_win_size)%nat then
      map (fun c => Some (fillna 0 c))
        (bfill (ffill (rolling current_poly_win_size (POLY_DEGREE + 1)
                         (fun y => _safe_polyfit y POLY_DEGREE k) value)))
    else map (fun _ => Some 0) value in
  let df := assign_series "poly0" (poly 0%nat) df in
  let df := assign_series "poly1" (poly 1%nat) df in
  assign_series "poly2" (poly 2%nat) df.

Definition engineer_features (df_in : DataFrame) : DataFrame :=
  if df_empty df_in then empty_frame
  else if negb (has_column "timestamp" df_in && has_column "value" df_in)
  then empty_frame
  else
    let df := add_defaults df_in in
    let df := coerce_numeric df in
    let df := assign_series "trend"
                (map (fun x => Some (to_int x)) (numbers "trend" df)) df in
    let df := dropna ["timestamp"; "value"] df in
    if df_empty df then empty_frame
    else
      let df := sort_values "timestamp" df in
      let df := assign_series "iob"
                  (map Some (calculate_iob_for_features
                               (numbers "insulin" df) 180 SAMPLING_MIN)) df in
      let df := add_time_features df in
      let df := add_rolling df in
      add_poly df.

(** [extract_feature_sequence]: [None] for insufficient data, else the
    last [seq_length] rows over [feature_columns], of shape
    (1, seq_length, len(feature_columns)). *)
Definition extract_feature_sequence (df : DataFrame)
    (feature_columns : list string) (seq_length : nat)
    : option FeatureSequence :=
  if (df_len df <? seq_length)%nat then None
  else
    let missing_cols :=
      filter (fun col => negb (has_column col df)) feature_columns in
    match missing_cols with
    | _ :: _ => None
    | [] =>
        Some (map (fun row => map row feature_columns)
                (index (tail seq_length df)))
    end.

(** A treatment [dict]; its merge into the frame is pandas arithmetic on
    the row of the closest reading, over the four treatment columns.
    [merge_treatments] gives the new cell of each row in these columns, or
    the exception raised on the way. *)
Variable treatment : Type.
Variable merge_treatments :
  DataFrame -> list treatment -> result (nat -> string -> option R -> option R).

Definition treatment_columns : list string :=
  ["insulin"; "carbs"; "protein"; "fat"].

Definition update_cells (update : nat -> string -> option R -> option R)
    (df : DataFrame) : DataFrame :=
  {| columns := columns df;
     index := mapi (fun i row col =>
                      if existsb (String.eqb col) treatment_columns
                      then update i col (row col) else row col)
                (index df) |}.

Definition prepare_realtime_features (glucose_readings : list dict)
    (treatments : list treatment) (iob_value : R)
    : result (option DataFrame) :=
  match glucose_readings with
  | [] => Ok None
  | _ =>
      let df := from_dicts glucose_readings in
      let df := if negb (has_column "value" df) && has_column "sgv" df
                then assign_series "value" (column "sgv" df) df else df in
      let df := if negb (has_column "trend" df)
                then assign_scalar "trend" 0 df else df in
      let df := assign_scalar "insulin" 0 df in
      let df := assign_scalar "carbs" 0 df in
      let df := assign_scalar "protein" 0 df in
      let df := assign_scalar "fat" 0 df in
      df <- match treatments with
            | [] => Ok df
            | _ =>
                update <- merge_treatments df treatments ;;
                Ok (update_cells update df)
            end ;;
      let df := assign_scalar "iob" iob_value df in
      Ok (Some df)
  end.

Record FeatureEngineer : Type := mkFeatureEngineer {
  history_min : nat;
  sampling_min : nat;
  max_readings : nat;
  _glucose_buffer : list dict;
  _treatment_buffer : list treatment
}.

(** [FeatureEngineer(history_min, sampling_min)] *)
Definition init (history_min sampling_min : nat) : FeatureEngineer :=
  mkFeatureEngineer history_min sampling_min (history_min / sampling_min) [] [].

Definition add_glucose_reading (self : FeatureEngineer) (reading : dict)
    : FeatureEngineer :=
  let buffer := (_glucose_buffer self ++ [reading])%list in
  let buffer :=
    if (max_readings self <? length buffer)%nat
    then slice_from (- Z.of_nat (max_readings self)) buffer
    else buffer in
  mkFeatureEngineer (history_min self) (sampling_min self) (max_readings self)
    buffer (_treatment_buffer self).

(** [pd.to_datetime(t.get('timestamp'), utc=True) > cutoff], or the
    exception the comparison raises. *)
Variable newer_than : datetime -> treatment -> result bool.

Fixpoint keep_recent (cutoff : datetime) (ts : list treatment)
    : result (list treatment) :=
  match ts with
  | [] => Ok []
  | t :: rest =>
      keep <- newer_than cutoff t ;;
      rest' <- keep_recent cutoff rest ;;
      Ok (if keep then t :: rest' else rest')
  end.

(** [add_treatment]: the engineer afterwards, and the exception if the
    pruning raised (the treatment is appended by then). *)
Definition add_treatment (self : FeatureEngineer) (utcnow : datetime)
    (t : treatment) : FeatureEngineer * result unit :=
  let buffer := (_treatment_buffer self ++ [t])%list in
  let cutoff := utcnow - INR (history_min self) * 60 in
  match keep_recent cutoff buffer with
  | Ok kept =>
      (mkFeatureEngineer (history_min self) (sampling_min self)
         (max_readings self) (_glucose_buffer self) kept, Ok tt)
  | Raise e =>
      (mkFeatureEngineer (history_min self) (sampling_min self)
         (max_readings self) (_glucose_buffer self) buffer, Raise e)
  end.

Definition get_feature_sequence (self : FeatureEngineer) (iob_value : R)
    (seq_length : nat) : result (option FeatureSequence) :=
  if (length (_glucose_buffer self) <? seq_length)%nat then Ok None
  else
    df <- prepare_realtime_features (_glucose_buffer self)
            (_treatment_buffer self) iob_value ;;
    match df with
    | None => Ok None
    | Some df =>
        let df := engineer_features df in
        if df_empty df then Ok None
        else Ok (extract_feature_sequence df BG_FEATURE_COLUMNS seq_length)
    end.

Definition clear (self : FeatureEngineer) : FeatureEngineer :=
  mkFeatureEngineer (history_min self) (sampling_min self) (max_readings self)
    [] [].

(** *** Shapes *)

Lemma mapi_from_length {A B : Type} (k : nat) (f : nat -> A -> B) (l : list A) :
  length (mapi_from k f l) = length l.
Proof. revert k. induction l; intros k; simpl; auto. Qed.

Lemma map_mapi_from {A B C : Type} (g : B -> C) (k : nat) (f : nat -> A -> B)
    (l : list A) :
  map g (mapi_from k f l) = mapi_from k (fun i x => g (f i x)) l.
Proof. revert k. induction l; intros k; simpl; [|rewrite IHl]; reflexivity. Qed.

Lemma mapi_from_pointwise {A B : Type} (k : nat) (f : nat -> A -> B)
    (h : A -> B) (l : list A) :
  (forall i x, f i x = h x) -> mapi_from k f l = map h l.
Proof.
  intros H. revert k. induction l; intros k; simpl; [|rewrite H, IHl]; reflexivity.
Qed.

Lemma mapi_from_Forall {A B : Type} (P : B -> Prop) (k : nat)
    (f : nat -> A -> B) (l : list A) :
  (forall i x, (k <= i < k + length l)%nat -> P (f i x)) ->
  Forall P (mapi_from k f l).
Proof.
  revert k. induction l as [|a l IH]; intros k H; simpl; constructor.
  - apply H. simpl. lia.
  - apply IH. intros i x Hi. apply H. simpl. lia.
Qed.

Lemma assign_len col f df : df_len (assign col f df) = df_len df.
Proof. unfold df_len, assign, mapi. simpl. apply mapi_from_length. Qed.

Lemma assign_other col col' f df :
  String.eqb col col' = false ->
  column col' (assign col f df) = column col' df.
Proof.
  intros H. unfold column, assign, mapi. simpl. rewrite map_mapi_from.
  apply mapi_from_pointwise. intros i row. unfold set_cell. now rewrite H.
Qed.

Lemma assign_same_Forall (P : option R -> Prop) col f df :
  (forall i, (i < df_len df)%nat -> P (f i)) ->
  Forall P (column col (assign col f df)).
Proof.
  intros H. unfold column, assign, mapi. simpl. rewrite map_mapi_from.
  apply mapi_from_Forall. intros i row Hi. unfold set_cell.
  rewrite String.eqb_refl. apply H. unfold df_len. lia.
Qed.

Lemma has_column_assign_same col f df : has_column col (assign col f df) = true.
Proof.
  unfold has_column at 1, assign. simpl.
  destruct (has_column col df) eqn:H; [exact H|].
  rewrite existsb_app. simpl. now rewrite String.eqb_refl, orb_true_r.
Qed.

Lemma has_column_assign_keep col col' f df :
  has_column col' df = true -> has_column col' (assign col f df) = true.
Proof.
  intros H. unfold has_column at 1, assign. simpl.
  destruct (has_column col df); [exact H|].
  rewrite existsb_app. unfold has_column in H. now rewrite H.
Qed.

Lemma has_column_default_same col df :
  has_column col (if has_column col df then df else assign_scalar col 0 df) = true.
Proof.
  destruct (has_column col df) eqn:H; [exact H | apply has_column_assign_same].
Qed.

Lemma has_column_default_keep col col' df :
  has_column col' df = true ->
  has_column col' (if has_column col df then df else assign_scalar col 0 df) = true.
Proof.
  intros H. destruct (has_column col df); [exact H|].
  now apply has_column_assign_keep.
Qed.

Lemma has_column_dropna col cols df :
  has_column col (dropna cols df) = has_column col df.
Proof. reflexivity. Qed.

Lemma has_column_sort_values col by_col df :
  has_column col (sort_values by_col df) = has_column col df.
Proof. reflexivity. Qed.

Lemma insert_row_length col row sorted :
  length (insert_row col row sorted) = S (length sorted).
Proof.
  induction sorted as [|r rest IH]; simpl; [reflexivity|].
  destruct (Rltb _ _); simpl; [reflexivity | now rewrite IH].
Qed.

Lemma sort_values_len col df : df_len (sort_values col df) = df_len df.
Proof.
  unfold df_len, sort_values. simpl.
  assert (H : forall rows acc,
             length (fold_left (fun sorted row => insert_row col row sorted) rows acc)
             = (length rows + length acc)%nat).
  { induction rows as [|r rows IH]; intros acc; simpl; [reflexivity|].
    rewrite IH, insert_row_length. lia. }
  rewrite H. simpl. lia.
Qed.

(** A pass keeps the columns it finds. *)
Definition keeps_columns (pass : DataFrame -> DataFrame) : Prop :=
  forall col df, has_column col df = true -> has_column col (pass df) = true.

Definition keeps_len (pass : DataFrame -> DataFrame) : Prop :=
  forall df, df_len (pass df) = df_len df.

Lemma fold_keeps_columns (step : DataFrame -> string -> DataFrame) cols :
  (forall c, keeps_columns (fun df => step df c)) ->
  keeps_columns (fun df => fold_left step cols df).
Proof.
  intros H. induction cols as [|c cols IH]; intros col df Hc; simpl.
  - exact Hc.
  - apply IH. now apply H.
Qed.

Lemma fold_adds_columns (step : DataFrame -> string -> DataFrame) cols :
  (forall c, keeps_columns (fun df => step df c)) ->
  (forall c df, has_column c (step df c) = true) ->
  forall col df, In col cols -> has_column col (fold_left step cols df) = true.
Proof.
  intros Hk Ha. induction cols as [|c cols IH]; intros col df Hin; simpl.
  - destruct Hin.
  - destruct Hin as [->|Hin].
    + apply (fold_keeps_columns step cols Hk). apply Ha.
    + now apply IH.
Qed.

Lemma fold_keeps_len (step : DataFrame -> string -> DataFrame) cols :
  (forall c, keeps_len (fun df => step df c)) ->
  keeps_len (fun df => fold_left step cols df).
Proof.
  intros H. induction cols as [|c cols IH]; intros df; simpl.
  - reflexivity.
  - rewrite IH. apply H.
Qed.

Lemma add_defaults_keeps : keeps_columns add_defaults.
Proof.
  apply fold_keeps_columns. intros c col df H.
  now apply has_column_default_keep.
Qed.

Lemma add_defaults_len : keeps_len add_defaults.
Proof.
  apply fold_keeps_len. intros c df.
  destruct (has_column c df); [reflexivity | apply assign_len].
Qed.

Lemma coerce_numeric_keeps : keeps_columns coerce_numeric.
Proof.
  apply fold_keeps_columns. intros c col df H.
  now apply has_column_assign_keep.
Qed.

Lemma coerce_numeric_adds col df :
  In col ["value"; "trend"; "carbs"; "protein"; "fat"; "insulin"] ->
  has_column col (coerce_numeric df) = true.
Proof.
  apply fold_adds_columns.
  - intros c col' df' H. now apply has_column_assign_keep.
  - intros c df'. apply has_column_assign_same.
Qed.

Lemma coerce_numeric_len : keeps_len coerce_numeric.
Proof. apply fold_keeps_len. intros c df. apply assign_len. Qed.

(** Solves [has_column c (assign ... (assign ... df)) = true]. *)
Ltac column_present :=
  repeat first
    [ assumption
    | apply has_column_assign_same
    | apply has_column_assign_keep ].

Lemma add_time_features_keeps : keeps_columns add_time_features.
Proof.
  intros col df H. unfold add_time_features, assign_series. column_present.
Qed.

Lemma add_time_features_adds col df :
  In col ["secs_since_start";
          "min5_sin"; "min5_cos"; "min15_sin"; "min15_cos";
          "hour_sin"; "hour_cos"; "dow_sin"; "dow_cos";
          "mon_sin"; "mon_cos"; "doy_sin"; "doy_cos"] ->
  has_column col (add_time_features df) = true.
Proof.
  intros Hin. unfold add_time_features, assign_series.
  repeat (destruct Hin as [<-|Hin]; [column_present|]). destruct Hin.
Qed.

Lemma add_time_features_len : keeps_len add_time_features.
Proof.
  intros df. unfold add_time_features, assign_series.
  repeat rewrite assign_len. reflexivity.
Qed.

Lemma add_rolling_keeps : keeps_columns add_rolling.
Proof. intros col df H. unfold add_rolling, assign_series. column_present. Qed.

Lemma add_rolling_adds col df :
  In col ["roll30_mean"; "roll30_std"; "roll90_mean"; "roll90_std"] ->
  has_column col (add_rolling df) = true.
Proof.
  intros Hin. unfold add_rolling, assign_series.
  repeat (destruct Hin as [<-|Hin]; [column_present|]). destruct Hin.
Qed.

Lemma add_rolling_len : keeps_len add_rolling.
Proof.
  intros df. unfold add_rolling, assign_series.
  repeat rewrite assign_len. reflexivity.
Qed.

Lemma add_poly_keeps : keeps_columns add_poly.
Proof. intros col df H. unfold add_poly, assign_series. column_present. Qed.

Lemma add_poly_adds col df :
  In col ["poly0"; "poly1"; "poly2"] -> has_column col (add_poly df) = true.
Proof.
  intros Hin. unfold add_poly, assign_series.
  repeat (destruct Hin as [<-|Hin]; [column_present|]). destruct Hin.
Qed.

Lemma add_poly_len : keeps_len add_poly.
Proof.
  intros df. unfold add_poly, assign_series.
  repeat rewrite assign_len. reflexivity.
Qed.

(** The rows that survive the cleaning of [engineer_features]. *)
Definition cleaned (df_in : DataFrame) : DataFrame :=
  let df := add_defaults df_in in
  let df := coerce_numeric df in
  let df := assign_series "trend"
              (map (fun x => Some (to_int x)) (numbers "trend" df)) df in
  dropna ["timestamp"; "value"] df.

(** The features added to the cleaned rows. *)
Definition featured (df : DataFrame) : DataFrame :=
  let df := sort_values "timestamp" df in
  let df := assign_series "iob"
              (map Some (calculate_iob_for_features
                           (numbers "insulin" df) 180 SAMPLING_MIN)) df in
  let df := add_time_features df in
  let df := add_rolling df in
  add_poly df.

Lemma engineer_features_cases df_in :
  engineer_features df_in = empty_frame
  \/ (df_empty (cleaned df_in) = false
      /\ engineer_features df_in = featured (cleaned df_in)).
Proof.
  unfold engineer_features.
  destruct (df_empty df_in); [now left|].
  destruct (negb _); [now left|].
  fold (cleaned df_in).
  destruct (df_empty (cleaned df_in)) eqn:E; [now left|].
  right. split; reflexivity.
Qed.

Lemma featured_len df : df_len (featured df) = df_len df.
Proof.
  unfold featured. cbv zeta.
  rewrite add_poly_len, add_rolling_len, add_time_features_len.
  unfold assign_series. rewrite assign_len. apply sort_values_len.
Qed.

Lemma cleaned_columns col df :
  In col ["value"; "trend"; "carbs"; "protein"; "fat"; "insulin"] ->
  has_column col (cleaned df) = true.
Proof.
  intros Hin. unfold cleaned. cbv zeta. rewrite has_column_dropna.
  unfold assign_series. apply has_column_assign_keep.
  now apply coerce_numeric_adds.
Qed.

Lemma featured_columns df :
  (forall col, In col ["value"; "trend"; "carbs"; "protein"; "fat"] ->
               has_column col df = true) ->
  forall col, In col BG_FEATURE_COLUMNS -> has_column col (featured df) = true.
Proof.
  intros Hdf col Hin. unfold featured. cbv zeta.
  set (sorted := sort_values "timestamp" df).
  set (with_iob := assign_series "iob" _ sorted).
  assert (Hbase : forall c, In c ["value"; "trend"; "carbs"; "protein"; "fat"] ->
                            has_column c with_iob = true).
  { intros c Hc. unfold with_iob, assign_series.
    apply has_column_assign_keep. subst sorted.
    rewrite has_column_sort_values. now apply Hdf. }
  assert (Hiob : has_column "iob" with_iob = true)
    by apply has_column_assign_same.
  unfold BG_FEATURE_COLUMNS in Hin.
  (* value, trend, carbs, protein, fat *)
  do 5 (destruct Hin as [<-|Hin];
        [apply add_poly_keeps, add_rolling_keeps, add_time_features_keeps,
           Hbase; simpl; auto 10|]).
  (* iob *)
  destruct Hin as [<-|Hin];
    [now apply add_poly_keeps, add_rolling_keeps, add_time_features_keeps|].
  (* rolling statistics *)
  do 4 (destruct Hin as [<-|Hin];
        [apply add_poly_keeps, add_rolling_adds; simpl; auto 10|]).
  (* time features *)
  do 13 (destruct Hin as [<-|Hin];
         [apply add_poly_keeps, add_rolling_keeps, add_time_features_adds;
          simpl; auto 20|]).
  (* polynomial coefficients *)
  do 3 (destruct Hin as [<-|Hin]; [apply add_poly_adds; simpl; auto 10|]).
  destruct Hin.
Qed.

Lemma tail_len n df : (n <= df_len df)%nat -> df_len (tail n df) = n.
Proof.
  intros H. unfold tail. unfold df_len in *. simpl. rewrite length_skipn. lia.
Qed.

(** What [extract_feature_sequence] returns has the asked shape. *)
Lemma extract_feature_sequence_shape df cols n seq :
  extract_feature_sequence df cols n = Some seq ->
  length seq = n /\ Forall (fun row => length row = length cols) seq.
Proof.
  unfold extract_feature_sequence.
  destruct (Nat.ltb_spec (df_len df) n) as [Hlt|Hge]; [discriminate|].
  destruct (filter _ cols); [|discriminate].
  intros H. injection H as <-. split.
  - rewrite length_map. now apply tail_len.
  - apply Forall_map. apply Forall_forall. intros row _. apply length_map.
Qed.

Lemma extract_feature_sequence_returns df cols n :
  (n <= df_len df)%nat ->
  (forall col, In col cols -> has_column col df = true) ->
  exists seq, extract_feature_sequence df cols n = Some seq.
Proof.
  intros Hlen Hcols. unfold extract_feature_sequence.
  destruct (Nat.ltb_spec (df_len df) n) as [Hlt|Hge]; [lia|].
  assert (E : filter (fun col => negb (has_column col df)) cols = []).
  { clear - Hcols. induction cols as [|c cols IH]; simpl; [reflexivity|].
    rewrite (Hcols c) by now left. simpl. apply IH.
    intros col Hin. apply Hcols. now right. }
  rewrite E. eexists. reflexivity.
Qed.

Lemma feature_count : length BG_FEATURE_COLUMNS = 26%nat.
Proof. reflexivity. Qed.

(** A sequence that [get_feature_sequence] returns has [seq_length] rows of
    26 values. *)
Lemma get_feature_sequence_shape self iob_value seq_length seq :
  get_feature_sequence self iob_value seq_length = Ok (Some seq) ->
  length seq = seq_length /\ Forall (fun row => length row = 26%nat) seq.
Proof.
  unfold get_feature_sequence.
  destruct (length (_glucose_buffer self) <? seq_length)%nat; [discriminate|].
  destruct (prepare_realtime_features _ _ _) as [[df|]|e]; simpl;
    try discriminate.
  destruct (df_empty (engineer_features df)); [discriminate|].
  intros H. injection H as H.
  apply extract_feature_sequence_shape in H. now rewrite feature_count in H.
Qed.

(** Fewer buffered readings than [seq_length]: [None], without raising. *)
Lemma get_feature_sequence_insufficient self iob_value seq_length :
  (length (_glucose_buffer self) < seq_length)%nat ->
  get_feature_sequence self iob_value seq_length = Ok None.
Proof.
  intros H. unfold get_feature_sequence.
  apply Nat.ltb_lt in H. now rewrite H.
Qed.

(** *** A clean buffer yields a sequence *)

Lemma from_dicts_len ds : df_len (from_dicts ds) = length ds.
Proof. unfold df_len, from_dicts. simpl. apply length_map. Qed.

Lemma from_dicts_column col ds :
  column col (from_dicts ds) = map (fun d => get d col) ds.
Proof. unfold column, from_dicts. simpl. apply map_map. Qed.

Lemma from_dicts_has_column col ds d :
  In d ds -> get d col <> None -> has_column col (from_dicts ds) = true.
Proof.
  intros Hd Hget. unfold has_column, from_dicts. simpl.
  apply existsb_exists. exists col. split; [|apply String.eqb_refl].
  apply nodup_In, in_flat_map. exists d. split; [exact Hd|].
  unfold get in Hget.
  destruct (find _ d) as [[k v]|] eqn:F; [|now elim Hget].
  apply find_some in F as [Hin Hk]. simpl in Hk.
  apply String.eqb_eq in Hk. subst k.
  change col with (fst (col, v)). now apply in_map.
Qed.

Lemma update_cells_len update df : df_len (update_cells update df) = df_len df.
Proof. unfold df_len, update_cells, mapi. simpl. apply mapi_from_length. Qed.

Lemma update_cells_other update col df :
  existsb (String.eqb col) treatment_columns = false ->
  column col (update_cells update df) = column col df.
Proof.
  intros H. unfold column, update_cells, mapi. cbn [index].
  rewrite map_mapi_from.
  apply mapi_from_pointwise. intros i row. cbv beta. now rewrite H.
Qed.

Lemma has_column_update_cells update col df :
  has_column col (update_cells update df) = has_column col df.
Proof. reflexivity. Qed.

Lemma df_not_empty col df :
  has_column col df = true -> (0 < df_len df)%nat -> df_empty df = false.
Proof.
  intros Hc Hl. unfold df_empty.
  destruct (columns df) eqn:E.
  - unfold has_column in Hc. rewrite E in Hc. discriminate.
  - simpl. apply Nat.eqb_neq. lia.
Qed.

(** The frame of [prepare_realtime_features] before the treatment merge. *)
Definition prepared (glucose_readings : list dict) : DataFrame :=
  let df := from_dicts glucose_readings in
  let df := if negb (has_column "value" df) && has_column "sgv" df
            then assign_series "value" (column "sgv" df) df else df in
  let df := if negb (has_column "trend" df)
            then assign_scalar "trend" 0 df else df in
  let df := assign_scalar "insulin" 0 df in
  let df := assign_scalar "carbs" 0 df in
  let df := assign_scalar "protein" 0 df in
  assign_scalar "fat" 0 df.

Lemma prepared_facts ds :
  df_len (prepared ds) = length ds
  /\ column "timestamp" (prepared ds) = map (fun d => get d "timestamp") ds
  /\ (has_column "timestamp" (from_dicts ds) = true ->
      has_column "timestamp" (prepared ds) = true)
  /\ (has_column "value" (from_dicts ds) = true
      \/ has_column "sgv" (from_dicts ds) = true ->
      has_column "value" (prepared ds) = true).
Proof.
  unfold prepared. cbv zeta.
  set (df0 := from_dicts ds).
  set (df1 := if negb (has_column "value" df0) && has_column "sgv" df0
              then assign_series "value" (column "sgv" df0) df0 else df0).
  set (df2 := if negb (has_column "trend" df1)
              then assign_scalar "trend" 0 df1 else df1).
  assert (L1 : df_len df1 = length ds).
  { subst df1. destruct (_ && _); unfold assign_series;
      rewrite ?assign_len; apply from_dicts_len. }
  assert (T1 : column "timestamp" df1 = map (fun d => get d "timestamp") ds).
  { subst df1. destruct (_ && _); unfold assign_series;
      rewrite ?assign_other by reflexivity; apply from_dicts_column. }
  assert (K1 : forall c, has_column c df0 = true -> has_column c df1 = true).
  { intros c H. subst df1. destruct (_ && _); [|exact H].
    now apply has_column_assign_keep. }
  assert (V1 : has_column "value" df0 = true \/ has_column "sgv" df0 = true ->
               has_column "value" df1 = true).
  { intros H. subst df1. destruct (has_column "value" df0) eqn:Hv; simpl.
    - exact Hv.
    - destruct H as [H|H]; [discriminate|]. rewrite H.
      apply has_column_assign_same. }
  clearbody df1.
  assert (L2 : df_len df2 = length ds).
  { subst df2. destruct (negb _); unfold assign_scalar;
      rewrite ?assign_len; exact L1. }
  assert (T2 : column "timestamp" df2 = map (fun d => get d "timestamp") ds).
  { subst df2. destruct (negb _); unfold assign_scalar;
      rewrite ?assign_other by reflexivity; exact T1. }
  assert (K2 : forall c, has_column c df1 = true -> has_column c df2 = true).
  { intros c H. subst df2. destruct (negb _); [|exact H].
    now apply has_column_assign_keep. }
  clearbody df2.
  unfold assign_scalar. repeat split.
  - now rewrite !assign_len.
  - now rewrite !assign_other by reflexivity.
  - intros H. column_present. auto.
  - intros H. column_present. auto.
Qed.

Lemma prepare_realtime_features_returns ds ts iob_value :
  ds <> [] ->
  (ts = [] \/ exists update, merge_treatments (prepared ds) ts = Ok update) ->
  exists df,
    prepare_realtime_features ds ts iob_value = Ok (Some df)
    /\ df_len df = length ds
    /\ column "timestamp" df = map (fun d => get d "timestamp") ds
    /\ (forall c, has_column c (prepared ds) = true -> has_column c df = true).
Proof.
  intros Hds Hts. destruct (prepared_facts ds) as (PL & PT & _ & _).
  unfold prepare_realtime_features. destruct ds as [|d ds]; [congruence|].
  fold (prepared (d :: ds)).
  destruct Hts as [->|[update Hu]].
  - cbn [bind]. eexists. split; [reflexivity|]. unfold assign_scalar.
    split; [now rewrite assign_len|].
    split; [now rewrite assign_other by reflexivity|].
    intros c H. now apply has_column_assign_keep.
  - destruct ts as [|t ts].
    + cbn [bind]. eexists. split; [reflexivity|]. unfold assign_scalar.
      split; [now rewrite assign_len|].
      split; [now rewrite assign_other by reflexivity|].
      intros c H. now apply has_column_assign_keep.
    + rewrite Hu. cbn [bind]. eexists. split; [reflexivity|].
      unfold assign_scalar.
      split; [now rewrite assign_len, update_cells_len|].
      split; [now rewrite assign_other, update_cells_other by reflexivity|].
      intros c H. apply has_column_assign_keep.
      now rewrite has_column_update_cells.
Qed.

Lemma fold_keeps_column (c : string) (step : DataFrame -> string -> DataFrame)
    (cols : list string) :
  (forall col df, In col cols -> column c (step df col) = column c df) ->
  forall df, column c (fold_left step cols df) = column c df.
Proof.
  induction cols as [|col cols IH]; intros H df; simpl; [reflexivity|].
  rewrite IH by (intros; apply H; now right). apply H. now left.
Qed.

Lemma add_defaults_timestamp df :
  column "timestamp" (add_defaults df) = column "timestamp" df.
Proof.
  apply fold_keeps_column. intros col df' Hin.
  destruct (has_column col df'); [reflexivity|].
  unfold assign_scalar. apply assign_other.
  simpl in Hin. repeat (destruct Hin as [<-|Hin]; [reflexivity|]). destruct Hin.
Qed.

Lemma coerce_numeric_timestamp df :
  column "timestamp" (coerce_numeric df) = column "timestamp" df.
Proof.
  apply fold_keeps_column. intros col df' Hin.
  unfold assign_series. apply assign_other.
  simpl in Hin. repeat (destruct Hin as [<-|Hin]; [reflexivity|]). destruct Hin.
Qed.

Lemma filled_series_nth (l : list (option R)) (i : nat) :
  (i < length l)%nat ->
  nth i (map (fun c => Some (fillna 0 c)) l) None <> None.
Proof.
  revert i. induction l as [|c l IH]; intros i H; simpl in *; [lia|].
  destruct i; [discriminate|]. apply IH. lia.
Qed.

Lemma coerce_numeric_value df :
  Forall (fun c => c <> None) (column "value" (coerce_numeric df)).
Proof.
  unfold coerce_numeric. cbn [fold_left]. unfold assign_series.
  rewrite !assign_other by reflexivity.
  apply assign_same_Forall. intros i Hi. apply filled_series_nth.
  unfold column. now rewrite length_map.
Qed.

Lemma filter_all {A : Type} (p : A -> bool) (l : list A) :
  Forall (fun x => p x = true) l -> filter p l = l.
Proof.
  induction 1 as [|x l Hx _ IH]; simpl; [reflexivity|]. now rewrite Hx, IH.
Qed.

Lemma not_isna (c : option R) : c <> None -> negb (isna c) = true.
Proof. destruct c; [reflexivity | congruence]. Qed.

Lemma column_Forall (P : option R -> Prop) col df :
  Forall P (column col df) -> Forall (fun row : Cells => P (row col)) (index df).
Proof. unfold column. apply Forall_map. Qed.

(** The frame handed to [dropna]. *)
Lemma before_dropna_facts series df :
  let pre := assign_series "trend" series (coerce_numeric (add_defaults df)) in
  df_len pre = df_len df
  /\ column "timestamp" pre = column "timestamp" df
  /\ Forall (fun c => c <> None) (column "value" pre).
Proof.
  intros pre. subst pre. unfold assign_series. split; [|split].
  - now rewrite assign_len, coerce_numeric_len, add_defaults_len.
  - rewrite assign_other by reflexivity.
    now rewrite coerce_numeric_timestamp, add_defaults_timestamp.
  - rewrite assign_other by reflexivity. apply coerce_numeric_value.
Qed.

(** Cleaning drops no row when every timestamp parses. *)
Lemma cleaned_len df :
  Forall (fun c => c <> None) (column "timestamp" df) ->
  df_len (cleaned df) = df_len df.
Proof.
  intros Hts. unfold cleaned. cbv zeta.
  match goal with
  | |- context [assign_series "trend" ?s _] =>
      destruct (before_dropna_facts s df) as (Lpre & Tpre & Vpre);
      revert Lpre Tpre Vpre;
      generalize (assign_series "trend" s (coerce_numeric (add_defaults df)))
  end.
  intros pre Lpre Tpre Vpre.
  rewrite <- Tpre in Hts.
  apply column_Forall in Hts. apply column_Forall in Vpre.
  rewrite <- Lpre. unfold df_len, dropna. cbn [index]. f_equal.
  apply filter_all. apply Forall_forall. intros row Hrow.
  pose proof (proj1 (Forall_forall _ _) Hts row Hrow) as Ht.
  pose proof (proj1 (Forall_forall _ _) Vpre row Hrow) as Hv.
  cbn [forallb]. cbv beta in Ht, Hv. now rewrite (not_isna _ Ht), (not_isna _ Hv).
Qed.

(** At least [seq_length] buffered readings, each with a timestamp that
    parses, a glucose column, and a treatment merge that does not raise:
    the sequence is returned. *)
Lemma get_feature_sequence_returns self iob_value seq_length :
  (0 < seq_length <= length (_glucose_buffer self))%nat ->
  Forall (fun d => get d "timestamp" <> None) (_glucose_buffer self) ->
  (has_column "value" (from_dicts (_glucose_buffer self)) = true
   \/ has_column "sgv" (from_dicts (_glucose_buffer self)) = true) ->
  (_treatment_buffer self = []
   \/ exists update,
        merge_treatments (prepared (_glucose_buffer self))
          (_treatment_buffer self) = Ok update) ->
  exists seq,
    get_feature_sequence self iob_value seq_length = Ok (Some seq)
    /\ length seq = seq_length
    /\ Forall (fun row => length row = 26%nat) seq.
Proof.
  clear newer_than. remember (_glucose_buffer self) as ds eqn:Eds.
  intros [Hpos Hlen] Hts Hval Hmerge.
  assert (Hds : ds <> []) by (destruct ds; simpl in Hlen; [lia | discriminate]).
  destruct (prepare_realtime_features_returns ds (_treatment_buffer self)
              iob_value Hds Hmerge) as (df & Hdf & Ldf & Tdf & Kdf).
  destruct (prepared_facts ds) as (_ & _ & PT & PV).
  assert (Hcol_ts : has_column "timestamp" df = true).
  { apply Kdf, PT. destruct ds as [|d ds']; [congruence|].
    apply from_dicts_has_column with d; [now left|].
    now inversion Hts. }
  assert (Hcol_v : has_column "value" df = true) by (apply Kdf, PV, Hval).
  assert (Lc : df_len (cleaned df) = length ds).
  { rewrite cleaned_len; [exact Ldf|]. rewrite Tdf.
    apply Forall_map. exact Hts. }
  assert (Hc : forall col,
             In col ["value"; "trend"; "carbs"; "protein"; "fat"] ->
             has_column col (cleaned df) = true).
  { intros col Hin. apply cleaned_columns. simpl in Hin. simpl. tauto. }
  assert (Hf : forall col, In col BG_FEATURE_COLUMNS ->
                           has_column col (featured (cleaned df)) = true)
    by (now apply featured_columns).
  assert (E : engineer_features df = featured (cleaned df)).
  { unfold engineer_features.
    rewrite (df_not_empty "value" df) by (auto; lia).
    rewrite Hcol_ts, Hcol_v. cbn [andb negb]. fold (cleaned df).
    rewrite (df_not_empty "value" (cleaned df));
      [reflexivity | apply Hc; now left | lia]. }
  destruct (extract_feature_sequence_returns (featured (cleaned df))
              BG_FEATURE_COLUMNS seq_length) as [seq Hseq].
  { rewrite featured_len. lia. }
  { exact Hf. }
  assert (G : get_feature_sequence self iob_value seq_length = Ok (Some seq)).
  { unfold get_feature_sequence. rewrite <- Eds.
    assert (Hn : (length ds <? seq_length)%nat = false)
      by (apply Nat.ltb_ge; lia).
    rewrite Hn, Hdf. cbn [bind]. rewrite E.
    rewrite (df_not_empty "value" (featured (cleaned df)));
      [now rewrite Hseq | apply Hf; now left | rewrite featured_len; lia]. }
  exists seq. split; [exact G|]. now apply get_feature_sequence_shape in G.
Qed.

End Engineer.

(** C6 (as the code has it). [get_feature_sequence] returns [None], without
    raising, when fewer than [seq_length] readings are buffered; a sequence
    it returns has exactly [seq_length] time-steps of 26 values; and it
    returns one when at least [seq_length] readings are buffered, each with
    a timestamp that parses, the readings carry a glucose value, and the
    merge of the buffered treatments does not raise.  Rows whose timestamp
    does not parse are dropped by the cleaning, so [None] is also returned
    from a buffer of [seq_length] readings or more. *)
Theorem feature_sequence_null_or_shaped
    (dt : string -> datetime -> R)
    (np_polyfit : list R -> list R -> nat -> result (list R))
    (treatment : Type)
    (merge_treatments :
       DataFrame -> list treatment ->
       result (nat -> string -> option R -> option R))
    (self : FeatureEngineer treatment) (iob_value : R) (seq_length : nat) :
  let sequence :=
    get_feature_sequence dt np_polyfit treatment merge_treatments self
      iob_value seq_length in
  ((length (_glucose_buffer treatment self) < seq_length)%nat ->
   sequence = Ok None)
  /\ (forall seq, sequence = Ok (Some seq) ->
      length seq = seq_length /\ Forall (fun row => length row = 26%nat) seq)
  /\ ((0 < seq_length <= length (_glucose_buffer treatment self))%nat ->
      Forall (fun d => get d "timestamp" <> None)
        (_glucose_buffer treatment self) ->
      has_column "value" (from_dicts (_glucose_buffer treatment self)) = true
      \/ has_column "sgv" (from_dicts (_glucose_buffer treatment self)) = true ->
      _treatment_buffer treatment self = []
      \/ (exists update,
            merge_treatments (prepared (_glucose_buffer treatment self))
              (_treatment_buffer treatment self) = Ok update) ->
      exists seq,
        sequence = Ok (Some seq)
        /\ length seq = seq_length
        /\ Forall (fun row => length row = 26%nat) seq).
Proof.
  intros sequence. subst sequence. split; [|split].
  - intros H. now apply get_feature_sequence_insufficient.
  - intros seq H. now apply get_feature_sequence_shape in H.
  - intros H1 H2 H3 H4. now apply get_feature_sequence_returns.
Qed.

(** Stand-ins for pandas and numpy in concrete runs. *)
Definition no_calendar : string -> datetime -> R := fun _ _ => 0.

Definition no_polyfit : list R -> list R -> nat -> result (list R) :=
  fun _ _ _ => Raise RuntimeError.

Definition no_merge
    : DataFrame -> list unit -> result (nat -> string -> option R -> option R) :=
  fun _ _ => Raise RuntimeError.

(** Twenty-four readings five minutes apart. *)
Definition dated_reading (i : nat) : dict :=
  [("timestamp", Some (INR i * 300)); ("value", Some 120)].

Definition dated_buffer : FeatureEngineer unit :=
  mkFeatureEngineer unit 180 5 36 (map dated_reading (seq 0 24)) [].

Lemma feature_sequence_null_or_shaped_witness :
  exists seq,
    get_feature_sequence no_calendar no_polyfit unit no_merge dated_buffer 0
      SEQ_LENGTH = Ok (Some seq)
    /\ length seq = 24%nat
    /\ Forall (fun row => length row = 26%nat) seq.
Proof.
  apply (proj2 (proj2 (feature_sequence_null_or_shaped no_calendar no_polyfit
                         unit no_merge dated_buffer 0 SEQ_LENGTH))).
  - unfold SEQ_LENGTH, dated_buffer. cbn [_glucose_buffer].
    rewrite length_map, length_seq. lia.
  - apply Forall_forall. intros d Hd. cbn [_glucose_buffer dated_buffer] in Hd.
    apply in_map_iff in Hd as (i & <- & _). discriminate.
  - left. apply from_dicts_has_column with (dated_reading 0).
    + now left.
    + discriminate.
  - now left.
Defined.

(** Twenty-four readings without a timestamp: the buffer is not short of
    readings, and the answer is [None]. *)
Definition undated_buffer : FeatureEngineer unit :=
  mkFeatureEngineer unit 180 5 36 (repeat [("value", Some 120)] 24) [].

Lemma undated_buffer_gives_none :
  length (_glucose_buffer unit undated_buffer) = SEQ_LENGTH
  /\ get_feature_sequence no_calendar no_polyfit unit no_merge undated_buffer 0
       SEQ_LENGTH = Ok None.
Proof.
  split; [reflexivity|].
  unfold get_feature_sequence. cbn [_glucose_buffer _treatment_buffer undated_buffer].
  unfold prepare_realtime_features.
  replace (length (repeat [("value", Some 120)] 24) <? SEQ_LENGTH)%nat
    with false by reflexivity.
  cbn [repeat bind]. unfold engineer_features.
  match goal with
  | |- context [df_empty ?d] =>
      replace (df_empty d) with false by (vm_compute; reflexivity)
  end.
  match goal with
  | |- context [has_column "timestamp" ?d] =>
      replace (has_column "timestamp" d) with false by (vm_compute; reflexivity)
  end.
  reflexivity.
Qed.

(** *** The reading buffer *)

(** What [add_glucose_reading] keeps of a list of readings: the last
    [max_readings], or everything when [max_readings] is 0 (the slice
    [buffer[-0:]] is the whole list). *)
Definition kept_readings (max_readings : nat) (l : list dict) : list dict :=
  if (max_readings =? 0)%nat then l
  else skipn (length l - max_readings) l.

Lemma kept_readings_app m a b :
  kept_readings m (kept_readings m a ++ b) = kept_readings m (a ++ b).
Proof.
  unfold kept_readings. destruct (Nat.eqb_spec m 0) as [Hm|Hm]; [reflexivity|].
  rewrite length_app, length_skipn.
  replace (skipn (length a - m) a ++ b)%list
    with (skipn (length a - m) (a ++ b)).
  - rewrite skipn_skipn, length_app. f_equal. lia.
  - rewrite skipn_app. f_equal.
    replace (length a - m - length a)%nat with 0%nat by lia. reflexivity.
Qed.

Lemma add_glucose_reading_kept (treatment : Type)
    (fe : FeatureEngineer treatment) (r : dict) :
  _glucose_buffer treatment (add_glucose_reading treatment fe r)
  = kept_readings (max_readings treatment fe)
      (_glucose_buffer treatment fe ++ [r]).
Proof.
  unfold add_glucose_reading, kept_readings. cbn [_glucose_buffer].
  set (b := (_glucose_buffer treatment fe ++ [r])%list).
  set (m := max_readings treatment fe).
  destruct (Nat.eqb_spec m 0) as [Hm|Hm].
  - rewrite Hm. destruct (0 <? length b)%nat; [|reflexivity].
    unfold slice_from. cbn [Z.of_nat Z.opp Z.ltb Z.compare].
    rewrite Z.min_l by lia. reflexivity.
  - destruct (Nat.ltb_spec m (length b)) as [Hlt|Hge].
    + unfold slice_from.
      assert (E : (- Z.of_nat m <? 0)%Z = true) by (apply Z.ltb_lt; lia).
      rewrite E. f_equal. lia.
    + replace (length b - m)%nat with 0%nat by lia. reflexivity.
Qed.

Lemma add_glucose_readings_kept (treatment : Type) (rs : list dict) :
  forall fe : FeatureEngineer treatment,
    kept_readings (max_readings treatment fe) (_glucose_buffer treatment fe)
    = _glucose_buffer treatment fe ->
    let fe' := fold_left (add_glucose_reading treatment) rs fe in
    max_readings treatment fe' = max_readings treatment fe
    /\ _treatment_buffer treatment fe' = _treatment_buffer treatment fe
    /\ _glucose_buffer treatment fe'
       = kept_readings (max_readings treatment fe)
           (_glucose_buffer treatment fe ++ rs).
Proof.
  induction rs as [|r rs IH]; intros fe Hinv; cbn [fold_left].
  - rewrite app_nil_r. auto.
  - specialize (IH (add_glucose_reading treatment fe r)).
    assert (Hm : max_readings treatment (add_glucose_reading treatment fe r)
                 = max_readings treatment fe) by reflexivity.
    assert (Ht : _treatment_buffer treatment (add_glucose_reading treatment fe r)
                 = _treatment_buffer treatment fe) by reflexivity.
    rewrite Hm, Ht, add_glucose_reading_kept in IH.
    destruct IH as (IH1 & IH2 & IH3).
    { pose proof (kept_readings_app (max_readings treatment fe)
                    (_glucose_buffer treatment fe ++ [r]) []) as H.
      now rewrite !app_nil_r in H. }
    split; [exact IH1|]. split; [exact IH2|].
    cbv zeta in IH3. rewrite IH3, kept_readings_app, <- app_assoc. reflexivity.
Qed.

(** X12. Readings added one by one to an engineer whose buffer is within
    its capacity leave the last [max_readings] of them buffered, in
    order, and the treatments untouched.  An engineer of capacity 0 never
    drops a reading.  With a capacity above 0 and below the sequence
    length, [get_feature_sequence] answers [None] whatever is added. *)
Theorem glucose_buffer_keeps_last_readings
    (dt : string -> datetime -> R)
    (np_polyfit : list R -> list R -> nat -> result (list R))
    (treatment : Type)
    (merge_treatments :
       DataFrame -> list treatment ->
       result (nat -> string -> option R -> option R))
    (fe : FeatureEngineer treatment) (rs : list dict) :
  (length (_glucose_buffer treatment fe) <= max_readings treatment fe)%nat ->
  let all := (_glucose_buffer treatment fe ++ rs)%list in
  let m := max_readings treatment fe in
  let fe' := fold_left (add_glucose_reading treatment) rs fe in
  _treatment_buffer treatment fe' = _treatment_buffer treatment fe
  /\ max_readings treatment fe' = m
  /\ (m = 0%nat -> _glucose_buffer treatment fe' = rs)
  /\ ((0 < m)%nat ->
      _glucose_buffer treatment fe' = skipn (length all - m) all
      /\ length (_glucose_buffer treatment fe') = Nat.min m (length all))
  /\ (forall iob_value seq_length,
        (0 < m < seq_length)%nat ->
        get_feature_sequence dt np_polyfit treatment merge_treatments fe'
          iob_value seq_length = Ok None).
Proof.
  intros Hcap all m fe'.
  destruct (add_glucose_readings_kept treatment rs fe) as (H1 & H2 & H3).
  { unfold kept_readings. destruct (_ =? _)%nat; [reflexivity|].
    replace (_ - _)%nat with 0%nat by lia. reflexivity. }
  fold fe' in H1, H2, H3. fold m in H1, H3. fold all in H3.
  assert (Hpos : (0 < m)%nat ->
            _glucose_buffer treatment fe' = skipn (length all - m) all
            /\ length (_glucose_buffer treatment fe') = Nat.min m (length all)).
  { intros Hm. rewrite H3. unfold kept_readings.
    destruct (Nat.eqb_spec m 0) as [E|_]; [lia|].
    split; [reflexivity|]. rewrite length_skipn. lia. }
  split; [exact H2|]. split; [exact H1|]. split; [|split].
  - intros Hm. rewrite H3. unfold kept_readings. rewrite Hm. cbn [Nat.eqb].
    subst all. fold m in Hcap. rewrite Hm in Hcap.
    destruct (_glucose_buffer treatment fe); [reflexivity | simpl in Hcap; lia].
  - exact Hpos.
  - intros iob_value seq_length [Hm Hs].
    apply get_feature_sequence_insufficient.
    destruct (Hpos Hm) as [_ Hl]. lia.
Qed.

(** Forty readings into the default engineer: the last 36 stay. *)
Lemma glucose_buffer_keeps_last_readings_witness :
  _glucose_buffer unit
    (fold_left (add_glucose_reading unit)
       (map dated_reading (seq 0 40)) (init unit 180 5))
  = map dated_reading (seq 4 36)
  /\ length (_glucose_buffer unit
               (fold_left (add_glucose_reading unit)
                  (map dated_reading (seq 0 40)) (init unit 180 5)))
     = 36%nat.
Proof.
  destruct (glucose_buffer_keeps_last_readings no_calendar no_polyfit unit
              no_merge (init unit 180 5) (map dated_reading (seq 0 40)))
    as (_ & _ & _ & H & _).
  - simpl. lia.
  - destruct H as [H1 H2].
    + unfold init. cbn [max_readings]. simpl. lia.
    + split; [|exact H2]. rewrite H1. reflexivity.
Defined.

(** *** The linear-decay IOB column *)




Section LinearDecay.

Variable d : nat.
Variable amount : R.
Variable idx : nat.






End LinearDecay.





(** *** The engineered rows *)

Section EngineerOrder.

Variable dt : string -> datetime -> R.
Variable np_polyfit : list R -> list R -> nat -> result (list R).

Lemma add_time_features_timestamp df :
  column "timestamp" (add_time_features dt df) = column "timestamp" df.
Proof.
  unfold add_time_features, assign_series. cbv zeta.
  repeat (rewrite assign_other by reflexivity). reflexivity.
Qed.

Lemma add_rolling_timestamp df :
  column "timestamp" (add_rolling df) = column "timestamp" df.
Proof.
  unfold add_rolling, assign_series. cbv zeta.
  repeat (rewrite assign_other by reflexivity). reflexivity.
Qed.

Lemma add_poly_timestamp df :
  column "timestamp" (add_poly np_polyfit df) = column "timestamp" df.
Proof.
  unfold add_poly, assign_series. cbv zeta.
  repeat (rewrite assign_other by reflexivity). reflexivity.
Qed.

Lemma featured_timestamp df :
  column "timestamp" (featured dt np_polyfit df)
  = column "timestamp" (sort_values "timestamp" df).
Proof.
  unfold featured. cbv zeta.
  rewrite add_poly_timestamp, add_rolling_timestamp, add_time_features_timestamp.
  unfold assign_series. now rewrite assign_other by reflexivity.
Qed.

(** The sort key of a row. *)
Definition key (col : string) (row : Cells) : R := fillna 0 (row col).

Lemma insert_row_In col row sorted r :
  In r (insert_row col row sorted) <-> r = row \/ In r sorted.
Proof.
  induction sorted as [|s sorted IH]; simpl.
  - split; intros [H|H]; auto; contradiction.
  - destruct (Rltb _ _); simpl.
    + split; intros H; intuition auto.
    + rewrite IH. split; intros H; intuition auto.
Qed.

Lemma insert_row_sorted col row sorted :
  StronglySorted (fun a b => key col a <= key col b) sorted ->
  StronglySorted (fun a b => key col a <= key col b) (insert_row col row sorted).
Proof.
  induction 1 as [|s sorted Hs IH Hall]; simpl.
  - constructor; constructor.
  - fold (key col row). fold (key col s).
    destruct (Rltb (key col row) (key col s)) eqn:E.
    + apply Rltb_true in E. constructor; [constructor; assumption|].
      constructor; [lra|].
      rewrite Forall_forall in *. intros y Hy. specialize (Hall y Hy). lra.
    + apply Rltb_false in E. constructor; [exact IH|].
      rewrite Forall_forall in *. intros y Hy.
      apply insert_row_In in Hy as [->|Hy]; [exact E | now apply Hall].
Qed.

Lemma sort_values_sorted col df :
  StronglySorted Rle (numbers col (sort_values col df)).
Proof.
  unfold numbers, column, sort_values. cbn [index]. rewrite map_map.
  assert (H : forall rows acc,
    StronglySorted (fun a b => key col a <= key col b) acc ->
    StronglySorted (fun a b => key col a <= key col b)
      (fold_left (fun sorted row => insert_row col row sorted) rows acc)).
  { induction rows as [|r rows IH]; intros acc Hacc; cbn [fold_left];
      [exact Hacc|]. apply IH. now apply insert_row_sorted. }
  specialize (H (index df) [] (SSorted_nil _)).
  induction H as [|r rows _ IH Hall]; cbn [map]; constructor; [exact IH|].
  apply Forall_map. exact Hall.
Qed.

Lemma filter_map_length {A B : Type} (f : A -> B) (p : B -> bool) (l : list A) :
  length (filter (fun a => p (f a)) l) = length (filter p (map f l)).
Proof.
  induction l as [|a l IH]; simpl; [reflexivity|].
  destruct (p (f a)); simpl; now rewrite IH.
Qed.

(** The cleaning keeps the rows whose timestamp parses. *)
Lemma cleaned_rows df :
  df_len (cleaned df)
  = length (filter (fun c => negb (isna c)) (column "timestamp" df)).
Proof.
  unfold cleaned. cbv zeta.
  match goal with
  | |- context [assign_series "trend" ?s _] =>
      destruct (before_dropna_facts s df) as (Lpre & Tpre & Vpre);
      revert Lpre Tpre Vpre;
      generalize (assign_series "trend" s (coerce_numeric (add_defaults df)))
  end.
  intros pre Lpre Tpre Vpre.
  rewrite <- Tpre. apply column_Forall in Vpre.
  unfold df_len, dropna, column. cbn [index].
  rewrite <- filter_map_length. f_equal.
  apply filter_ext_in. intros row Hrow.
  pose proof (proj1 (Forall_forall _ _) Vpre row Hrow) as Hv.
  cbv beta in Hv. cbn [forallb].
  rewrite (not_isna _ Hv). now rewrite !andb_true_r.
Qed.

(** X28. [engineer_features] returns the empty frame when the input is
    empty or lacks the timestamp or the value column.  Whatever the order
    of the input rows, the rows it returns are in timestamp order; when
    the result is not empty they are exactly as many as the input rows
    whose timestamp parses, and all 26 feature columns are present. *)
Theorem engineered_rows_in_time_order (df_in : DataFrame) :
  let out := engineer_features dt np_polyfit df_in in
  StronglySorted Rle (numbers "timestamp" out)
  /\ (df_len out <= df_len df_in)%nat
  /\ (df_empty out = false ->
      df_len out
      = length (filter (fun c => negb (isna c)) (column "timestamp" df_in))
      /\ forall col, In col BG_FEATURE_COLUMNS -> has_column col out = true)
  /\ (df_empty df_in = true \/ has_column "timestamp" df_in = false
      \/ has_column "value" df_in = false ->
      out = empty_frame).
Proof.
  intros out. subst out.
  assert (Hguard : df_empty df_in = true \/ has_column "timestamp" df_in = false
                   \/ has_column "value" df_in = false ->
                   engineer_features dt np_polyfit df_in = empty_frame).
  { unfold engineer_features. intros [H|[H|H]].
    - now rewrite H.
    - rewrite H. cbn [andb negb]. now destruct (df_empty df_in).
    - rewrite H, andb_false_r. cbn [negb]. now destruct (df_empty df_in). }
  destruct (engineer_features_cases dt np_polyfit df_in) as [E|[Hne E]].
  - rewrite E. split; [constructor|].
    split; [unfold df_len, empty_frame; simpl; lia|].
    split; [intros H; discriminate H | intros _; reflexivity].
  - rewrite E.
    assert (Hlen : df_len (featured dt np_polyfit (cleaned df_in))
                   = length (filter (fun c => negb (isna c))
                               (column "timestamp" df_in)))
      by (now rewrite featured_len, cleaned_rows).
    split; [|split; [|split]].
    + unfold numbers. rewrite featured_timestamp. apply sort_values_sorted.
    + rewrite Hlen. unfold column, df_len.
      pose proof (filter_length_le (fun c => negb (isna c))
                    (map (fun row : Cells => row "timestamp") (index df_in))) as H.
      rewrite length_map in H. exact H.
    + intros _. split; [exact Hlen|].
      apply featured_columns. intros col Hin. apply cleaned_columns.
      simpl in Hin. simpl. tauto.
    + rewrite <- E. exact Hguard.
Qed.

End EngineerOrder.

End Features.

(** ** Glucose model: [ml/inference/bg_inference.py] *)

Module BG.
Import PyFloat.

(** The trained glucose network with the scaling in front of it and the
    inverse scaling behind: the predictions in mg/dL before the clamp and
    the scaled predictions, or the exception raised on the way. *)
Definition BGNet : Type := FeatureSequence -> result (list R * list R).

Record BGInferenceService : Type := mkBGInferenceService {
  model : option BGNet;
  _loaded : bool
}.

Definition is_loaded (self : BGInferenceService) : bool :=
  _loaded self && match model self with Some _ => true | None => false end.

Definition predict (self : BGInferenceService)
    (feature_sequence : FeatureSequence) : option (list R * list R) :=
  if negb (is_loaded self) then None
  else
    match model self with
    | Some net =>
        match net feature_sequence with
        | Ok (predictions_mgdl, scaled_list) =>
            Some (map (clamp 40 400) predictions_mgdl, scaled_list)
        | Raise _ => None
        end
    | None => None
    end.

Lemma predict_requires_loaded bg sequence out :
  predict bg sequence = Some out -> is_loaded bg = true.
Proof.
  unfold predict. destruct (is_loaded bg); [reflexivity | discriminate].
Qed.

(** What [predict] returns is clamped to 40..400 mg/dL. *)
Lemma predict_clamped bg sequence predictions scaled :
  predict bg sequence = Some (predictions, scaled) ->
  Forall (fun p => 40 <= p <= 400) predictions.
Proof.
  unfold predict. destruct (negb (is_loaded bg)); [discriminate|].
  destruct (model bg) as [net|]; [|discriminate].
  destruct (net sequence) as [[raw s]|e]; [|discriminate].
  intros H. injection H as <- <-.
  induction raw as [|x raw IH]; simpl; constructor; [|exact IH].
  apply clamp_bounds. lra.
Qed.

End BG.

(** ** PredictionOrchestrator: [services/prediction_service.py] *)

Module Prediction.
Import PyFloat PyList.
Open Scope string_scope.

Definition datetime : Type := R.

Record PredictionResult : Type := mkPredictionResult {
  linear : list R;
  lstm : option (list R);
  horizons_min : list Z;
  timestamp : datetime;
  current_bg : R;
  trend : Z;
  isf : R;
  method : string
}.

Section Service.

Variable polyfit : list R -> list R -> option (R * R).
Variable dt : string -> datetime -> R.
Variable np_polyfit : list R -> list R -> nat -> result (list R).
Variable treatment : Type.
Variable merge_treatments :
  Features.DataFrame -> list treatment ->
  result (nat -> string -> option R -> option R).
Variable newer_than : datetime -> treatment -> result bool.

Definition FeatureEngineer : Type := Features.FeatureEngineer treatment.

Definition get_feature_sequence
    : FeatureEngineer -> R -> nat -> result (option FeatureSequence) :=
  Features.get_feature_sequence dt np_polyfit treatment merge_treatments.

Record PredictionService : Type := mkPredictionService {
  _bg_service : option BG.BGInferenceService;
  _isf_service : option ISF.ISFInferenceService;
  _linear_predictor : Linear.LinearPredictor;
  _feature_engineer : FeatureEngineer;
  _initialized : bool
}.

(** [PredictionService(models_dir, device)] *)
Definition init : PredictionService :=
  mkPredictionService None None Linear.default_predictor
    (Features.init treatment 180 5) false.

(** [initialize]; [disk] is what [create_bg_service] and
    [create_isf_service] load when the models directory exists. *)
Definition initialize (self : PredictionService)
    (disk : option (BG.BGInferenceService * ISF.ISFInferenceService))
    : PredictionService :=
  if _initialized self then self
  else
    match disk with
    | Some (bg, isf) =>
        mkPredictionService (Some bg) (Some isf) (_linear_predictor self)
          (_feature_engineer self) true
    | None =>
        mkPredictionService (_bg_service self) (_isf_service self)
          (_linear_predictor self) (_feature_engineer self) true
    end.

Definition lstm_available (self : PredictionService) : bool :=
  match _bg_service self with
  | Some bg => BG.is_loaded bg
  | None => false
  end.

Definition isf_available (self : PredictionService) : bool :=
  match _isf_service self with
  | Some svc => ISF.is_loaded svc
  | None => false
  end.

Definition with_feature_engineer (self : PredictionService)
    (fe : FeatureEngineer) : PredictionService :=
  mkPredictionService (_bg_service self) (_isf_service self)
    (_linear_predictor self) fe (_initialized self).

(** [r.get('value', r.get('sgv', 0))] as a float.  A value that is not a
    number is outside the [List[float]] that [LinearPredictor.predict]
    takes; it is counted as the [TypeError] numpy raises on it. *)
Definition reading_value (r : Features.dict) : result R :=
  let lookup key :=
    find (fun kv => String.eqb key (fst kv)) r in
  match lookup "value" with
  | Some (_, Some v) => Ok v
  | Some (_, None) => Raise TypeError
  | None =>
      match lookup "sgv" with
      | Some (_, Some v) => Ok v
      | Some (_, None) => Raise TypeError
      | None => Ok 0
      end
  end.

Fixpoint reading_values (history : list Features.dict) : result (list R) :=
  match history with
  | [] => Ok []
  | r :: rest =>
      v <- reading_value r ;;
      vs <- reading_values rest ;;
      Ok (v :: vs)
  end.

(** The linear prediction that [predict] always computes first. *)
Definition linear_baseline (self : PredictionService) (current_bg : R)
    (trend : Z) (glucose_history : option (list Features.dict))
    : result (list R) :=
  match glucose_history with
  | Some (r :: rest) =>
      if (2 <=? length (r :: rest))%nat then
        glucose_values <- reading_values (r :: rest) ;;
        '(linear_preds, slope, intercept) <-
          Linear.predict polyfit (_linear_predictor self) glucose_values None 5 ;;
        Ok linear_preds
      else Ok (Linear.predict_with_trend (_linear_predictor self) current_bg trend)
  | _ => Ok (Linear.predict_with_trend (_linear_predictor self) current_bg trend)
  end.

(** [_get_isf] *)
Definition _get_isf (self : PredictionService) (iob : R) : R :=
  let predicted :=
    if isf_available self then
      match get_feature_sequence (_feature_engineer self) iob Features.SEQ_LENGTH with
      | Ok (Some sequence) =>
          match _isf_service self with
          | Some svc => ISF.predict svc sequence
          | None => None
          end
      | Ok None => None
      | Raise _ => None
      end
    else None in
  match predicted with
  | Some isf => isf
  | None =>
      match _isf_service self with
      | Some svc => ISF.default_isf svc
      | None => 50
      end
  end.

(** The [for treatment in treatments] loop of the [try] block. *)
Fixpoint add_treatments (fe : FeatureEngineer) (utcnow : datetime)
    (treatments : list treatment) : FeatureEngineer * result unit :=
  match treatments with
  | [] => (fe, Ok tt)
  | t :: rest =>
      match Features.add_treatment treatment newer_than fe utcnow t with
      | (fe', Ok _) => add_treatments fe' utcnow rest
      | (fe', Raise e) => (fe', Raise e)
      end
  end.

(** The buffer that the [try] block rebuilds from the history. *)
Definition refill (fe : FeatureEngineer) (history : list Features.dict)
    : FeatureEngineer :=
  fold_left (Features.add_glucose_reading treatment)
    history (Features.clear treatment fe).

(** The body of the [try] block: the feature engineer it leaves, and the
    pair ([lstm_preds], [method]) it assigns, or the exception raised. *)
Definition lstm_attempt (self : PredictionService) (utcnow : datetime)
    (iob : R) (history : list Features.dict)
    (treatments : option (list treatment))
    : FeatureEngineer * result (option (list R) * string) :=
  let fe := refill (_feature_engineer self) history in
  let '(fe, added) :=
    match treatments with
    | Some (t :: ts) => add_treatments fe utcnow (t :: ts)
    | _ => (fe, Ok tt)
    end in
  (fe,
   _ <- added ;;
   sequence <- get_feature_sequence fe iob Features.SEQ_LENGTH ;;
   match sequence with
   | Some sequence =>
       match _bg_service self with
       | Some bg =>
           match BG.predict bg sequence with
           | Some (lstm_preds, _) => Ok (Some lstm_preds, "lstm")
           | None => Ok (None, "linear")
           end
       | None => Raise TypeError
       end
   | None => Ok (None, "linear")
   end).

(** [lstm_preds] as a condition: [None] and the empty list are falsy. *)
Definition truthy (lstm_preds : option (list R)) : bool :=
  match lstm_preds with
  | Some (_ :: _) => true
  | _ => false
  end.

Definition predict (self : PredictionService)
    (disk : option (BG.BGInferenceService * ISF.ISFInferenceService))
    (utcnow : datetime) (current_bg : R) (trend : Z) (iob : R)
    (glucose_history : option (list Features.dict))
    (treatments : option (list treatment))
    : PredictionService * result PredictionResult :=
  let self := if _initialized self then self else initialize self disk in
  let now := utcnow in
  match linear_baseline self current_bg trend glucose_history with
  | Raise e => (self, Raise e)
  | Ok linear_preds =>
      let isf := _get_isf self iob in
      let '(self, (lstm_preds, method)) :=
        match glucose_history with
        | Some (r :: rest) =>
            if lstm_available self then
              let '(fe, outcome) :=
                lstm_attempt self utcnow iob (r :: rest) treatments in
              (with_feature_engineer self fe,
               match outcome with
               | Ok assigned => assigned
               | Raise _ => (None, "linear")
               end)
            else (self, (None, "linear"))
        | _ => (self, (None, "linear"))
        end in
      (self,
       Ok (mkPredictionResult linear_preds lstm_preds [5; 10; 15]%Z now
             current_bg trend isf
             (if truthy lstm_preds then method else "linear")))
  end.

End Service.

(** *** Properties *)

Section ServiceProperties.

Variable polyfit : list R -> list R -> option (R * R).
Variable dt : string -> datetime -> R.
Variable np_polyfit : list R -> list R -> nat -> result (list R).
Variable treatment : Type.
Variable merge_treatments :
  Features.DataFrame -> list treatment ->
  result (nat -> string -> option R -> option R).
Variable newer_than : datetime -> treatment -> result bool.

Local Abbreviation Service := (PredictionService treatment).
Local Abbreviation attempt :=
  (lstm_attempt dt np_polyfit treatment merge_treatments newer_than).
Local Abbreviation sequence_of :=
  (get_feature_sequence dt np_polyfit treatment merge_treatments).
Local Abbreviation baseline := (linear_baseline polyfit treatment).
Local Abbreviation run_predict :=
  (predict polyfit dt np_polyfit treatment merge_treatments newer_than).

(** The [try] block assigns predictions only after the sequence was built
    and the glucose model answered. *)
Lemma lstm_attempt_success (self : Service) utcnow iob history treatments
    lstm_preds m :
  snd (attempt self utcnow iob history treatments) = Ok (Some lstm_preds, m) ->
  m = "lstm"
  /\ exists bg sequence scaled,
       _bg_service treatment self = Some bg
       /\ sequence_of (fst (attempt self utcnow iob history treatments)) iob
            Features.SEQ_LENGTH = Ok (Some sequence)
       /\ BG.predict bg sequence = Some (lstm_preds, scaled).
Proof.
  unfold lstm_attempt.
  destruct (match treatments with
            | Some (t :: ts) => _
            | _ => _
            end) as [fe added].
  cbn [fst snd]. destruct added as [[]|e]; cbn [bind]; [|discriminate].
  destruct (sequence_of fe iob Features.SEQ_LENGTH) as [[sequence|]|e];
    cbn [bind]; try discriminate.
  destruct (_bg_service treatment self) as [bg|]; [|discriminate].
  destruct (BG.predict bg sequence) as [[preds scaled]|] eqn:Hbg;
    [|discriminate].
  intros H. injection H as <- <-. split; [reflexivity|].
  exists bg, sequence, scaled. auto.
Qed.

Lemma last_item_nonempty {A : Type} (l : list A) :
  l <> [] -> exists x, last_item l = Ok x.
Proof.
  intros H. unfold last_item. destruct (rev l) as [|x r] eqn:E.
  - apply (f_equal (@length A)) in E. rewrite length_rev in E.
    destruct l; [congruence | discriminate].
  - now exists x.
Qed.

(** With two values or more and a positive [history_points] the line fit
    returns, whatever [np.polyfit] does. *)
Lemma linear_predict_returns (self : Linear.LinearPredictor) values interval :
  (0 < Linear.history_points self)%Z -> (2 <= length values)%nat ->
  exists out, Linear.predict polyfit self values None interval = Ok out.
Proof.
  intros Hhp Hlen. unfold Linear.predict.
  assert (E : (length values <? 2)%nat = false) by (apply Nat.ltb_ge; lia).
  rewrite E. cbn [bind].
  set (recent := slice_from (- Linear.history_points self) values).
  assert (Hrecent : (0 < length recent)%nat).
  { subst recent. rewrite <- (Z2Nat.id (Linear.history_points self)) by lia.
    destruct (Nat.le_gt_cases (Z.to_nat (Linear.history_points self)) (length values)).
    - rewrite slice_from_length; lia.
    - rewrite slice_from_short; lia. }
  destruct (last_item_nonempty (Linear.arange_times (length recent) interval))
    as [x Hx].
  { unfold Linear.arange_times. destruct (length recent); [lia | discriminate]. }
  destruct (match polyfit _ recent with Some c => c | None => _ end)
    as [slope intercept].
  rewrite Hx. cbn [bind]. eexists. reflexivity.
Qed.

Lemma reading_values_returns history :
  Forall (fun r => exists v, reading_value r = Ok v) history ->
  exists vs, reading_values history = Ok vs /\ length vs = length history.
Proof.
  induction 1 as [|r rest [v Hv] _ (vs & Hvs & Hl)]; simpl.
  - now exists [].
  - rewrite Hv, Hvs. simpl. exists (v :: vs). simpl. auto.
Qed.

Lemma linear_baseline_returns (self : Service) current_bg trend glucose_history :
  (0 < Linear.history_points (_linear_predictor treatment self))%Z ->
  (forall history, glucose_history = Some history ->
     Forall (fun r => exists v, reading_value r = Ok v) history) ->
  exists linear_preds,
    baseline self current_bg trend glucose_history = Ok linear_preds.
Proof.
  intros Hhp Hnum. unfold linear_baseline.
  destruct glucose_history as [[|r rest]|]; try (eexists; reflexivity).
  destruct (Nat.leb_spec 2 (length (r :: rest))) as [Hlen|Hlen];
    [|eexists; reflexivity].
  destruct (reading_values_returns (r :: rest) (Hnum _ eq_refl))
    as (vs & Hvs & Hl).
  rewrite Hvs. cbn [bind].
  destruct (linear_predict_returns (_linear_predictor treatment self) vs 5 Hhp)
    as [[[preds slope] intercept] Hout]; [lia|].
  rewrite Hout. cbn [bind]. eexists. reflexivity.
Qed.

(** C5. [predict] tags its result "lstm" only if, in that call, the
    glucose model was loaded, a history was given, the feature sequence
    was built and the model returned predictions for it, which are the
    [lstm] field.  An exception or a [None] anywhere in the sequence path
    gives the result tagged "linear" with the linear predictions and no
    lstm predictions; the call returns whenever the linear baseline does,
    and the baseline does on numeric readings. *)
Theorem method_lstm_only_on_success (self : Service)
    (disk : option (BG.BGInferenceService * ISF.ISFInferenceService))
    (utcnow : datetime) (current_bg : R) (trend : Z) (iob : R)
    (glucose_history : option (list Features.dict))
    (treatments : option (list treatment)) :
  let ready :=
    if _initialized treatment self then self else initialize treatment self disk in
  let outcome :=
    snd (run_predict self disk utcnow current_bg trend iob glucose_history
           treatments) in
  (forall r, outcome = Ok r -> method r = "lstm" ->
     lstm_available treatment ready = true
     /\ exists history bg sequence lstm_preds scaled,
          glucose_history = Some history /\ history <> []
          /\ _bg_service treatment ready = Some bg /\ BG.is_loaded bg = true
          /\ sequence_of (fst (attempt ready utcnow iob history treatments))
               iob Features.SEQ_LENGTH = Ok (Some sequence)
          /\ BG.predict bg sequence = Some (lstm_preds, scaled)
          /\ lstm_preds <> []
          /\ lstm r = Some lstm_preds)
  /\
  (forall linear_preds,
     baseline ready current_bg trend glucose_history = Ok linear_preds ->
     exists r,
       outcome = Ok r /\ linear r = linear_preds
       /\ (method r = "lstm" \/ method r = "linear")
       /\ (forall history, glucose_history = Some history ->
           snd (attempt ready utcnow iob history treatments) = Ok (None, "linear")
           \/ (exists e, snd (attempt ready utcnow iob history treatments)
                         = Raise e) ->
           method r = "linear" /\ lstm r = None))
  /\
  ((0 < Linear.history_points (_linear_predictor treatment ready))%Z ->
   (forall history, glucose_history = Some history ->
      Forall (fun r => exists v, reading_value r = Ok v) history) ->
   exists r, outcome = Ok r).
Proof.
  intros ready outcome.
  assert (Hout : forall linear_preds,
    baseline ready current_bg trend glucose_history = Ok linear_preds ->
    exists lstm_preds m,
      outcome = Ok (mkPredictionResult linear_preds lstm_preds [5; 10; 15]%Z
                      utcnow current_bg trend
                      (_get_isf dt np_polyfit treatment merge_treatments ready iob)
                      (if truthy lstm_preds then m else "linear"))
      /\ ((lstm_preds = None /\ m = "linear"
           /\ forall history, glucose_history = Some history ->
                history <> [] -> lstm_available treatment ready = true ->
                snd (attempt ready utcnow iob history treatments) = Ok (None, "linear")
                \/ exists e, snd (attempt ready utcnow iob history treatments) = Raise e)
          \/ (exists history,
                glucose_history = Some history /\ history <> []
                /\ lstm_available treatment ready = true
                /\ snd (attempt ready utcnow iob history treatments)
                   = Ok (lstm_preds, m)))).
  { intros linear_preds Hlin. subst outcome. unfold predict. fold ready.
    rewrite Hlin.
    destruct glucose_history as [[|r0 rest]|].
    - exists None, "linear". split; [reflexivity|]. left.
      split; [reflexivity|]. split; [reflexivity|].
      intros history H Hne. injection H as <-. congruence.
    - destruct (lstm_available treatment ready) eqn:Hav.
      + destruct (attempt ready utcnow iob (r0 :: rest) treatments)
          as [fe [[lp m]|e]] eqn:Hat.
        * exists lp, m. split; [reflexivity|]. right.
          exists (r0 :: rest). split; [reflexivity|]. split; [discriminate|].
          split; [reflexivity|]. now rewrite Hat.
        * exists None, "linear". split; [reflexivity|]. left.
          split; [reflexivity|]. split; [reflexivity|].
          intros history H _ _. injection H as <-. right. exists e.
          now rewrite Hat.
      + exists None, "linear". split; [reflexivity|]. left.
        split; [reflexivity|]. split; [reflexivity|].
        intros history H _ Hav'. congruence.
    - exists None, "linear". split; [reflexivity|]. left.
      split; [reflexivity|]. split; [reflexivity|].
      intros history H. discriminate. }
  split; [|split].
  - intros r Hr Hm.
    destruct (baseline ready current_bg trend glucose_history)
      as [linear_preds|e] eqn:Hlin.
    + destruct (Hout linear_preds eq_refl) as (lp & m & Ho & Hcase).
      rewrite Ho in Hr. injection Hr as <-. cbn [method lstm] in *.
      destruct Hcase as [(-> & _ & _)|(history & Hh & Hne & Hav & Hat)];
        [discriminate|].
      destruct lp as [[|p ps]|]; cbn [truthy] in Hm; try discriminate.
      destruct (lstm_attempt_success ready utcnow iob history treatments
                  (p :: ps) m Hat) as (_ & bg & sequence & scaled & Hbg & Hseq & Hp).
      split; [exact Hav|].
      exists history, bg, sequence, (p :: ps), scaled.
      repeat split; auto; try discriminate.
      now apply BG.predict_requires_loaded in Hp.
    + subst outcome. unfold predict in Hr. fold ready in Hr.
      rewrite Hlin in Hr. discriminate.
  - intros linear_preds Hlin.
    destruct (Hout linear_preds Hlin) as (lp & m & Ho & Hcase).
    eexists. split; [exact Ho|]. cbn [linear method lstm].
    split; [reflexivity|]. split.
    + destruct Hcase as [(-> & -> & _)|(history & _ & _ & _ & Hat)].
      * now right.
      * destruct lp as [[|p ps]|]; cbn [truthy]; try now right.
        left. now destruct (lstm_attempt_success ready utcnow iob history
                              treatments (p :: ps) m Hat).
    + intros history Hh Hfail.
      destruct Hcase as [(-> & -> & _)|(history' & Hh' & _ & _ & Hat)].
      * split; reflexivity.
      * assert (history' = history) by congruence. subst history'.
        rewrite Hat in Hfail.
        destruct Hfail as [Hf|[e Hf]]; [|discriminate].
        injection Hf as -> ->. split; reflexivity.
  - intros Hhp Hnum.
    destruct (linear_baseline_returns ready current_bg trend glucose_history
                Hhp Hnum) as [linear_preds Hlin].
    destruct (Hout linear_preds Hlin) as (lp & m & Ho & _).
    eexists. exact Ho.
Qed.

End ServiceProperties.

(** *** Ranges, sensitivity and buffer of a call *)

Section ServiceRanges.

Variable polyfit : list R -> list R -> option (R * R).
Variable dt : string -> datetime -> R.
Variable np_polyfit : list R -> list R -> nat -> result (list R).
Variable treatment : Type.
Variable merge_treatments :
  Features.DataFrame -> list treatment ->
  result (nat -> string -> option R -> option R).
Variable newer_than : datetime -> treatment -> result bool.

Local Abbreviation Service := (PredictionService treatment).
Local Abbreviation attempt :=
  (lstm_attempt dt np_polyfit treatment merge_treatments newer_than).
Local Abbreviation baseline := (linear_baseline polyfit treatment).
Local Abbreviation get_isf :=
  (_get_isf dt np_polyfit treatment merge_treatments).
Local Abbreviation run_predict :=
  (predict polyfit dt np_polyfit treatment merge_treatments newer_than).

(** The sensitivity [_get_isf] falls back to. *)
Definition fallback_isf (self : Service) : R :=
  match _isf_service treatment self with
  | Some svc => ISF.default_isf svc
  | None => 50
  end.

(** The service and the result of a call whose linear baseline returns. *)
Lemma predict_unfold (self : Service) disk utcnow current_bg trend iob
    glucose_history treatments linear_preds :
  let ready :=
    if _initialized treatment self then self else initialize treatment self disk in
  baseline ready current_bg trend glucose_history = Ok linear_preds ->
  exists fe lstm_preds m,
    run_predict self disk utcnow current_bg trend iob glucose_history treatments
    = (with_feature_engineer treatment ready fe,
       Ok (mkPredictionResult linear_preds lstm_preds [5; 10; 15]%Z utcnow
             current_bg trend (get_isf ready iob)
             (if truthy lstm_preds then m else "linear")))
    /\ ((fe = _feature_engineer treatment ready /\ lstm_preds = None
         /\ (lstm_available treatment ready = false
             \/ glucose_history = None \/ glucose_history = Some []))
        \/ (exists history,
              glucose_history = Some history /\ history <> []
              /\ lstm_available treatment ready = true
              /\ fe = fst (attempt ready utcnow iob history treatments)
              /\ (snd (attempt ready utcnow iob history treatments)
                  = Ok (lstm_preds, m)
                  \/ (lstm_preds = None
                      /\ exists e, snd (attempt ready utcnow iob history
                                          treatments) = Raise e)))).
Proof.
  intros ready Hlin. unfold predict. fold ready. rewrite Hlin.
  assert (Hsame : with_feature_engineer treatment ready
                    (_feature_engineer treatment ready) = ready)
    by (now destruct ready).
  destruct glucose_history as [[|r0 rest]|].
  - exists (_feature_engineer treatment ready), None, "linear".
    rewrite Hsame. split; [reflexivity|]. left. auto.
  - destruct (lstm_available treatment ready) eqn:Hav.
    + destruct (attempt ready utcnow iob (r0 :: rest) treatments)
        as [fe [[lp m]|e]] eqn:Hat.
      * exists fe, lp, m. split; [reflexivity|]. right.
        exists (r0 :: rest). split; [reflexivity|]. split; [discriminate|].
        split; [reflexivity|]. rewrite Hat. split; [reflexivity|]. now left.
      * exists fe, None, "linear". split; [reflexivity|]. right.
        exists (r0 :: rest). split; [reflexivity|]. split; [discriminate|].
        split; [reflexivity|]. rewrite Hat. split; [reflexivity|].
        right. split; [reflexivity|]. now exists e.
    + exists (_feature_engineer treatment ready), None, "linear".
      rewrite Hsame. split; [reflexivity|]. left. auto.
  - exists (_feature_engineer treatment ready), None, "linear".
    rewrite Hsame. split; [reflexivity|]. left. auto.
Qed.

Lemma linear_baseline_clamped (self : Service) current_bg trend
    glucose_history linear_preds :
  baseline self current_bg trend glucose_history = Ok linear_preds ->
  length linear_preds
  = length (Linear.prediction_horizons (_linear_predictor treatment self))
  /\ Forall (fun p => 40 <= p <= 400) linear_preds.
Proof.
  unfold linear_baseline.
  destruct glucose_history as [[|r rest]|];
    try (intros H; injection H as <-; apply Linear.predict_with_trend_clamped).
  destruct (Nat.leb_spec 2 (length (r :: rest))) as [Hlen|Hlen];
    [|intros H; injection H as <-; apply Linear.predict_with_trend_clamped].
  destruct (reading_values (r :: rest)) as [vs|e] eqn:Hvs; cbn [bind];
    [|discriminate].
  destruct (Linear.predict polyfit (_linear_predictor treatment self) vs None 5)
    as [[[preds slope] intercept]|e] eqn:Hp; cbn [bind]; [|discriminate].
  intros H. injection H as <-.
  apply (Linear.predict_ok_clamped polyfit _ vs None 5 preds slope intercept);
    [|exact Hp].
  assert (Hl : forall h vs', reading_values h = Ok vs' -> length vs' = length h).
  { clear. induction h as [|r h IH]; intros vs' H; simpl in H.
    - now injection H as <-.
    - destruct (reading_value r); cbn [bind] in H; [|discriminate].
      destruct (reading_values h) as [w|]; cbn [bind] in H; [|discriminate].
      injection H as <-. simpl. f_equal. now apply IH. }
  rewrite (Hl _ _ Hvs). exact Hlen.
Qed.

(** X14. With a positive [history_points] and numeric readings, [predict]
    returns a result whose linear predictions, one per horizon of the
    linear predictor, and whose LSTM predictions, when there are any, all
    lie within 40..400 mg/dL; the result carries the reading, the trend
    and the clock it was called with, and the horizons 5, 10, 15. *)
Theorem predict_result_in_range (self : Service)
    (disk : option (BG.BGInferenceService * ISF.ISFInferenceService))
    (utcnow : datetime) (current_bg : R) (trend : Z) (iob : R)
    (glucose_history : option (list Features.dict))
    (treatments : option (list treatment)) :
  let ready :=
    if _initialized treatment self then self else initialize treatment self disk in
  (0 < Linear.history_points (_linear_predictor treatment ready))%Z ->
  (forall history, glucose_history = Some history ->
     Forall (fun r => exists v, reading_value r = Ok v) history) ->
  exists r,
    snd (run_predict self disk utcnow current_bg trend iob glucose_history
           treatments) = Ok r
    /\ length (linear r)
       = length (Linear.prediction_horizons (_linear_predictor treatment ready))
    /\ Forall (fun p => 40 <= p <= 400) (linear r)
    /\ (forall l, lstm r = Some l -> Forall (fun p => 40 <= p <= 400) l)
    /\ (method r = "lstm" -> exists l, lstm r = Some l /\ l <> [])
    /\ timestamp r = utcnow /\ Prediction.current_bg r = current_bg
    /\ Prediction.trend r = trend /\ horizons_min r = [5; 10; 15]%Z.
Proof.
  intros ready Hhp Hnum.
  destruct (linear_baseline_returns polyfit treatment ready current_bg trend
              glucose_history Hhp Hnum) as [lp Hlp].
  destruct (predict_unfold self disk utcnow current_bg trend iob
              glucose_history treatments lp Hlp) as (fe & lstm_preds & m & E & Hc).
  rewrite E. cbn [snd]. eexists. split; [reflexivity|].
  cbn [linear lstm method timestamp Prediction.current_bg Prediction.trend
       horizons_min].
  destruct (linear_baseline_clamped ready current_bg trend glucose_history lp Hlp)
    as [Hl Hr].
  split; [exact Hl|]. split; [exact Hr|].
  split; [|split; [|repeat split]].
  - intros l Hsome. subst lstm_preds.
    destruct Hc as [(_ & Hn & _)|(history & _ & _ & _ & _ & [Hat|[Hn _]])];
      try discriminate.
    destruct (lstm_attempt_success dt np_polyfit treatment merge_treatments
                newer_than ready utcnow iob history treatments l m Hat)
      as (_ & bg & sequence & scaled & _ & _ & Hbg).
    now apply BG.predict_clamped in Hbg.
  - destruct lstm_preds as [[|p ps]|]; cbn [truthy]; try discriminate.
    intros _. exists (p :: ps). split; [reflexivity | discriminate].
Qed.

(** [add_treatments] leaves the readings alone. *)
Lemma add_treatments_glucose_buffer utcnow (ts : list treatment) :
  forall fe : FeatureEngineer treatment,
    Features._glucose_buffer treatment
      (fst (add_treatments treatment newer_than fe utcnow ts))
    = Features._glucose_buffer treatment fe.
Proof.
  induction ts as [|t ts IH]; intros fe; cbn [add_treatments]; [reflexivity|].
  unfold Features.add_treatment.
  destruct (Features.keep_recent treatment newer_than _ _) as [kept|e].
  - rewrite IH. reflexivity.
  - reflexivity.
Qed.

Lemma lstm_attempt_glucose_buffer (self : Service) utcnow iob history treatments :
  Features._glucose_buffer treatment
    (fst (attempt self utcnow iob history treatments))
  = Features.kept_readings
      (Features.max_readings treatment (_feature_engineer treatment self))
      history.
Proof.
  unfold lstm_attempt.
  assert (Hre : Features._glucose_buffer treatment
                  (refill treatment (_feature_engineer treatment self) history)
                = Features.kept_readings
                    (Features.max_readings treatment
                       (_feature_engineer treatment self)) history).
  { unfold refill.
    destruct (Features.add_glucose_readings_kept treatment history
                (Features.clear treatment (_feature_engineer treatment self)))
      as (_ & _ & H).
    - unfold Features.kept_readings. cbn [Features._glucose_buffer Features.clear].
      destruct (_ =? _)%nat; reflexivity.
    - exact H. }
  destruct treatments as [[|t ts]|]; cbn [fst]; try exact Hre.
  pose proof (add_treatments_glucose_buffer utcnow (t :: ts)
                (refill treatment (_feature_engineer treatment self) history)) as H.
  destruct (add_treatments treatment newer_than _ utcnow (t :: ts)) as [fe added].
  cbn [fst] in *. now rewrite H.
Qed.

(** X15. A call with a history, on a service whose glucose model is
    loaded, replaces the buffered readings by the history passed, cut to
    its last [max_readings] entries; what was buffered before the call is
    gone.  A call without a history, or without a loaded glucose model,
    leaves the feature buffers as they were. *)
Theorem predict_rebuilds_reading_buffer (self : Service)
    (disk : option (BG.BGInferenceService * ISF.ISFInferenceService))
    (utcnow : datetime) (current_bg : R) (trend : Z) (iob : R)
    (glucose_history : option (list Features.dict))
    (treatments : option (list treatment)) :
  let ready :=
    if _initialized treatment self then self else initialize treatment self disk in
  let after :=
    fst (run_predict self disk utcnow current_bg trend iob glucose_history
           treatments) in
  let m := Features.max_readings treatment (_feature_engineer treatment ready) in
  (0 < Linear.history_points (_linear_predictor treatment ready))%Z ->
  (forall history, glucose_history = Some history ->
     Forall (fun r => exists v, reading_value r = Ok v) history) ->
  (forall history,
     glucose_history = Some history -> history <> [] ->
     lstm_available treatment ready = true ->
     Features._glucose_buffer treatment (_feature_engineer treatment after)
     = Features.kept_readings m history
     /\ ((0 < m)%nat ->
         Features._glucose_buffer treatment (_feature_engineer treatment after)
         = skipn (length history - m) history))
  /\ (glucose_history = None \/ glucose_history = Some []
      \/ lstm_available treatment ready = false ->
      _feature_engineer treatment after = _feature_engineer treatment ready).
Proof.
  intros ready after m Hhp Hnum.
  destruct (linear_baseline_returns polyfit treatment ready current_bg trend
              glucose_history Hhp Hnum) as [lp Hlp].
  destruct (predict_unfold self disk utcnow current_bg trend iob
              glucose_history treatments lp Hlp) as (fe & lstm_preds & mth & E & Hc).
  fold ready in Hc. subst after. rewrite E. cbn [fst with_feature_engineer _feature_engineer].
  split.
  - intros history Hh Hne Hav.
    destruct Hc as [(_ & _ & [H|[H|H]])|(history' & Hh' & _ & _ & Hfe & _)].
    { congruence. }
    { congruence. }
    { exfalso. apply Hne. congruence. }
    assert (history' = history) by congruence. subst history'.
    rewrite Hfe, lstm_attempt_glucose_buffer. fold m.
    split; [reflexivity|]. intros Hm. unfold Features.kept_readings.
    destruct (Nat.eqb_spec m 0); [lia | reflexivity].
  - intros Hno.
    destruct Hc as [(Hfe & _ & _)|(history' & Hh' & Hne & Hav & _)];
      [exact Hfe|].
    destruct Hno as [H|[H|H]]; congruence.
Qed.

(** X16. The sensitivity of a result is read before the call rebuilds
    the reading buffer: it is [_get_isf] on the service as it was.  With
    fewer than [SEQ_LENGTH] readings buffered before the call, with no
    sensitivity service or with one that is not loaded, it is the
    fallback (the service default; 50 without a service), whatever
    history the call passes. *)
Theorem predict_isf_from_previous_buffer (self : Service)
    (disk : option (BG.BGInferenceService * ISF.ISFInferenceService))
    (utcnow : datetime) (current_bg : R) (trend : Z) (iob : R)
    (glucose_history : option (list Features.dict))
    (treatments : option (list treatment)) :
  let ready :=
    if _initialized treatment self then self else initialize treatment self disk in
  (0 < Linear.history_points (_linear_predictor treatment ready))%Z ->
  (forall history, glucose_history = Some history ->
     Forall (fun r => exists v, reading_value r = Ok v) history) ->
  exists r,
    snd (run_predict self disk utcnow current_bg trend iob glucose_history
           treatments) = Ok r
    /\ isf r = get_isf ready iob
    /\ ((length (Features._glucose_buffer treatment
                   (_feature_engineer treatment ready)) < Features.SEQ_LENGTH)%nat
        \/ isf_available treatment ready = false ->
        isf r = fallback_isf ready).
Proof.
  intros ready Hhp Hnum.
  destruct (linear_baseline_returns polyfit treatment ready current_bg trend
              glucose_history Hhp Hnum) as [lp Hlp].
  destruct (predict_unfold self disk utcnow current_bg trend iob
              glucose_history treatments lp Hlp) as (fe & lstm_preds & m & E & _).
  fold ready in E. rewrite E. cbn [snd]. eexists. split; [reflexivity|].
  cbn [isf]. split; [reflexivity|].
  intros Hcase. unfold _get_isf, fallback_isf.
  destruct (isf_available treatment ready) eqn:Hav; [|reflexivity].
  destruct Hcase as [Hshort|Hfalse]; [|discriminate].
  unfold get_feature_sequence.
  now rewrite Features.get_feature_sequence_insufficient by exact Hshort.
Qed.

Lemma get_isf_bounds (self : Service) (iob : R) :
  (forall svc, _isf_service treatment self = Some svc -> ISF.reachable svc) ->
  10 <= get_isf self iob <= 150.
Proof.
  intros Hreach. unfold _get_isf, isf_available.
  destruct (_isf_service treatment self) as [svc|] eqn:Hsvc; [|lra].
  pose proof (ISF.default_isf_in_range svc (Hreach svc eq_refl)) as Hd.
  destruct (ISF.is_loaded svc); [|exact Hd].
  destruct (get_feature_sequence _ _ _ _ _ _ _) as [[sequence|]|e];
    try exact Hd.
  destruct (ISF.predict_cases svc sequence) as (v & Hv & Hcase).
  rewrite Hv.
  destruct Hcase as [[_ ->]|[(net & e & _ & _ & _ & ->)|(net & out & _ & _ & _ & ->)]];
    try exact Hd.
  apply clamp_bounds. lra.
Qed.

(** X17. On a service whose sensitivity service, if any, is in a state
    that [__init__], [load] and [set_default_isf] produce, [_get_isf]
    returns a value within 10..150 mg/dL per unit; it is 50 when there is
    no sensitivity service, and the service default when the sensitivity
    model is not loaded. *)
Theorem get_isf_in_range (self : Service) (iob : R) :
  (forall svc, _isf_service treatment self = Some svc -> ISF.reachable svc) ->
  10 <= get_isf self iob <= 150
  /\ (_isf_service treatment self = None -> get_isf self iob = 50)
  /\ (isf_available treatment self = false ->
      get_isf self iob = fallback_isf self).
Proof.
  intros Hreach. split; [now apply get_isf_bounds|].
  unfold _get_isf, fallback_isf, isf_available. split.
  - intros ->. reflexivity.
  - intros ->. reflexivity.
Qed.

End ServiceRanges.

(** *** When the LSTM path is taken, and when it is lost *)

Section LstmPath.

Variable polyfit : list R -> list R -> option (R * R).
Variable dt : string -> datetime -> R.
Variable np_polyfit : list R -> list R -> nat -> result (list R).
Variable treatment : Type.
Variable merge_treatments :
  Features.DataFrame -> list treatment ->
  result (nat -> string -> option R -> option R).
Variable newer_than : datetime -> treatment -> result bool.

Local Abbreviation Service := (PredictionService treatment).
Local Abbreviation attempt :=
  (lstm_attempt dt np_polyfit treatment merge_treatments newer_than).
Local Abbreviation baseline := (linear_baseline polyfit treatment).
Local Abbreviation run_predict :=
  (predict polyfit dt np_polyfit treatment merge_treatments newer_than).

(** A treatment whose timestamp comparison raises, whatever the cut-off. *)
Definition unreadable (bad : treatment) : Prop :=
  forall cutoff, exists e, newer_than cutoff bad = Raise e.

Lemma keep_recent_raises cutoff (ts : list treatment) bad :
  unreadable bad -> In bad ts ->
  exists e, Features.keep_recent treatment newer_than cutoff ts = Raise e.
Proof.
  intros Hbad. induction ts as [|t ts IH]; intros Hin; [contradiction|].
  cbn [Features.keep_recent].
  destruct (newer_than cutoff t) as [keep|e] eqn:E; cbn [bind];
    [|now exists e].
  destruct Hin as [->|Hin].
  - destruct (Hbad cutoff) as [e He]. congruence.
  - destruct (IH Hin) as [e He]. rewrite He. cbn [bind]. now exists e.
Qed.

Lemma add_treatments_raises utcnow (ts : list treatment) bad :
  unreadable bad -> In bad ts ->
  forall fe, exists e,
    snd (add_treatments treatment newer_than fe utcnow ts) = Raise e.
Proof.
  intros Hbad. induction ts as [|t ts IH]; intros Hin fe; [contradiction|].
  cbn [add_treatments]. unfold Features.add_treatment.
  destruct (Features.keep_recent treatment newer_than _ _) as [kept|e] eqn:E.
  - destruct Hin as [->|Hin].
    + destruct (keep_recent_raises
                  (utcnow - INR (Features.history_min treatment fe) * 60)
                  (Features._treatment_buffer treatment fe ++ [bad]) bad Hbad)
        as [e He]; [apply in_or_app; right; now left|].
      congruence.
    + apply IH. exact Hin.
  - now exists e.
Qed.

(** X26. One treatment whose timestamp cannot be compared loses the LSTM
    path for the call: with a positive [history_points] and numeric
    readings, [predict] still returns, tagged "linear", with no LSTM
    predictions, whatever model is loaded. *)
Theorem unreadable_treatment_gives_linear (self : Service)
    (disk : option (BG.BGInferenceService * ISF.ISFInferenceService))
    (utcnow : datetime) (current_bg : R) (trend : Z) (iob : R)
    (glucose_history : option (list Features.dict))
    (treatments : list treatment) (bad : treatment) :
  let ready :=
    if _initialized treatment self then self else initialize treatment self disk in
  (0 < Linear.history_points (_linear_predictor treatment ready))%Z ->
  (forall history, glucose_history = Some history ->
     Forall (fun r => exists v, reading_value r = Ok v) history) ->
  unreadable bad -> In bad treatments ->
  exists r,
    snd (run_predict self disk utcnow current_bg trend iob glucose_history
           (Some treatments)) = Ok r
    /\ method r = "linear" /\ lstm r = None
    /\ baseline ready current_bg trend glucose_history = Ok (linear r).
Proof.
  intros ready Hhp Hnum Hbad Hin.
  destruct (linear_baseline_returns polyfit treatment ready current_bg trend
              glucose_history Hhp Hnum) as [lp Hlp].
  destruct (predict_unfold polyfit dt np_polyfit treatment merge_treatments
              newer_than self disk utcnow current_bg trend iob
              glucose_history (Some treatments) lp Hlp)
    as (fe & lstm_preds & m & E & Hc).
  fold ready in E, Hc. rewrite E. cbn [snd]. eexists. split; [reflexivity|].
  cbn [method lstm linear].
  assert (Hnone : lstm_preds = None).
  { destruct Hc as [(_ & Hn & _)|(history & _ & _ & _ & _ & [Hat|[Hn _]])];
      try exact Hn.
    exfalso. unfold lstm_attempt in Hat.
    destruct treatments as [|t ts]; [contradiction|].
    destruct (add_treatments_raises utcnow (t :: ts) bad Hbad Hin
                (refill treatment (_feature_engineer treatment ready) history))
      as [e He].
    destruct (add_treatments treatment newer_than _ utcnow (t :: ts))
      as [fe' added].
    cbn [snd] in He, Hat. rewrite He in Hat. discriminate. }
  rewrite Hnone. cbn [truthy]. split; [reflexivity|].
  split; [reflexivity | exact Hlp].
Qed.

Lemma skipn_In {A : Type} (k : nat) (l : list A) (x : A) :
  In x (skipn k l) -> In x l.
Proof.
  revert l. induction k as [|k IH]; intros l H; [exact H|].
  destruct l as [|a l]; [exact H|]. right. now apply IH.
Qed.

Lemma reading_value_of_get (d : Features.dict) :
  Features.get d "value" <> None -> exists v, reading_value d = Ok v.
Proof.
  unfold Features.get, reading_value.
  destruct (find (fun kv => String.eqb "value" (fst kv)) d) as [[k [v|]]|];
    intros H; try now elim H.
  now exists v.
Qed.

(** X27. The LSTM path is taken when it can be: on a service whose
    glucose model is loaded and answers every sequence with at least one
    value, a call without treatments, with a history of at least
    [SEQ_LENGTH] readings that each carry a timestamp and a value, on an
    engineer that buffers at least [SEQ_LENGTH] readings, returns a result
    tagged "lstm" whose LSTM predictions are the model's answer clamped to
    40..400 mg/dL. *)
Theorem lstm_path_taken (self : Service)
    (disk : option (BG.BGInferenceService * ISF.ISFInferenceService))
    (utcnow : datetime) (current_bg : R) (trend : Z) (iob : R)
    (history : list Features.dict) (bg : BG.BGInferenceService)
    (net : BG.BGNet) :
  let ready :=
    if _initialized treatment self then self else initialize treatment self disk in
  (0 < Linear.history_points (_linear_predictor treatment ready))%Z ->
  (Features.SEQ_LENGTH <= length history)%nat ->
  (Features.SEQ_LENGTH
   <= Features.max_readings treatment (_feature_engineer treatment ready))%nat ->
  Forall (fun d => Features.get d "timestamp" <> None
                   /\ Features.get d "value" <> None) history ->
  _bg_service treatment ready = Some bg ->
  BG.is_loaded bg = true -> BG.model bg = Some net ->
  (forall sequence, exists raw scaled,
     net sequence = Ok (raw, scaled) /\ raw <> []) ->
  exists r raw,
    snd (run_predict self disk utcnow current_bg trend iob (Some history) None)
    = Ok r
    /\ method r = "lstm"
    /\ lstm r = Some (map (clamp 40 400) raw)
    /\ raw <> [].
Proof.
  intros ready Hhp Hlen Hcap Hall Hbg Hloaded Hmodel Hnet.
  assert (Hne : history <> []).
  { destruct history; [|discriminate].
    unfold Features.SEQ_LENGTH in Hlen. simpl in Hlen. lia. }
  assert (Hnum : forall h, Some history = Some h ->
            Forall (fun r => exists v, reading_value r = Ok v) h).
  { intros h H. injection H as <-. eapply Forall_impl; [|exact Hall].
    intros d [_ Hv]. now apply reading_value_of_get. }
  destruct (linear_baseline_returns polyfit treatment ready current_bg trend
              (Some history) Hhp Hnum) as [lp Hlp].
  destruct (predict_unfold polyfit dt np_polyfit treatment merge_treatments
              newer_than self disk utcnow current_bg trend iob
              (Some history) None lp Hlp)
    as (fe & lstm_preds & m & E & Hc).
  fold ready in E, Hc.
  assert (Hav : lstm_available treatment ready = true)
    by (unfold lstm_available; now rewrite Hbg).
  (* the engineer after the refill *)
  set (fe0 := refill treatment (_feature_engineer treatment ready) history).
  destruct (Features.add_glucose_readings_kept treatment history
              (Features.clear treatment (_feature_engineer treatment ready)))
    as (_ & Htr & Hbuf).
  { unfold Features.kept_readings.
    cbn [Features._glucose_buffer Features.clear].
    destruct (_ =? _)%nat; reflexivity. }
  cbv zeta in Htr, Hbuf. fold (refill treatment (_feature_engineer treatment ready)
                                 history) in Htr, Hbuf. fold fe0 in Htr, Hbuf.
  cbn [Features.clear Features._treatment_buffer Features._glucose_buffer
       Features.max_readings app] in Htr, Hbuf.
  set (mr := Features.max_readings treatment (_feature_engineer treatment ready))
    in *.
  assert (Hkept : Features._glucose_buffer treatment fe0
                  = skipn (length history - mr) history).
  { rewrite Hbuf. unfold Features.kept_readings.
    destruct (Nat.eqb_spec mr 0) as [Ez|_]; [|reflexivity].
    unfold Features.SEQ_LENGTH in Hcap. lia. }
  destruct (Features.get_feature_sequence_returns dt np_polyfit treatment
              merge_treatments fe0 iob Features.SEQ_LENGTH)
    as (sequence & Hseq & _).
  { rewrite Hkept, length_skipn. unfold Features.SEQ_LENGTH in *. lia. }
  { rewrite Hkept. apply Forall_forall. intros d Hd.
    apply skipn_In in Hd. rewrite Forall_forall in Hall.
    now destruct (Hall d Hd). }
  { left.
    assert (Hk : skipn (length history - mr) history <> []).
    { intros Hk. apply (f_equal (@length _)) in Hk.
      rewrite length_skipn in Hk. unfold Features.SEQ_LENGTH in *.
      simpl in Hk. lia. }
    rewrite Hkept.
    destruct (skipn (length history - mr) history) as [|d rest] eqn:Es;
      [congruence|].
    apply Features.from_dicts_has_column with d; [now left|].
    assert (Hd : In d history) by (apply skipn_In with (length history - mr)%nat;
                                   rewrite Es; now left).
    rewrite Forall_forall in Hall. now destruct (Hall d Hd). }
  { now left. }
  destruct (Hnet sequence) as (raw & scaled & Hraw & Hrawne).
  assert (Hat : attempt ready utcnow iob history None
                = (fe0, Ok (Some (map (clamp 40 400) raw), "lstm"))).
  { unfold lstm_attempt. fold fe0. f_equal. cbn [bind].
    unfold get_feature_sequence. rewrite Hseq. cbn [bind]. rewrite Hbg.
    unfold BG.predict. rewrite Hloaded, Hmodel, Hraw. reflexivity. }
  rewrite E. cbn [snd]. eexists. exists raw. split; [reflexivity|].
  cbn [method lstm].
  destruct Hc as [(_ & _ & [H|[H|H]])|(history' & Hh & _ & _ & _ & [Hok|[_ [e He]]])].
  - congruence.
  - discriminate.
  - injection H as ->. congruence.
  - injection Hh as <-. rewrite Hat in Hok. cbn [snd] in Hok.
    injection Hok as <- <-.
    destruct raw as [|x raw]; [congruence|]. cbn [map truthy].
    repeat split; try reflexivity. discriminate.
  - injection Hh as <-. rewrite Hat in He. discriminate.
Qed.

End LstmPath.

(** A concrete service: no calendar, a fit that raises, treatments that
    never expire, and a glucose model that answers out of range. *)
Definition fit_raises : list R -> list R -> option (R * R) := fun _ _ => None.

Definition always_recent : datetime -> unit -> result bool := fun _ _ => Ok true.

Definition wild_model : BG.BGInferenceService :=
  BG.mkBGInferenceService (Some (fun _ => Ok ([500; 30; 100], []))) true.

Definition short_history : list Features.dict :=
  [Features.dated_reading 0; Features.dated_reading 1].

Definition sample_predict
    : PredictionService unit * result PredictionResult :=
  predict fit_raises Features.no_calendar Features.no_polyfit unit
    Features.no_merge always_recent (init unit) (Some (wild_model, ISF.init))
    600 120 0 0 (Some short_history) None.

Lemma short_history_numeric :
  forall history, Some short_history = Some history ->
    Forall (fun r => exists v, reading_value r = Ok v) history.
Proof.
  intros history H. injection H as <-.
  repeat constructor; eexists; reflexivity.
Qed.

Lemma predict_result_in_range_witness :
  exists r,
    snd sample_predict = Ok r
    /\ Forall (fun p => 40 <= p <= 400) (linear r)
    /\ (forall l, lstm r = Some l -> Forall (fun p => 40 <= p <= 400) l).
Proof.
  destruct (predict_result_in_range fit_raises Features.no_calendar
              Features.no_polyfit unit Features.no_merge always_recent
              (init unit) (Some (wild_model, ISF.init)) 600 120 0 0
              (Some short_history) None)
    as (r & Hr & _ & Hlin & Hlstm & _).
  - simpl. lia.
  - exact short_history_numeric.
  - exists r. split; [exact Hr|]. split; [exact Hlin | exact Hlstm].
Defined.

Lemma predict_rebuilds_reading_buffer_witness :
  Features._glucose_buffer unit (_feature_engineer unit (fst sample_predict))
  = Features.kept_readings 36 short_history.
Proof.
  destruct (predict_rebuilds_reading_buffer fit_raises Features.no_calendar
              Features.no_polyfit unit Features.no_merge always_recent
              (init unit) (Some (wild_model, ISF.init)) 600 120 0 0
              (Some short_history) None) as [H _].
  - simpl. lia.
  - exact short_history_numeric.
  - destruct (H short_history eq_refl) as [H1 _].
    + discriminate.
    + reflexivity.
    + exact H1.
Defined.

Lemma predict_isf_from_previous_buffer_witness :
  exists r, snd sample_predict = Ok r /\ isf r = 50.
Proof.
  destruct (predict_isf_from_previous_buffer fit_raises Features.no_calendar
              Features.no_polyfit unit Features.no_merge always_recent
              (init unit) (Some (wild_model, ISF.init)) 600 120 0 0
              (Some short_history) None)
    as (r & Hr & _ & Hfall).
  - simpl. lia.
  - exact short_history_numeric.
  - exists r. split; [exact Hr|]. rewrite Hfall; [reflexivity|].
    left. simpl. unfold Features.SEQ_LENGTH. lia.
Defined.

Lemma get_isf_in_range_witness :
  10 <= _get_isf Features.no_calendar Features.no_polyfit unit Features.no_merge
          (initialize unit (init unit) (Some (wild_model, ISF.init))) 0
     <= 150.
Proof.
  apply (get_isf_in_range Features.no_calendar Features.no_polyfit unit
           Features.no_merge
           (initialize unit (init unit) (Some (wild_model, ISF.init))) 0).
  intros svc H. injection H as <-. constructor.
Defined.

(** Treatments as flags: [true] is a treatment whose timestamp raises. *)
Definition flag_recent : datetime -> bool -> result bool :=
  fun _ bad => if bad then Raise TypeError else Ok true.

Lemma unreadable_treatment_gives_linear_witness :
  exists r,
    snd (predict fit_raises Features.no_calendar Features.no_polyfit bool
           (fun _ _ => Raise RuntimeError) flag_recent (init bool)
           (Some (wild_model, ISF.init)) 600 120 0 0 (Some short_history)
           (Some [false; true])) = Ok r
    /\ method r = "linear" /\ lstm r = None.
Proof.
  destruct (unreadable_treatment_gives_linear fit_raises Features.no_calendar
              Features.no_polyfit bool (fun _ _ => Raise RuntimeError)
              flag_recent (init bool) (Some (wild_model, ISF.init))
              600 120 0 0 (Some short_history) [false; true] true)
    as (r & H1 & H2 & H3 & _).
  - simpl. lia.
  - exact short_history_numeric.
  - intros cutoff. exists TypeError. reflexivity.
  - right. now left.
  - exists r. auto.
Defined.

(** Twenty-four dated readings and a loaded model. *)
Lemma lstm_path_taken_witness :
  exists r raw,
    snd (predict fit_raises Features.no_calendar Features.no_polyfit unit
           Features.no_merge always_recent (init unit)
           (Some (wild_model, ISF.init)) 7200 120 0 0
           (Some (map Features.dated_reading (seq 0 24))) None) = Ok r
    /\ method r = "lstm"
    /\ lstm r = Some (map (clamp 40 400) raw)
    /\ raw <> [].
Proof.
  apply (lstm_path_taken fit_raises Features.no_calendar Features.no_polyfit
           unit Features.no_merge always_recent (init unit)
           (Some (wild_model, ISF.init)) 7200 120 0 0
           (map Features.dated_reading (seq 0 24)) wild_model
           (fun _ => Ok ([500; 30; 100], []))).
  - simpl. lia.
  - rewrite length_map, length_seq. unfold Features.SEQ_LENGTH. lia.
  - unfold Features.SEQ_LENGTH. simpl. lia.
  - apply Forall_forall. intros d Hd.
    apply in_map_iff in Hd as (i & <- & _). split; discriminate.
  - reflexivity.
  - reflexivity.
  - reflexivity.
  - intros sequence. do 2 eexists. split; [reflexivity | discriminate].
Defined.

End Prediction.

(** ** Calculation endpoints: [api/v1/calculations.py] *)

Module CalculationsApi.
Import PyFloat.

Definition datetime : Type := R.

(** [x or y] on an optional float: [None] and [0.0] are falsy. *)
Definition or_else (x : option R) (y : R) : R :=
  match x with
  | Some v => if Reqb v 0 then y else v
  | None => y
  end.

(** [int(x)]: truncation towards zero. *)
Definition int_of (x : R) : Z :=
  if Rleb 0 x then Zfloor x else Zceil x.

Record ActiveInsulinDetail : Type := mkActiveInsulinDetail {
  timestamp : datetime;
  original_dose : R;
  remaining : R;
  minutes_ago : Z;
  percent_remaining : R
}.

Record ActiveInsulinResponse : Type := mkActiveInsulinResponse {
  total_iob : R;
  doses : list ActiveInsulinDetail;
  response_timestamp : datetime
}.

(** One pass of the [for t in insulin_treatments] loop of
    [get_active_insulin]; the state is [(doses, total_iob)]. *)
Definition active_step (now : datetime)
    (state : list ActiveInsulinDetail * R) (t : IOBCOB.Treatment)
    : list ActiveInsulinDetail * R :=
  let '(doses, total_iob) := state in
  let minutes_ago := (now - IOBCOB.timestamp t) / 60 in
  let half_life := 81 in
  let remaining :=
    or_else (IOBCOB.insulin t) 0 * Rpower (1 / 2) (minutes_ago / half_life) in
  if Rltb remaining (1 / 100) then state
  else
    let percent_remaining := remaining / or_else (IOBCOB.insulin t) 1 * 100 in
    (doses ++
     [mkActiveInsulinDetail (IOBCOB.timestamp t) (or_else (IOBCOB.insulin t) 0)
        (py_round remaining 2) (int_of minutes_ago)
        (py_round percent_remaining 1)],
     total_iob + remaining).

(** [doses.sort(key=lambda x: x.timestamp, reverse=True)]: a stable sort,
    most recent first. *)
Fixpoint insert_desc (x : ActiveInsulinDetail) (l : list ActiveInsulinDetail)
    : list ActiveInsulinDetail :=
  match l with
  | [] => [x]
  | y :: rest =>
      if Rltb (timestamp y) (timestamp x) then x :: y :: rest
      else y :: insert_desc x rest
  end.

Definition sort_desc (l : list ActiveInsulinDetail) : list ActiveInsulinDetail :=
  fold_left (fun sorted x => insert_desc x sorted) l [].

(** [get_active_insulin] on the treatments the repository returned and
    the clock reading [now]. *)
Definition get_active_insulin (now : datetime)
    (treatments : list IOBCOB.Treatment) : ActiveInsulinResponse :=
  let insulin_treatments :=
    filter (fun t => Rltb 0 (or_else (IOBCOB.insulin t) 0)) treatments in
  let '(doses, total_iob) :=
    fold_left (active_step now) insulin_treatments ([], 0) in
  mkActiveInsulinResponse (py_round total_iob 2) (sort_desc doses) now.

(** *** Properties of the breakdown *)

(** What holds of one listed dose. *)
Definition listed_dose_ok (now : datetime) (d : ActiveInsulinDetail) : Prop :=
  0 < original_dose d
  /\ 1 / 100 <= remaining d
  /\ 0 <= percent_remaining d
  /\ (timestamp d <= now ->
      remaining d <= py_round (original_dose d) 2
      /\ percent_remaining d <= 100).

Lemma or_else_positive (o : option R) :
  0 < or_else o 0 -> exists a, o = Some a /\ 0 < a
                               /\ or_else o 0 = a /\ or_else o 1 = a.
Proof.
  unfold or_else. destruct o as [a|]; [|lra].
  destruct (Reqb a 0) eqn:E; [lra|]. intros H. now exists a.
Qed.

Lemma py_round_hundredth x : 1 / 100 <= x -> 1 / 100 <= py_round x 2.
Proof.
  intros H. replace (1 / 100) with (py_round (IZR 1 / 10 ^ 2) 2) at 1.
  - apply py_round_le. simpl. lra.
  - rewrite py_round_IZR. simpl. lra.
Qed.

Lemma active_step_ok now state t :
  0 < or_else (IOBCOB.insulin t) 0 ->
  Forall (listed_dose_ok now) (fst state) -> 0 <= snd state ->
  Forall (listed_dose_ok now) (fst (active_step now state t))
  /\ 0 <= snd (active_step now state t)
  /\ (length (fst (active_step now state t)) <= S (length (fst state)))%nat.
Proof.
  intros Hpos Hall Htot. destruct state as [doses total]. cbn [fst snd] in *.
  unfold active_step. cbv zeta.
  destruct (or_else_positive _ Hpos) as (a & Ha & Ha0 & E0 & E1).
  rewrite E0, E1.
  set (m := (now - IOBCOB.timestamp t) / 60).
  destruct (Rltb (a * Rpower (1 / 2) (m / 81)) (1 / 100)) eqn:Hsmall.
  - cbn [fst snd]. split; [exact Hall|]. split; [exact Htot | lia].
  - apply Rltb_false in Hsmall. cbn [fst snd].
    pose proof (half_pow_pos (m / 81)) as Hp.
    split; [|split].
    + apply Forall_app. split; [exact Hall|]. constructor; [|constructor].
      unfold listed_dose_ok.
      cbn [original_dose remaining percent_remaining timestamp].
      split; [exact Ha0|]. split; [now apply py_round_hundredth|].
      assert (Hfrac : a * Rpower (1 / 2) (m / 81) / a = Rpower (1 / 2) (m / 81))
        by (field; lra).
      rewrite Hfrac. split; [apply py_round_nonneg; lra|].
      intros Hpast.
      assert (Hm : 0 <= m / 81).
      { subst m. unfold Rdiv.
        apply Rmult_le_pos; [apply Rmult_le_pos|]; lra. }
      assert (Hle : Rpower (1 / 2) (m / 81) <= 1).
      { pose proof (half_pow_antitone 0 (m / 81) Hm) as H.
        rewrite Rpower_O in H by lra. exact H. }
      split.
      * apply py_round_le. nra.
      * apply Rle_trans with (py_round (IZR 100) 1);
          [apply py_round_le; lra | rewrite py_round_integer; lra].
    + nra.
    + rewrite length_app. simpl. lia.
Qed.

Lemma active_loop_ok now ts :
  forall state,
    Forall (fun t => 0 < or_else (IOBCOB.insulin t) 0) ts ->
    Forall (listed_dose_ok now) (fst state) -> 0 <= snd state ->
    Forall (listed_dose_ok now) (fst (fold_left (active_step now) ts state))
    /\ 0 <= snd (fold_left (active_step now) ts state)
    /\ (length (fst (fold_left (active_step now) ts state))
        <= length ts + length (fst state))%nat.
Proof.
  induction ts as [|t ts IH]; intros state Hts Hall Htot; cbn [fold_left].
  - split; [exact Hall|]. split; [exact Htot | simpl; lia].
  - inversion Hts as [|? ? Ht Hts']; subst.
    destruct (active_step_ok now state t Ht Hall Htot) as (H1 & H2 & H3).
    destruct (IH (active_step now state t) Hts' H1 H2) as (I1 & I2 & I3).
    split; [exact I1|]. split; [exact I2|]. simpl. lia.
Qed.

Definition most_recent_first (a b : ActiveInsulinDetail) : Prop :=
  timestamp b <= timestamp a.

Lemma insert_desc_In x l y : In y (insert_desc x l) <-> y = x \/ In y l.
Proof.
  induction l as [|z l IH]; simpl.
  - split; intros [H|H]; auto; contradiction.
  - destruct (Rltb (timestamp z) (timestamp x)); simpl.
    + split; intros H; intuition auto.
    + rewrite IH. split; intros H; intuition auto.
Qed.

Lemma insert_desc_sorted x l :
  StronglySorted most_recent_first l ->
  StronglySorted most_recent_first (insert_desc x l).
Proof.
  induction 1 as [|z l Hs IH Hz]; simpl.
  - constructor; constructor.
  - destruct (Rltb (timestamp z) (timestamp x)) eqn:E.
    + apply Rltb_true in E. constructor; [constructor; assumption|].
      constructor; [unfold most_recent_first; lra|].
      rewrite Forall_forall in *. intros y Hy. specialize (Hz y Hy).
      unfold most_recent_first in *. lra.
    + apply Rltb_false in E. constructor; [exact IH|].
      rewrite Forall_forall in *. intros y Hy.
      apply insert_desc_In in Hy as [->|Hy]; [exact E | now apply Hz].
Qed.

Lemma insert_desc_length x l : length (insert_desc x l) = S (length l).
Proof.
  induction l as [|z l IH]; simpl; [reflexivity|].
  destruct (Rltb _ _); simpl; [reflexivity | now rewrite IH].
Qed.

Lemma sort_desc_spec l :
  StronglySorted most_recent_first (sort_desc l)
  /\ length (sort_desc l) = length l
  /\ (forall y, In y (sort_desc l) <-> In y l).
Proof.
  unfold sort_desc.
  assert (H : forall acc,
    StronglySorted most_recent_first acc ->
    StronglySorted most_recent_first
      (fold_left (fun sorted x => insert_desc x sorted) l acc)
    /\ length (fold_left (fun sorted x => insert_desc x sorted) l acc)
       = (length l + length acc)%nat
    /\ (forall y, In y (fold_left (fun sorted x => insert_desc x sorted) l acc)
                  <-> In y l \/ In y acc)).
  { induction l as [|x l IH]; intros acc Hacc; cbn [fold_left].
    - split; [exact Hacc|]. split; [reflexivity|]. intros y. simpl. tauto.
    - destruct (IH (insert_desc x acc) (insert_desc_sorted x acc Hacc))
        as (I1 & I2 & I3).
      split; [exact I1|]. split.
      + rewrite I2, insert_desc_length. simpl. lia.
      + intros y. rewrite I3, insert_desc_In. simpl. intuition auto. }
  destruct (H [] (SSorted_nil _)) as (H1 & H2 & H3).
  split; [exact H1|]. split; [rewrite H2; simpl; lia|].
  intros y. rewrite H3. simpl. tauto.
Qed.

(** X21. Whatever the treatments, the breakdown of [get_active_insulin]
    lists at most one dose per treatment, most recent first; every listed
    dose has a positive original dose, at least 0.01 units remaining and
    a percentage that is not negative, and a dose logged no later than
    the clock reading has no more remaining than its (rounded) original
    dose and at most 100 percent; the total is not negative. *)
Theorem active_insulin_breakdown (now : datetime)
    (treatments : list IOBCOB.Treatment) :
  let response := get_active_insulin now treatments in
  0 <= total_iob response
  /\ (length (doses response) <= length treatments)%nat
  /\ StronglySorted most_recent_first (doses response)
  /\ Forall (listed_dose_ok now) (doses response)
  /\ response_timestamp response = now.
Proof.
  intros response. subst response. unfold get_active_insulin. cbv zeta.
  set (l := filter _ treatments).
  destruct (active_loop_ok now l ([], 0)) as (H1 & H2 & H3).
  { apply Forall_forall. intros t Ht. apply filter_In in Ht as [_ Ht].
    now apply Rltb_true in Ht. }
  { constructor. }
  { simpl. lra. }
  destruct (fold_left (active_step now) l ([], 0)) as [ds total].
  cbn [fst snd total_iob doses response_timestamp length] in *.
  destruct (sort_desc_spec ds) as (S1 & S2 & S3).
  split; [now apply py_round_nonneg|]. split; [|split; [exact S1|split]].
  - rewrite S2. pose proof (filter_length_le
                              (fun t => Rltb 0 (or_else (IOBCOB.insulin t) 0))
                              treatments). fold l in H. lia.
  - rewrite Forall_forall in *. intros y Hy. apply H1. now apply S3.
  - reflexivity.
Qed.

(** The loop of [get_active_insulin] and the loop of [calculate_iob] add
    the same amounts when every dose is counted by both. *)
Lemma active_loop_decay_loop now ts :
  forall doses total,
    Forall (fun t =>
              IOBCOB.counted IOBCOB.insulin 180 now t = true
              /\ 1 / 100 <= or_else (IOBCOB.insulin t) 0
                            * Rpower (1 / 2) ((now - IOBCOB.timestamp t) / 60 / 81))
           ts ->
    IOBCOB.decay_loop IOBCOB.insulin 180 81 now ts total
    = Ok (snd (fold_left (active_step now) ts (doses, total))).
Proof.
  induction ts as [|t ts IH]; intros doses total Hall; cbn [fold_left].
  - reflexivity.
  - inversion Hall as [|? ? [Hc Hbig] Hall']; subst.
    unfold IOBCOB.counted in Hc.
    apply andb_prop in Hc as [Hc Hdur]. apply andb_prop in Hc as [Hpos H0].
    cbn [IOBCOB.decay_loop]. rewrite H0, Hdur. cbn [andb].
    unfold py_div.
    assert (E : Reqb 81 0 = false) by (apply Reqb_false; lra).
    rewrite E. cbn [bind].
    unfold IOBCOB.positive_amount in Hpos.
    destruct (IOBCOB.insulin t) as [a|] eqn:Ha; [|discriminate].
    apply Rltb_true in Hpos.
    assert (Ea : or_else (Some a) 0 = a).
    { unfold or_else. destruct (Reqb a 0) eqn:Ez; [|reflexivity].
      apply Reqb_true in Ez. lra. }
    unfold active_step at 2. cbv zeta. rewrite Ha, Ea.
    rewrite Ea in Hbig. unfold IOBCOB.time_elapsed.
    assert (Es : Rltb (a * Rpower (1 / 2) ((now - IOBCOB.timestamp t) / 60 / 81))
                   (1 / 100) = false) by (apply Rltb_false; exact Hbig).
    rewrite Es. apply IH. exact Hall'.
Qed.

(** X22. [get_active_insulin] has no duration cut-off.  When every dose
    with positive insulin is counted by [calculate_iob] (logged at most
    180 minutes before the clock reading) and has at least 0.01 units
    remaining, its total equals [calculate_iob] of the default service.
    A single dose older than 180 minutes with at least 0.01 units
    remaining is in the breakdown total and not in [calculate_iob]. *)
Theorem active_insulin_has_no_cutoff (now : datetime) :
  (forall treatments : list IOBCOB.Treatment,
     Forall (fun t =>
               0 < or_else (IOBCOB.insulin t) 0 ->
               IOBCOB.counted IOBCOB.insulin 180 now t = true
               /\ 1 / 100 <= or_else (IOBCOB.insulin t) 0
                             * Rpower (1 / 2)
                                 ((now - IOBCOB.timestamp t) / 60 / 81))
            treatments ->
     IOBCOB.calculate_iob IOBCOB.default_service now treatments None
     = Ok (total_iob (get_active_insulin now treatments)))
  /\
  (forall (e : IOBCOB.Treatment) (a : R),
     IOBCOB.insulin e = Some a -> 0 < a ->
     180 < (now - IOBCOB.timestamp e) / 60 ->
     1 / 100 <= a * Rpower (1 / 2) ((now - IOBCOB.timestamp e) / 60 / 81) ->
     IOBCOB.calculate_iob IOBCOB.default_service now [e] None = Ok 0
     /\ total_iob (get_active_insulin now [e])
        = py_round (a * Rpower (1 / 2) ((now - IOBCOB.timestamp e) / 60 / 81)) 2
     /\ 1 / 100 <= total_iob (get_active_insulin now [e])).
Proof.
  split.
  - intros treatments Hall.
    unfold IOBCOB.calculate_iob, get_active_insulin.
    destruct treatments as [|t0 rest] eqn:Et.
    { simpl. now rewrite py_round_0. }
    rewrite <- Et in *. clear Et t0 rest.
    cbn [IOBCOB.at_time_or IOBCOB.default_service IOBCOB.insulin_duration_min
         IOBCOB.insulin_half_life_min].
    assert (Hf : filter (fun t => IOBCOB.positive_amount (IOBCOB.insulin t))
                   treatments
                 = filter (fun t => Rltb 0 (or_else (IOBCOB.insulin t) 0))
                     treatments).
    { apply filter_ext. intros t. unfold IOBCOB.positive_amount, or_else.
      destruct (IOBCOB.insulin t) as [a|].
      - destruct (Reqb a 0) eqn:Ez; [|reflexivity].
        apply Reqb_true in Ez. subst a.
        destruct (Rltb 0 0) eqn:E; [|reflexivity].
        apply Rltb_true in E. lra.
      - symmetry. apply Rltb_false. lra. }
    rewrite Hf.
    set (l := filter _ treatments).
    rewrite (active_loop_decay_loop now l [] 0).
    + cbn [bind]. destruct (fold_left (active_step now) l ([], 0)) as [ds tot].
      reflexivity.
    + apply Forall_forall. intros t Ht. apply filter_In in Ht as [Hin Hp].
      rewrite Forall_forall in Hall. apply (Hall t Hin).
      now apply Rltb_true in Hp.
  - intros e a Ha Hpos Hold Hbig.
    assert (Hiob : IOBCOB.calculate_iob IOBCOB.default_service now [e] None = Ok 0).
    { apply IOBCOB.calculate_iob_cutoff. intros t [<-|[]].
      cbn [IOBCOB.at_time_or IOBCOB.default_service IOBCOB.insulin_duration_min].
      unfold IOBCOB.time_elapsed. exact Hold. }
    assert (Ea : or_else (Some a) 0 = a).
    { unfold or_else. destruct (Reqb a 0) eqn:Ez; [|reflexivity].
      apply Reqb_true in Ez. lra. }
    assert (Etot : total_iob (get_active_insulin now [e])
                   = py_round (a * Rpower (1 / 2)
                                     ((now - IOBCOB.timestamp e) / 60 / 81)) 2).
    { unfold get_active_insulin. cbn [filter]. rewrite Ha, Ea.
      assert (Ep : Rltb 0 a = true) by now apply Rltb_true.
      rewrite Ep. cbn [fold_left]. unfold active_step. cbv zeta.
      rewrite Ha, Ea.
      assert (Es : Rltb (a * Rpower (1 / 2)
                               ((now - IOBCOB.timestamp e) / 60 / 81))
                     (1 / 100) = false) by (apply Rltb_false; exact Hbig).
      rewrite Es. cbn [total_iob]. now rewrite Rplus_0_l. }
    split; [exact Hiob|]. split; [exact Etot|].
    rewrite Etot. now apply py_round_hundredth.
Qed.

(** Ten units logged 200 minutes before the clock reading. *)
Definition stale_bolus : IOBCOB.Treatment := IOBCOB.mkTreatment 0 (Some 10) None.

Lemma active_insulin_has_no_cutoff_witness :
  IOBCOB.calculate_iob IOBCOB.default_service 12000 [stale_bolus] None = Ok 0
  /\ 1 / 100 <= total_iob (get_active_insulin 12000 [stale_bolus]).
Proof.
  destruct (proj2 (active_insulin_has_no_cutoff 12000) stale_bolus 10)
    as (H1 & _ & H3).
  - reflexivity.
  - lra.
  - simpl. lra.
  - cbn [IOBCOB.timestamp stale_bolus].
    assert (H : Rpower (1 / 2) (INR 3) <= Rpower (1 / 2) ((12000 - 0) / 60 / 81)).
    { apply half_pow_antitone. simpl. lra. }
    rewrite Rpower_pow in H by lra. simpl in H. lra.
  - split; [exact H1 | exact H3].
Defined.

(** *** The dose endpoint *)

(** The three warnings of [calculate_dose]; the first prints
    [abs(raw_correction * isf)] without decimals. *)
Inductive Warning : Type :=
| ExpectedDrop (mgdl : R)
| LowGlucose
| HighIob.

(** [DoseCalculationResponse].  The [formula] string prints the effective
    glucose, the target, the sensitivity and the raw correction; it is
    kept as these four numbers. *)
Record DoseCalculationResponse : Type := mkDoseCalculationResponse {
  current_bg : R;
  target_bg : R;
  effective_bg : R;
  iob : R;
  cob : R;
  isf : R;
  iob_effect_mgdl : R;
  cob_effect_mgdl : R;
  raw_correction_units : R;
  recommended_dose_units : R;
  formula : R * R * R * R;
  warning : option Warning;
  dose_timestamp : datetime
}.

Section DoseEndpoint.

Variable dt : string -> datetime -> R.
Variable np_polyfit : list R -> list R -> nat -> result (list R).
Variable treatment : Type.
Variable merge_treatments :
  Features.DataFrame -> list treatment ->
  result (nat -> string -> option R -> option R).

Local Abbreviation get_isf :=
  (Prediction._get_isf dt np_polyfit treatment merge_treatments).

(** [calculate_dose]: the fields of the request are the last four
    arguments; [iob_cob_service] is the module's service, [pred_service]
    the one [get_prediction_service] hands out, and the three clock
    readings are those of [calculate_iob], [calculate_cob] and the
    response.  An exception is the HTTP 500 answer. *)
Definition calculate_dose (iob_cob_service : IOBCOB.IOBCOBService)
    (pred_service : Prediction.PredictionService treatment)
    (utcnow utcnow' utcnow'' : datetime) (treatments : list IOBCOB.Treatment)
    (request_current_bg request_target_bg : R) (isf_override : option R)
    (include_cob : bool) : result DoseCalculationResponse :=
  iob <- IOBCOB.calculate_iob iob_cob_service utcnow treatments None ;;
  cob <- (if include_cob
          then IOBCOB.calculate_cob iob_cob_service utcnow' treatments None
          else Ok 0) ;;
  let isf := or_else isf_override (get_isf pred_service iob) in
  let cob_effect := cob * 4 in
  let iob_effect := iob * isf in
  let effective_bg := request_current_bg + cob_effect - iob_effect in
  raw_correction <- py_div (effective_bg - request_target_bg) isf ;;
  let recommended := Rmax 0 raw_correction in
  let warning :=
    if Rltb raw_correction (-1)
    then Some (ExpectedDrop (py_round (Rabs (raw_correction * isf)) 0))
    else if Rltb request_current_bg 70 then Some LowGlucose
    else if Rltb 5 iob then Some HighIob
    else None in
  Ok {| current_bg := request_current_bg;
        target_bg := request_target_bg;
        effective_bg := py_round effective_bg 0;
        iob := py_round iob 2;
        cob := py_round cob 1;
        isf := py_round isf 1;
        iob_effect_mgdl := py_round iob_effect 0;
        cob_effect_mgdl := py_round cob_effect 0;
        raw_correction_units := py_round raw_correction 2;
        recommended_dose_units := py_round recommended 2;
        formula := (py_round effective_bg 0, request_target_bg,
                    py_round isf 0, py_round raw_correction 2);
        warning := warning;
        dose_timestamp := utcnow'' |}.

(** The bounds that the request model checks on [isf_override]. *)
Definition valid_override (isf_override : option R) (hi : R) : Prop :=
  match isf_override with
  | Some x => 10 <= x <= hi
  | None => True
  end.

Lemma or_else_range (isf_override : option R) (hi fallback : R) :
  valid_override isf_override hi -> 10 <= fallback <= 150 -> 150 <= hi ->
  10 <= or_else isf_override fallback <= hi.
Proof.
  unfold valid_override, or_else. intros Hv Hf Hhi.
  destruct isf_override as [x|]; [|lra].
  destruct (Reqb x 0); lra.
Qed.

(** X23. For a request that passes validation, on services with non-zero
    half-lives and a sensitivity service in a state its methods produce,
    [calculate_dose] answers (no division by zero reaches the HTTP 500
    handler).  The sensitivity used lies in 10..200; the recommended dose
    is not negative and is the larger of 0 and the reported raw
    correction; a warning that the glucose is expected to drop comes with
    a recommended dose of 0 and a raw correction of -1 or below, and
    takes precedence over the low-glucose warning. *)
Theorem dose_endpoint_answers (iob_cob_service : IOBCOB.IOBCOBService)
    (pred_service : Prediction.PredictionService treatment)
    (utcnow utcnow' utcnow'' : datetime) (treatments : list IOBCOB.Treatment)
    (request_current_bg request_target_bg : R) (isf_override : option R)
    (include_cob : bool) :
  IOBCOB.insulin_half_life_min iob_cob_service <> 0 ->
  IOBCOB.carb_half_life_min iob_cob_service <> 0 ->
  (forall svc, Prediction._isf_service treatment pred_service = Some svc ->
     ISF.reachable svc) ->
  valid_override isf_override 200 ->
  exists response used_isf,
    calculate_dose iob_cob_service pred_service utcnow utcnow' utcnow''
      treatments request_current_bg request_target_bg isf_override include_cob
    = Ok response
    /\ 10 <= used_isf <= 200 /\ isf response = py_round used_isf 1
    /\ 0 <= iob response /\ 0 <= cob response
    /\ 0 <= recommended_dose_units response
    /\ recommended_dose_units response = Rmax 0 (raw_correction_units response)
    /\ (forall mgdl, warning response = Some (ExpectedDrop mgdl) ->
        recommended_dose_units response = 0
        /\ raw_correction_units response <= -1)
    /\ (warning response = Some LowGlucose ->
        request_current_bg < 70 /\ -1 <= raw_correction_units response)
    /\ (warning response = None ->
        70 <= request_current_bg /\ iob response <= 5).
Proof.
  intros Hi Hc Hreach Hvalid. unfold calculate_dose.
  destruct (IOBCOB.calculate_iob_nonneg iob_cob_service utcnow treatments None Hi)
    as (i & Ei & Hinn).
  rewrite Ei. cbn [bind].
  assert (Hcob : exists c,
            (if include_cob
             then IOBCOB.calculate_cob iob_cob_service utcnow' treatments None
             else Ok 0) = Ok c /\ 0 <= c).
  { destruct include_cob.
    - now apply IOBCOB.calculate_cob_nonneg.
    - exists 0. split; [reflexivity | lra]. }
  destruct Hcob as (c & Ec & Hcnn). rewrite Ec. cbn [bind].
  pose proof (or_else_range isf_override 200 (get_isf pred_service i) Hvalid
                (Prediction.get_isf_bounds dt np_polyfit treatment
                   merge_treatments pred_service i Hreach)
                ltac:(lra)) as Hisf.
  set (used := or_else isf_override (get_isf pred_service i)) in *.
  unfold py_div.
  assert (Ez : Reqb used 0 = false) by (apply Reqb_false; lra).
  rewrite Ez. cbn [bind].
  set (raw := (request_current_bg + c * 4 - i * used - request_target_bg) / used).
  eexists. exists used. split; [reflexivity|].
  cbn [isf iob cob recommended_dose_units raw_correction_units warning].
  split; [exact Hisf|]. split; [reflexivity|].
  split; [now apply py_round_nonneg|]. split; [now apply py_round_nonneg|].
  split; [apply py_round_nonneg, Rmax_l|].
  split; [apply py_round_Rmax_0|].
  assert (Hm1 : py_round (-1) 2 = -1) by apply (py_round_integer (-1) 2).
  split; [|split].
  - intros mgdl Hw.
    destruct (Rltb raw (-1)) eqn:Hlt.
    + apply Rltb_true in Hlt. split.
      * rewrite Rmax_left by lra. apply py_round_0.
      * rewrite <- Hm1. apply py_round_le. lra.
    + destruct (Rltb request_current_bg 70); [discriminate|].
      destruct (Rltb 5 i); discriminate.
  - intros Hw.
    destruct (Rltb raw (-1)) eqn:Hlt; [discriminate|].
    apply Rltb_false in Hlt.
    destruct (Rltb request_current_bg 70) eqn:Hlow.
    + apply Rltb_true in Hlow. split; [exact Hlow|].
      rewrite <- Hm1. apply py_round_le. lra.
    + destruct (Rltb 5 i); discriminate.
  - intros Hw.
    destruct (Rltb raw (-1)); [discriminate|].
    destruct (Rltb request_current_bg 70) eqn:Hlow; [discriminate|].
    apply Rltb_false in Hlow.
    destruct (Rltb 5 i) eqn:Hhigh; [discriminate|].
    apply Rltb_false in Hhigh. split; [exact Hlow|].
    apply Rle_trans with (py_round (IZR 5) 2);
      [apply py_round_le; exact Hhigh | rewrite py_round_integer; lra].
Qed.

End DoseEndpoint.

(** The default services, no treatments, a reading of 180 mg/dL. *)
Lemma dose_endpoint_answers_witness :
  exists response used_isf,
    calculate_dose Features.no_calendar Features.no_polyfit unit
      Features.no_merge IOBCOB.default_service (Prediction.init unit)
      0 0 0 [] 180 100 None true = Ok response
    /\ 10 <= used_isf <= 200 /\ isf response = py_round used_isf 1
    /\ 0 <= recommended_dose_units response.
Proof.
  destruct (dose_endpoint_answers Features.no_calendar Features.no_polyfit unit
              Features.no_merge IOBCOB.default_service (Prediction.init unit)
              0 0 0 [] 180 100 None true)
    as (response & used & H1 & H2 & H3 & _ & _ & H4 & _).
  - simpl. lra.
  - simpl. lra.
  - intros svc H. discriminate.
  - exact I.
  - exists response, used. auto.
Defined.

End CalculationsApi.

(** ** Prediction endpoints: [api/v1/predictions.py] *)

Module PredictionsApi.
Import PyFloat.

Definition datetime : Type := R.

Section DoseEndpoint.

Variable dt : string -> datetime -> R.
Variable np_polyfit : list R -> list R -> nat -> result (list R).
Variable treatment : Type.
Variable merge_treatments :
  Features.DataFrame -> list treatment ->
  result (nat -> string -> option R -> option R).

Local Abbreviation get_isf :=
  (Prediction._get_isf dt np_polyfit treatment merge_treatments).

(** [calculate_dose]: the three fields of the request are the last three
    arguments.  The endpoint builds an [IOBCOBService()] of its own; the
    clock readings are those of [calculate_iob], [calculate_cob] and the
    response, whose fields besides the timestamp are the dictionary of
    [calculate_dose_correction].  An exception is the HTTP 500 answer. *)
Definition calculate_dose
    (pred_service : Prediction.PredictionService treatment)
    (utcnow utcnow' utcnow'' : datetime) (treatments : list IOBCOB.Treatment)
    (current_bg target_bg : R) (isf : option R)
    : result (Dose.DoseCorrection * datetime) :=
  let iob_cob_service := IOBCOB.default_service in
  iob <- IOBCOB.calculate_iob iob_cob_service utcnow treatments None ;;
  cob <- IOBCOB.calculate_cob iob_cob_service utcnow' treatments None ;;
  let isf := CalculationsApi.or_else isf (get_isf pred_service iob) in
  result <- Dose.calculate_dose_correction current_bg target_bg isf iob cob
              Dose.default_cob_ratio ;;
  Ok (result, utcnow'').

(** X24. For a request that passes validation, on a prediction service
    whose sensitivity service is in a state its methods produce, the dose
    endpoint of the prediction API answers with a recommended dose that
    is not negative.  On the same treatments, clock readings and request,
    the dose endpoint of the calculation API (default IOB/COB service,
    carbs included) reports the same recommended dose, raw correction,
    IOB, COB and sensitivity. *)
Theorem dose_endpoints_agree
    (pred_service : Prediction.PredictionService treatment)
    (utcnow utcnow' utcnow'' : datetime) (treatments : list IOBCOB.Treatment)
    (current_bg target_bg : R) (isf : option R) :
  (forall svc, Prediction._isf_service treatment pred_service = Some svc ->
     ISF.reachable svc) ->
  CalculationsApi.valid_override isf 150 ->
  exists d response,
    calculate_dose pred_service utcnow utcnow' utcnow'' treatments
      current_bg target_bg isf = Ok (d, utcnow'')
    /\ CalculationsApi.calculate_dose dt np_polyfit treatment merge_treatments
         IOBCOB.default_service pred_service utcnow utcnow' utcnow''
         treatments current_bg target_bg isf true = Ok response
    /\ 0 <= Dose.recommended_dose_units d
    /\ 10 <= Dose.isf d <= 150
    /\ Dose.recommended_dose_units d
       = CalculationsApi.recommended_dose_units response
    /\ Dose.raw_correction_units d
       = CalculationsApi.raw_correction_units response
    /\ Dose.iob d = CalculationsApi.iob response
    /\ Dose.cob d = CalculationsApi.cob response
    /\ Dose.isf d = CalculationsApi.isf response.
Proof.
  intros Hreach Hvalid.
  unfold calculate_dose, CalculationsApi.calculate_dose. cbv zeta.
  destruct (IOBCOB.calculate_iob_nonneg IOBCOB.default_service utcnow
              treatments None) as (i & Ei & Hinn); [simpl; lra|].
  destruct (IOBCOB.calculate_cob_nonneg IOBCOB.default_service utcnow'
              treatments None) as (c & Ec & Hcnn); [simpl; lra|].
  rewrite Ei, Ec. cbn [bind].
  pose proof (CalculationsApi.or_else_range isf 150 (get_isf pred_service i)
                Hvalid
                (Prediction.get_isf_bounds dt np_polyfit treatment
                   merge_treatments pred_service i Hreach)
                ltac:(lra)) as Hisf.
  set (used := CalculationsApi.or_else isf (get_isf pred_service i)) in *.
  unfold Dose.calculate_dose_correction, Dose.default_cob_ratio, py_div.
  assert (Ez : Reqb used 0 = false) by (apply Reqb_false; lra).
  rewrite Ez. cbn [bind].
  do 2 eexists. split; [reflexivity|]. split; [reflexivity|].
  cbn [Dose.recommended_dose_units Dose.raw_correction_units Dose.iob Dose.cob
       Dose.isf CalculationsApi.recommended_dose_units
       CalculationsApi.raw_correction_units CalculationsApi.iob
       CalculationsApi.cob CalculationsApi.isf].
  split; [apply py_round_nonneg, Rmax_l|].
  split.
  { split.
    - apply Rle_trans with (py_round (IZR 10) 1);
        [rewrite py_round_integer; lra | apply py_round_le; lra].
    - apply Rle_trans with (py_round (IZR 150) 1);
        [apply py_round_le; lra | rewrite py_round_integer; lra]. }
  repeat split; reflexivity.
Qed.

End DoseEndpoint.

Lemma dose_endpoints_agree_witness :
  exists d response,
    calculate_dose Features.no_calendar Features.no_polyfit unit
      Features.no_merge (Prediction.init unit) 0 0 0
      [IOBCOB.fresh_bolus] 180 100 (Some 40) = Ok (d, 0)
    /\ CalculationsApi.calculate_dose Features.no_calendar Features.no_polyfit
         unit Features.no_merge IOBCOB.default_service (Prediction.init unit)
         0 0 0 [IOBCOB.fresh_bolus] 180 100 (Some 40) true = Ok response
    /\ Dose.recommended_dose_units d
       = CalculationsApi.recommended_dose_units response.
Proof.
  destruct (dose_endpoints_agree Features.no_calendar Features.no_polyfit unit
              Features.no_merge (Prediction.init unit) 0 0 0
              [IOBCOB.fresh_bolus] 180 100 (Some 40))
    as (d & response & H1 & H2 & _ & _ & H3 & _).
  - intros svc H. discriminate.
  - simpl. lra.
  - exists d, response. auto.
Defined.

End PredictionsApi.
